(** * CampusPulse: the commute-notification core of [app/main.py]

    A shallow embedding of location resolution, journey construction,
    e-mail rendering and the two periodic reminder jobs, together with
    the properties stated about them.

    Conventions of the embedding.
    - A Python [str] is a Rocq [string] of ASCII characters (the arrow
      in the rows of a route is written as its UTF-8 bytes).  Strings
      with other characters lie outside the embedding: on them
      [str.isdigit], [int], [str.strip], [str.lower] and [len] follow
      Unicode, which the definitions here do not.
    - A decoded JSON document is a [pyval]; a Python [dict] is an
      association list read at its first binding of a key.
    - A JSON number is a rational: an integer literal is that integer,
      a literal with a fraction or an exponent the double it decodes
      to.  [float] applied to an integer rounds it to the nearest double
      and raises [OverflowError] beyond the double range; [float]
      applied to a string is the parameter [float_of_str].
    - A [datetime] is a count of microseconds on the civil time line of
      the one timezone the program uses, a [date] a count of days.
      Where the program compares two [datetime] objects, a
      [pydatetime] records in addition whether the object carries a
      [tzinfo]: [datetime.now(TZ)] does, a value read from a
      [TIMESTAMP] column does not.
    - A raised exception is the [Raise] branch of [result]; code with
      effects (HTTP requests, the two dedup tables, the clock) runs in
      the state-and-exception monad [M] over [world]. *)

From Stdlib Require Import ZArith List String Ascii Bool Lia QArith Sorted Permutation.
Import ListNotations.

Local Open Scope string_scope.
Local Open Scope list_scope.
Local Open Scope Z_scope.

Infix "+++" := String.append (right associativity, at level 60).

Set Implicit Arguments.

(** ** Exceptions and results *)

Inductive exn : Type :=
| TypeError
| ValueError
| AttributeError
| KeyError
| IndexError
| OverflowError
| HTTPException (status_code : Z) (detail : string)
| HTTPStatusError (status_code : Z)
| RequestError (name : string)
| UniqueViolation.

Inductive result (A : Type) : Type :=
| Ok (a : A)
| Raise (e : exn).

Arguments Ok {A} a.
Arguments Raise {A} e.

Definition rbind {A B : Type} (r : result A) (k : A -> result B) : result B :=
  match r with
  | Ok a => k a
  | Raise e => Raise e
  end.

Notation "x <~ r ;; k" := (rbind r (fun x => k))
  (at level 61, r at next level, right associativity).

(** ** Python strings *)

Definition str_is_empty (s : string) : bool :=
  match s with
  | EmptyString => true
  | String _ _ => false
  end.

(** [s.split(sep)] for a one-character separator: never the empty list. *)
Fixpoint split_on (sep : ascii) (s : string) : list string :=
  match s with
  | EmptyString => [EmptyString]
  | String c s' =>
      if Ascii.eqb c sep then EmptyString :: split_on sep s'
      else match split_on sep s' with
           | seg :: segs => String c seg :: segs
           | [] => [String c EmptyString]
           end
  end.

Definition colon : ascii := ":"%char.

Definition is_ascii_digit (c : ascii) : bool :=
  let n := N_of_ascii c in ((48 <=? n) && (n <=? 57))%N.

Fixpoint all_chars (p : ascii -> bool) (s : string) : bool :=
  match s with
  | EmptyString => true
  | String c s' => p c && all_chars p s'
  end.

(** [s.isdigit()]: at least one character, and every character a digit. *)
Definition isdigit (s : string) : bool :=
  negb (str_is_empty s) && all_chars is_ascii_digit s.

(** ** Python values *)

#[warnings="-register-all"]
Inductive pyval : Type :=
| PNone
| PBool (b : bool)
| PNum (q : Q)
| PStr (s : string)
| PList (l : list pyval)
| PDict (kv : list (string * pyval)).

Definition is_nil {A : Type} (l : list A) : bool :=
  match l with
  | [] => true
  | _ :: _ => false
  end.

(** [bool(v)] *)
Definition truthy (v : pyval) : bool :=
  match v with
  | PNone => false
  | PBool b => b
  | PNum q => negb (Qnum q =? 0)
  | PStr s => negb (str_is_empty s)
  | PList l => negb (is_nil l)
  | PDict kv => negb (is_nil kv)
  end.

(** [a or b] *)
Definition py_or (a b : pyval) : pyval := if truthy a then a else b.

Fixpoint assoc (k : string) (kv : list (string * pyval)) : option pyval :=
  match kv with
  | [] => None
  | (k', v) :: rest => if String.eqb k' k then Some v else assoc k rest
  end.

(** [d[k] = v] on a dict: overwrite in place, or append a new key. *)
Fixpoint dict_set (k : string) (v : pyval) (kv : list (string * pyval))
  : list (string * pyval) :=
  match kv with
  | [] => [(k, v)]
  | (k', v') :: rest =>
      if String.eqb k' k then (k', v) :: rest else (k', v') :: dict_set k v rest
  end.

(** [v.get(k, default)]: only a dict has the method. *)
Definition py_get_default (v : pyval) (k : string) (default : pyval) : result pyval :=
  match v with
  | PDict kv => Ok (match assoc k kv with Some x => x | None => default end)
  | _ => Raise AttributeError
  end.

(** [v.get(k)] *)
Definition py_get (v : pyval) (k : string) : result pyval :=
  py_get_default v k PNone.

Fixpoint is_prefix (p s : string) : bool :=
  match p, s with
  | EmptyString, _ => true
  | String _ _, EmptyString => false
  | String a p', String b s' => Ascii.eqb a b && is_prefix p' s'
  end.

Fixpoint is_substring (p s : string) : bool :=
  is_prefix p s ||
  match s with
  | EmptyString => false
  | String _ s' => is_substring p s'
  end.

Definition is_py_str (k : string) (v : pyval) : bool :=
  match v with
  | PStr s => String.eqb s k
  | _ => false
  end.

(** [k in v] for a string [k]: a key of a dict, an element of a list, a
    substring of a string; the other values are not containers. *)
Definition py_in (k : string) (v : pyval) : result bool :=
  match v with
  | PDict kv => Ok (match assoc k kv with Some _ => true | None => false end)
  | PList l => Ok (existsb (is_py_str k) l)
  | PStr s => Ok (is_substring k s)
  | _ => Raise TypeError
  end.

(** [v[k]] for a string [k] *)
Definition py_item (v : pyval) (k : string) : result pyval :=
  match v with
  | PDict kv => match assoc k kv with Some x => Ok x | None => Raise KeyError end
  | _ => Raise TypeError
  end.

(** [float(n)] on an integer: [n] rounded to 53 significant bits, ties
    to even; [OverflowError] when the rounded value does not fit a
    double. *)
Definition float_of_int (n : Z) : result Q :=
  let a := Z.abs n in
  let bits := Z.log2 a + 1 in
  if bits <=? 53 then Ok (inject_Z n)
  else
    let k := bits - 53 in
    let m := Z.shiftr a k in
    let r := a - Z.shiftl m k in
    let half := Z.shiftl 1 (k - 1) in
    let m' := if (half <? r) || ((r =? half) && Z.odd m) then m + 1 else m in
    let v := Z.shiftl m' k in
    if 2 ^ 1024 <=? v then Raise OverflowError
    else Ok (inject_Z (Z.sgn n * v)).

Section Model.

(** [float(s)] on a string: [None] when Python raises [ValueError]. *)
Variable float_of_str : string -> option Q.

(** [float(v)] *)
Definition py_float (v : pyval) : result Q :=
  match v with
  | PNum q =>
      if Qnum q mod Z.pos (Qden q) =? 0 then float_of_int (Qnum q / Z.pos (Qden q))
      else Ok q
  | PBool b => Ok (if b then 1%Q else 0%Q)
  | PStr s => match float_of_str s with Some q => Ok q | None => Raise ValueError end
  | _ => Raise TypeError
  end.

(** [extract_coords] (main.py, 481-489) *)
Definition extract_coords (item : pyval) : result (option (Q * Q)) :=
  if negb (truthy item) then Ok None
  else
    has_lat <~ py_in "latitude" item ;;
    has_lon <~ (if has_lat then py_in "longitude" item else Ok false) ;;
    if has_lat && has_lon then
      lat_v <~ py_item item "latitude" ;;
      lat <~ py_float lat_v ;;
      lon_v <~ py_item item "longitude" ;;
      lon <~ py_float lon_v ;;
      Ok (Some (lat, lon))
    else
      loc0 <~ py_get item "location" ;;
      let loc := py_or loc0 (PDict []) in
      has_lat <~ py_in "latitude" loc ;;
      has_lon <~ (if has_lat then py_in "longitude" loc else Ok false) ;;
      if has_lat && has_lon then
        lat_v <~ py_item loc "latitude" ;;
        lat <~ py_float lat_v ;;
        lon_v <~ py_item loc "longitude" ;;
        lon <~ py_float lon_v ;;
        Ok (Some (lat, lon))
      else Ok None.

(** The inner [pick_id] of [normalize_stop_id] (main.py, 495-499). *)
Definition pick_id (val : pyval) : option string :=
  match val with
  | PStr s =>
      if str_is_empty s then None
      else
        let last := List.last (split_on colon s) EmptyString in
        if str_is_empty last then None else Some last
  | _ => None
  end.

Definition accept_id (cand : option string) : option string :=
  match cand with
  | Some s => if isdigit s then Some s else None
  | None => None
  end.

(** [normalize_stop_id] (main.py, 492-510) *)
Definition normalize_stop_id (item : pyval) : result (option string) :=
  if negb (truthy item) then Ok None
  else
    ibnr_v <~ py_get item "ibnr" ;;
    match accept_id (pick_id ibnr_v) with
    | Some ibnr => Ok (Some ibnr)
    | None =>
        id_v <~ py_get item "id" ;;
        match accept_id (pick_id id_v) with
        | Some sid => Ok (Some sid)
        | None =>
            station0 <~ py_get item "station" ;;
            let station := py_or station0 (PDict []) in
            sid_v <~ py_get station "id" ;;
            match accept_id (pick_id sid_v) with
            | Some sid => Ok (Some sid)
            | None => Ok None
            end
        end
    end.

(** ** Civil time *)

Definition datetime : Type := Z.
Definition date : Type := Z.

Definition usec_per_minute : Z := 60000000.
Definition usec_per_hour : Z := 60 * usec_per_minute.
Definition usec_per_day : Z := 24 * usec_per_hour.

(** [dt.date()] *)
Definition date_of (dt : datetime) : date := dt / usec_per_day.

(** [datetime.combine(day, t)], [t] the microseconds since midnight *)
Definition combine (day : date) (t : Z) : datetime := day * usec_per_day + t.

(** [time.min] is 00:00:00 and [time.max] is 23:59:59.999999 *)
Definition time_min : Z := 0.
Definition time_max : Z := usec_per_day - 1.

(** [timedelta(minutes=m)] *)
Definition timedelta_minutes (m : Z) : Z := m * usec_per_minute.

Definition hour_of (dt : datetime) : Z := (dt mod usec_per_day) / usec_per_hour.
Definition minute_of (dt : datetime) : Z := ((dt mod usec_per_day) / usec_per_minute) mod 60.

(** An argument the [datetime] constructor can read as a C [int]. *)
Definition fits_c_int (n : Z) : bool := (- 2 ^ 31 <=? n) && (n <? 2 ^ 31).

(** [datetime(y, m, d, hh, mm)] on the day [day]: the constructor
    raises [OverflowError] on an argument that is no C [int], and
    otherwise rejects an hour outside 0..23 and a minute outside 0..59
    with [ValueError]. *)
Definition mk_datetime (day : date) (hh mm : Z) : result datetime :=
  if negb (fits_c_int hh && fits_c_int mm) then Raise OverflowError
  else if (0 <=? hh) && (hh <=? 23) && (0 <=? mm) && (mm <=? 59)
  then Ok (combine day (hh * usec_per_hour + mm * usec_per_minute))
  else Raise ValueError.

Definition digit_char (n : Z) : ascii := ascii_of_N (Z.to_N (48 + n)).

Definition two_digits (n : Z) : string :=
  String (digit_char (n / 10)) (String (digit_char (n mod 10)) EmptyString).

(** [dt.strftime("%H:%M")] *)
Definition strftime_HM (dt : datetime) : string :=
  two_digits (hour_of dt) +++ ":" +++ two_digits (minute_of dt).

(** ** [s.strip()] and [int(s)] on a string *)

(** The ASCII characters [str.strip] removes: tab to carriage return,
    the four separators 0x1C to 0x1F, and the blank. *)
Definition is_space (c : ascii) : bool :=
  let n := N_of_ascii c in
  (((9 <=? n) && (n <=? 13)) || ((28 <=? n) && (n <=? 32)))%N.

(** The ASCII characters [int] skips around the number: tab to carriage
    return and the blank, not the separators 0x1C to 0x1F. *)
Definition is_int_space (c : ascii) : bool :=
  let n := N_of_ascii c in
  (((9 <=? n) && (n <=? 13)) || (n =? 32))%N.

Fixpoint lstrip_with (space : ascii -> bool) (s : string) : string :=
  match s with
  | EmptyString => EmptyString
  | String c s' => if space c then lstrip_with space s' else s
  end.

Fixpoint rstrip_with (space : ascii -> bool) (s : string) : string :=
  match s with
  | EmptyString => EmptyString
  | String c s' =>
      match rstrip_with space s' with
      | EmptyString => if space c then EmptyString else String c EmptyString
      | r => String c r
      end
  end.

(** [s.strip()] *)
Definition strip (s : string) : string := rstrip_with is_space (lstrip_with is_space s).

Definition digit_value (c : ascii) : Z := Z.of_N (N_of_ascii c) - 48.

(** Decimal digits, single underscores allowed between two digits. *)
Fixpoint int_digits (s : string) (acc : Z) (after_digit : bool) : option Z :=
  match s with
  | EmptyString => if after_digit then Some acc else None
  | String c s' =>
      if is_ascii_digit c then int_digits s' (acc * 10 + digit_value c) true
      else if Ascii.eqb c "_"%char then
             (if after_digit then int_digits s' acc false else None)
      else None
  end.

Fixpoint count_digits (s : string) : Z :=
  match s with
  | EmptyString => 0
  | String c s' => (if is_ascii_digit c then 1 else 0) + count_digits s'
  end.

(** The most digits [int] converts from a string (the default of
    [sys.set_int_max_str_digits]). *)
Definition int_max_str_digits : Z := 4300.

(** [int(s)]: [None] when Python raises [ValueError]. *)
Definition py_int (s : string) : option Z :=
  match rstrip_with is_int_space (lstrip_with is_int_space s) with
  | String c body =>
      if int_max_str_digits <? count_digits (String c body) then None
      else if Ascii.eqb c "-"%char then option_map Z.opp (int_digits body 0 false)
      else if Ascii.eqb c "+"%char then int_digits body 0 false
      else int_digits (String c body) 0 false
  | EmptyString => None
  end.

(** ** Stored rows *)

Record user_row : Type := {
  user_id : Z;
  user_email : string
}.

Record class_row : Type := {
  class_user_id : Z;
  course_name : string;
  start_time : datetime;
  end_time : option datetime;
  location : string
}.

Record prefs_row : Type := {
  prefs_user_id : Z;
  allow_ubahn : bool;
  allow_sbahn : bool;
  allow_regional : bool;
  allow_tram : bool;
  allow_bus : bool;
  timing_pref : string;
  arrival_time : option string;
  home_location : option string
}.

(** ** The outside world *)

Inductive http_response : Type :=
| HttpOk (body : pyval)
| HttpStatus (status_code : Z) (text : string)
| HttpTransport (name : string).

Inductive request : Type :=
| ReqBvg (path : string) (params : list (string * pyval))
| ReqNominatim (q : string)
| ReqBrevo (to_email subject html : string).

Inductive kind : Type := KDaily | KReturn.

(** A dispatched e-mail.  The tag is ghost: the (user, day, kind) the
    sending job was working on. *)
Record sent_email : Type := {
  sent_tag : Z * date * kind;
  sent_to : string;
  sent_subject : string;
  sent_html : string
}.

(** What a job invocation reads and cannot change: the clock, the
    answers of the three remote services (the [nat] is the number of
    requests issued before, so that repeated calls may be answered
    differently), the mail configuration and the stored users, classes
    and preferences. *)
Record env : Type := {
  clock : nat -> datetime;
  bvg_api : nat -> string -> list (string * pyval) -> http_response;
  nominatim_api : nat -> string -> http_response;
  brevo_api : nat -> string -> string -> string -> http_response;
  BREVO_API_KEY : option string;
  BREVO_SENDER_EMAIL : option string;
  users : list user_row;
  classes : list class_row;
  user_preferences : list prefs_row
}.

(** What the jobs change: the two dedup tables, the e-mails that went
    out, and the log of requests issued. *)
Record world : Type := {
  email_notifications : list (Z * date);
  reminder_logs : list (Z * date * string);
  outbox : list sent_email;
  requests : list request
}.

Definition M (A : Type) : Type := world -> result A * world.

Definition ret {A : Type} (a : A) : M A := fun w => (Ok a, w).

Definition bind {A B : Type} (m : M A) (k : A -> M B) : M B :=
  fun w =>
    match m w with
    | (Ok a, w') => k a w'
    | (Raise e, w') => (Raise e, w')
    end.

Definition lift {A : Type} (r : result A) : M A := fun w => (r, w).

(** [try: m  except Exception: h] *)
Definition try_except {A : Type} (m : M A) (h : exn -> M A) : M A :=
  fun w =>
    match m w with
    | (Ok a, w') => (Ok a, w')
    | (Raise e, w') => h e w'
    end.

Notation "x <- m ;; k" := (bind m (fun x => k))
  (at level 61, m at next level, right associativity).

Definition log_request (r : request) : M unit :=
  fun w => (Ok tt, {| email_notifications := email_notifications w;
                      reminder_logs := reminder_logs w;
                      outbox := outbox w;
                      requests := requests w ++ [r] |}).

Definition request_count : M nat := fun w => (Ok (List.length (requests w)), w).

(** [bvg_get] (main.py, 357-367) *)
Definition bvg_get (e : env) (path : string) (params : list (string * pyval)) : M pyval :=
  n <- request_count ;;
  _ <- log_request (ReqBvg path params) ;;
  match bvg_api e n path params with
  | HttpOk body => ret body
  | HttpStatus code text => lift (Raise (HTTPException code text))
  | HttpTransport name => lift (Raise (HTTPException 502 ("BVG request failed: " +++ name)))
  end.

(** ** Location resolution *)

(** The dict [{"id": .., "name": .., "coords": ..}] built by
    [resolve_location]. *)
Record resolved : Type := {
  loc_id : option string;
  loc_name : pyval;
  loc_coords : option (Q * Q)
}.

(** The items visited by [for item in v or []]. *)
Definition py_iter (v : pyval) : result (list pyval) :=
  if negb (truthy v) then Ok []
  else match v with
       | PList l => Ok l
       | PDict kv => Ok (map (fun p => PStr (fst p)) kv)
       | PStr s => Ok (map (fun c => PStr (String c EmptyString)) (list_ascii_of_string s))
       | _ => Raise TypeError
       end.

(** [v[0]] *)
Definition py_index0 (v : pyval) : result pyval :=
  match v with
  | PList (x :: _) => Ok x
  | PList [] => Raise IndexError
  | PStr (String c _) => Ok (PStr (String c EmptyString))
  | PStr EmptyString => Raise IndexError
  | PDict _ => Raise KeyError
  | _ => Raise TypeError
  end.

(** First loop of [resolve_location] (main.py, 515-519). *)
Fixpoint first_stop_candidate (query : string) (items : list pyval)
  : result (option resolved) :=
  match items with
  | [] => Ok None
  | item :: rest =>
      stop_id <~ normalize_stop_id item ;;
      match stop_id with
      | Some sid =>
          coords <~ extract_coords item ;;
          name <~ py_get item "name" ;;
          Ok (Some {| loc_id := Some sid;
                      loc_name := py_or name (PStr query);
                      loc_coords := coords |})
      | None => first_stop_candidate query rest
      end
  end.

(** Second loop of [resolve_location] (main.py, 520-523). *)
Fixpoint first_coord_candidate (query : string) (items : list pyval)
  : result (option resolved) :=
  match items with
  | [] => Ok None
  | item :: rest =>
      coords <~ extract_coords item ;;
      match coords with
      | Some xy =>
          name <~ py_get item "name" ;;
          Ok (Some {| loc_id := None;
                      loc_name := py_or name (PStr query);
                      loc_coords := Some xy |})
      | None => first_coord_candidate query rest
      end
  end.

(** The geocoder's answer turned into a location (main.py, 533-541). *)
Definition geocoded (query : string) (data : pyval) : result resolved :=
  if negb (truthy data) then
    Ok {| loc_id := None; loc_name := PStr query; loc_coords := None |}
  else
    item <~ py_index0 data ;;
    name <~ py_get item "display_name" ;;
    lat_v <~ py_item item "lat" ;;
    lat <~ py_float lat_v ;;
    lon_v <~ py_item item "lon" ;;
    lon <~ py_float lon_v ;;
    Ok {| loc_id := None;
          loc_name := py_or name (PStr query);
          loc_coords := Some (lat, lon) |}.

(** [resolve_location] (main.py, 513-541) *)
Definition resolve_location (e : env) (query : string) : M resolved :=
  items <- bvg_get e "/locations" [("query", PStr query); ("results", PStr "5")] ;;
  candidates <- lift (py_iter items) ;;
  by_id <- lift (first_stop_candidate query candidates) ;;
  match by_id with
  | Some loc => ret loc
  | None =>
      by_coords <- lift (first_coord_candidate query candidates) ;;
      match by_coords with
      | Some loc => ret loc
      | None =>
          n <- request_count ;;
          _ <- log_request (ReqNominatim query) ;;
          match nominatim_api e n query with
          | HttpOk data => lift (geocoded query data)
          | HttpStatus code _ => lift (Raise (HTTPStatusError code))
          | HttpTransport name => lift (Raise (RequestError name))
          end
      end
  end.

(** ** Stored data read by the jobs *)

(** [preferences_for_user] (main.py, 544-558): [None] is the empty dict. *)
Definition preferences_for_user (e : env) (uid : Z) : option prefs_row :=
  find (fun p => prefs_user_id p =? uid) (user_preferences e).

Fixpoint insert_by_start (c : class_row) (l : list class_row) : list class_row :=
  match l with
  | [] => [c]
  | c' :: rest =>
      if start_time c <? start_time c' then c :: l
      else c' :: insert_by_start c rest
  end.

(** [ORDER BY start_time ASC] *)
Definition order_by_start (l : list class_row) : list class_row :=
  fold_right insert_by_start [] l.

(** [classes_for_day] (main.py, 561-574) *)
Definition classes_for_day (e : env) (uid : Z) (day : date) : list class_row :=
  let start := combine day time_min in
  let stop := combine day time_max in
  order_by_start
    (filter (fun c => (class_user_id c =? uid)
                      && (start <=? start_time c) && (start_time c <=? stop))
            (classes e)).

(** [MAX(end_time)] over the selected rows; [None] is SQL [NULL]. *)
Fixpoint max_end (l : list class_row) : option datetime :=
  match l with
  | [] => None
  | c :: rest =>
      match end_time c, max_end rest with
      | Some t, Some m => Some (Z.max t m)
      | Some t, None => Some t
      | None, m => m
      end
  end.

(** [last_class_end] (main.py, 717-730) *)
Definition last_class_end (e : env) (uid : Z) (day : date) : option datetime :=
  let start := combine day time_min in
  let stop := combine day time_max in
  max_end
    (filter (fun c => (class_user_id c =? uid)
                      && match end_time c with
                         | Some t => (start <=? t) && (t <=? stop)
                         | None => false
                         end)
            (classes e)).

(** ** Journey planning *)

(** [datetime.isoformat()] of an arrival time. *)
Variable isoformat : datetime -> string.

(** [build_arrival_datetime] (main.py, 577-587); [now] is the reading of
    [datetime.now(TZ)]. *)
Definition build_arrival_datetime (now : datetime)
    (arrival_time_str : option string) (timing : string)
  : result (option datetime) :=
  match arrival_time_str with
  | None => Ok None
  | Some s =>
      if str_is_empty s then Ok None
      else
        match map py_int (split_on colon s) with
        | [Some hh; Some mm] =>
            target <~ mk_datetime (date_of now) hh mm ;;
            let offset := if String.eqb timing "later" then 10 else -10 in
            Ok (Some (target + timedelta_minutes offset))
        | _ => Ok None
        end
  end.

Definition truthy_str (s : option string) : bool :=
  match s with
  | Some x => negb (str_is_empty x)
  | None => false
  end.

(** [str(b).lower()] of a boolean preference, [True] when there is no
    preference row. *)
Definition product_flag (prefs : option prefs_row) (field : prefs_row -> bool) : pyval :=
  PStr (if match prefs with Some p => field p | None => true end
        then "true" else "false").

(** The [from]/[to] part of the request (main.py, 650-661); [None] when
    [build_journey] returns before any request. *)
Definition endpoint_params (origin destination : resolved)
    (params : list (string * pyval)) : option (list (string * pyval)) :=
  let by_coords :=
    match loc_coords origin, loc_coords destination with
    | Some (olat, olon), Some (dlat, dlon) =>
        Some (dict_set "to.name" (py_or (loc_name destination) (PStr "Campus Jungfernsee"))
             (dict_set "to.longitude" (PNum dlon)
             (dict_set "to.latitude" (PNum dlat)
             (dict_set "from.name" (py_or (loc_name origin) (PStr "Start"))
             (dict_set "from.longitude" (PNum olon)
             (dict_set "from.latitude" (PNum olat) params))))))
    | _, _ => None
    end in
  match loc_id origin, loc_id destination with
  | Some oid, Some did =>
      if negb (str_is_empty oid) && negb (str_is_empty did)
      then Some (dict_set "to" (PStr did) (dict_set "from" (PStr oid) params))
      else by_coords
  | _, _ => by_coords
  end.

(** [build_journey] (main.py, 648-674); the result [PNone] is Python's
    [None]. *)
Definition build_journey (e : env) (origin destination : resolved)
    (prefs : option prefs_row) : M pyval :=
  let params := [("results", PStr "3"); ("polylines", PStr "false")] in
  match endpoint_params origin destination params with
  | None => ret PNone
  | Some params =>
      let params := dict_set "products[subway]" (product_flag prefs allow_ubahn) params in
      let params := dict_set "products[suburban]" (product_flag prefs allow_sbahn) params in
      let params := dict_set "products[regional]" (product_flag prefs allow_regional) params in
      let params := dict_set "products[tram]" (product_flag prefs allow_tram) params in
      let params := dict_set "products[bus]" (product_flag prefs allow_bus) params in
      n <- request_count ;;
      arrival <- lift (build_arrival_datetime (clock e n)
                         (match prefs with Some p => arrival_time p | None => None end)
                         (match prefs with Some p => timing_pref p | None => "earlier" end)) ;;
      let params := match arrival with
                    | Some a => dict_set "arrival" (PStr (isoformat a)) params
                    | None => params
                    end in
      data <- bvg_get e "/journeys" params ;;
      journeys0 <- lift (py_get data "journeys") ;;
      let journeys := py_or journeys0 (PList []) in
      if negb (truthy journeys) then ret PNone
      else lift (py_index0 journeys)
  end.

(** ** E-mail rendering *)

Definition dq : string := String (ascii_of_nat 34) EmptyString.
Definition nl : string := String (ascii_of_nat 10) EmptyString.

(** [repr] of the values that are neither a string, [None] nor a boolean. *)
Variable repr_other : pyval -> string.

(** How an f-string field prints a value. *)
Definition py_str (v : pyval) : string :=
  match v with
  | PStr s => s
  | PNone => "None"
  | PBool true => "True"
  | PBool false => "False"
  | _ => repr_other v
  end.

(** [v[11:16]] *)
Definition py_slice_11_16 (v : pyval) : result pyval :=
  match v with
  | PStr s => Ok (PStr (substring 11 5 s))
  | PList l => Ok (PList (firstn 5 (skipn 11 l)))
  | _ => Raise TypeError
  end.

(** One iteration of the loop over the classes (main.py, 593-596). *)
Definition class_row_html (c : class_row) : string :=
  let start_str := strftime_HM (start_time c) in
  let end_str := match end_time c with
                 | Some t => strftime_HM t
                 | None => EmptyString
                 end in
  let time_str := if str_is_empty end_str then start_str
                  else start_str +++ "-" +++ end_str in
  "<tr><td>" +++ time_str +++ "</td><td>" +++ course_name c
    +++ "</td><td>" +++ location c +++ "</td></tr>".

Definition no_classes_row : string := "<tr><td colspan='3'>No classes today.</td></tr>".

(** The [class_rows] variable after the loop and its fallback
    (main.py, 591-598). *)
Definition class_rows_html (cs : list class_row) : string :=
  let class_rows := fold_left (fun acc c => acc +++ class_row_html c) cs EmptyString in
  if str_is_empty class_rows then no_classes_row else class_rows.

(** [leg.get(key, {}).get("name") or fallback] *)
Definition named_or (leg : pyval) (key fallback : string) : result pyval :=
  sub <~ py_get_default leg key (PDict []) ;;
  name <~ py_get sub "name" ;;
  Ok (py_or name (PStr fallback)).

(** One iteration of the loop over the legs (main.py, 605-610). *)
Definition leg_row_html (leg : pyval) : result string :=
  dep0 <~ py_get leg "departure" ;;
  dep <~ py_slice_11_16 (py_or dep0 (PStr EmptyString)) ;;
  arr0 <~ py_get leg "arrival" ;;
  arr <~ py_slice_11_16 (py_or arr0 (PStr EmptyString)) ;;
  line <~ py_get_default leg "line" (PDict []) ;;
  line_name <~ py_get line "name" ;;
  mode <~ (if truthy line_name then Ok line_name
           else m <~ py_get leg "mode" ;; Ok (py_or m (PStr "Travel"))) ;;
  origin <~ named_or leg "origin" "Start" ;;
  dest <~ named_or leg "destination" "End" ;;
  Ok ("<tr><td>" +++ py_str mode +++ "</td><td>" +++ py_str dep +++ "-" +++ py_str arr
        +++ "</td><td>" +++ py_str origin +++ " → " +++ py_str dest +++ "</td></tr>").

Fixpoint leg_rows_html (acc : string) (legs : list pyval) : result string :=
  match legs with
  | [] => Ok acc
  | leg :: rest =>
      row <~ leg_row_html leg ;;
      leg_rows_html (acc +++ row) rest
  end.

Definition route_section (leg_rows : string) : string :=
  nl +++ "          <h3 style=" +++ dq +++ "margin:20px 0 8px;" +++ dq
     +++ ">Route to Campus Jungfernsee</h3>"
  +++ nl +++ "          <table style=" +++ dq +++ "width:100%;border-collapse:collapse;"
     +++ dq +++ ">"
  +++ nl +++ "            <tr><th align=" +++ dq +++ "left" +++ dq +++ ">Line</th><th align="
     +++ dq +++ "left" +++ dq +++ ">Time</th><th align=" +++ dq +++ "left" +++ dq
     +++ ">Segment</th></tr>"
  +++ nl +++ "            " +++ leg_rows
  +++ nl +++ "          </table>"
  +++ nl +++ "        ".

(** The [journey_html] variable (main.py, 600-617). *)
Definition journey_html (journey : pyval) : result string :=
  if truthy journey then
    legs0 <~ py_get journey "legs" ;;
    legs <~ py_iter legs0 ;;
    leg_rows <~ leg_rows_html EmptyString legs ;;
    Ok (route_section leg_rows)
  else Ok EmptyString.

Definition email_document (user_email class_rows journey_part : string) : string :=
  nl +++ "    <div style=" +++ dq
     +++ "font-family:Arial,sans-serif;color:#0f172a;line-height:1.4;" +++ dq +++ ">"
  +++ nl +++ "      <h2 style=" +++ dq +++ "margin:0 0 8px;" +++ dq
     +++ ">CampusPulse Daily Reminder</h2>"
  +++ nl +++ "      <p>Good morning " +++ user_email
     +++ ", here is your schedule for today.</p>"
  +++ nl +++ "      <h3 style=" +++ dq +++ "margin:16px 0 8px;" +++ dq +++ ">Classes</h3>"
  +++ nl +++ "      <table style=" +++ dq +++ "width:100%;border-collapse:collapse;"
     +++ dq +++ ">"
  +++ nl +++ "        <tr><th align=" +++ dq +++ "left" +++ dq +++ ">Time</th><th align="
     +++ dq +++ "left" +++ dq +++ ">Course</th><th align=" +++ dq +++ "left" +++ dq
     +++ ">Location</th></tr>"
  +++ nl +++ "        " +++ class_rows
  +++ nl +++ "      </table>"
  +++ nl +++ "      " +++ journey_part
  +++ nl +++ "    </div>"
  +++ nl +++ "    ".

(** [build_journey_email] (main.py, 590-630) *)
Definition build_journey_email (user_email : string) (cs : list class_row)
    (journey : pyval) : result string :=
  let class_rows := class_rows_html cs in
  journey_part <~ journey_html journey ;;
  Ok (email_document user_email class_rows journey_part).

(** ** Sending and the dedup tables *)

Definition dispatch (m : sent_email) : M unit :=
  fun w => (Ok tt, {| email_notifications := email_notifications w;
                      reminder_logs := reminder_logs w;
                      outbox := outbox w ++ [m];
                      requests := requests w |}).

(** [send_brevo_email] (main.py, 633-645).  [tag] is ghost. *)
Definition send_brevo_email (e : env) (tag : Z * date * kind)
    (to_email subject html : string) : M unit :=
  if negb (truthy_str (BREVO_API_KEY e)) || negb (truthy_str (BREVO_SENDER_EMAIL e))
  then ret tt
  else
    n <- request_count ;;
    _ <- log_request (ReqBrevo to_email subject html) ;;
    match brevo_api e n to_email subject html with
    | HttpOk _ =>
        dispatch {| sent_tag := tag; sent_to := to_email;
                    sent_subject := subject; sent_html := html |}
    | HttpStatus code _ => lift (Raise (HTTPStatusError code))
    | HttpTransport name => lift (Raise (RequestError name))
    end.

Definition daily_row_matches (uid : Z) (day : date) (r : Z * date) : bool :=
  (fst r =? uid) && (snd r =? day).

Definition reminder_row_matches (uid : Z) (day : date) (k : string)
    (r : Z * date * string) : bool :=
  (fst (fst r) =? uid) && (snd (fst r) =? day) && String.eqb (snd r) k.

(** [SELECT 1 FROM email_notifications WHERE user_id = .. AND send_date = ..] *)
Definition select_email_notification (uid : Z) (day : date) : M bool :=
  fun w => (Ok (existsb (daily_row_matches uid day) (email_notifications w)), w).

(** [INSERT INTO email_notifications] and commit, under
    [UNIQUE (user_id, send_date)]. *)
Definition insert_email_notification (uid : Z) (day : date) : M unit :=
  fun w =>
    if existsb (daily_row_matches uid day) (email_notifications w)
    then (Raise UniqueViolation, w)
    else (Ok tt, {| email_notifications := email_notifications w ++ [(uid, day)];
                    reminder_logs := reminder_logs w;
                    outbox := outbox w;
                    requests := requests w |}).

(** [SELECT 1 FROM reminder_logs WHERE user_id = .. AND send_date = .. AND kind = ..] *)
Definition select_reminder_log (uid : Z) (day : date) (k : string) : M bool :=
  fun w => (Ok (existsb (reminder_row_matches uid day k) (reminder_logs w)), w).

(** [INSERT INTO reminder_logs] and commit, under
    [UNIQUE (user_id, send_date, kind)]. *)
Definition insert_reminder_log (uid : Z) (day : date) (k : string) : M unit :=
  fun w =>
    if existsb (reminder_row_matches uid day k) (reminder_logs w)
    then (Raise UniqueViolation, w)
    else (Ok tt, {| email_notifications := email_notifications w;
                    reminder_logs := reminder_logs w ++ [(uid, day, k)];
                    outbox := outbox w;
                    requests := requests w |}).

(** [for x in l: body(x)] *)
Fixpoint for_each {A : Type} (body : A -> M unit) (l : list A) : M unit :=
  match l with
  | [] => ret tt
  | x :: rest => _ <- body x ;; for_each body rest
  end.

Definition campus : string := "Campus Jungfernsee".

(** ** The two jobs *)

(** Body of the loop of [send_daily_emails] (main.py, 684-714). *)
Definition daily_for_user (e : env) (today : date) (user : user_row) : M unit :=
  let uid := user_id user in
  let email := user_email user in
  already <- select_email_notification uid today ;;
  if already then ret tt
  else
    let prefs := preferences_for_user e uid in
    let cs := classes_for_day e uid today in
    if is_nil cs then ret tt
    else
      let home := match prefs with Some p => home_location p | None => None end in
      journey <- match home with
                 | Some h =>
                     if str_is_empty h then ret PNone
                     else
                       origin <- resolve_location e h ;;
                       destination <- resolve_location e campus ;;
                       build_journey e origin destination prefs
                 | None => ret PNone
                 end ;;
      html <- lift (build_journey_email email cs journey) ;;
      sent <- try_except
                (_ <- send_brevo_email e (uid, today, KDaily) email
                        "CampusPulse daily reminder" html ;;
                 ret true)
                (fun _ => ret false) ;;
      if sent then insert_email_notification uid today else ret tt.

(** [send_daily_emails] (main.py, 677-714) *)
Definition send_daily_emails (e : env) : M unit :=
  n <- request_count ;;
  let today := date_of (clock e n) in
  for_each (daily_for_user e today) (users e).

(** A Python [datetime] object: its wall-clock reading and whether it
    carries a [tzinfo]. *)
Record pydatetime : Type := {
  wall : datetime;
  aware : bool
}.

(** The reading of [datetime.now(TZ)]. *)
Definition now_in_tz (t : datetime) : pydatetime := {| wall := t; aware := true |}.

(** The value psycopg returns for a [TIMESTAMP] column. *)
Definition of_timestamp (t : datetime) : pydatetime := {| wall := t; aware := false |}.

(** [d + timedelta(minutes=m)] *)
Definition plus_minutes (d : pydatetime) (m : Z) : pydatetime :=
  {| wall := wall d + timedelta_minutes m; aware := aware d |}.

(** [a <= b]: two aware objects of the one timezone, or two naive
    ones, compare by their reading; a naive and an aware one raise
    [TypeError]. *)
Definition datetime_le (a b : pydatetime) : result bool :=
  if Bool.eqb (aware a) (aware b) then Ok (wall a <=? wall b) else Raise TypeError.

(** The window test of [send_return_reminders] (main.py, 746-747):
    [target <= now <= target + timedelta(minutes=5)], the second
    comparison made only when the first holds. *)
Definition in_return_window (last_end now : pydatetime) : result bool :=
  let target := plus_minutes last_end (-30) in
  lower <~ datetime_le target now ;;
  if lower then datetime_le now (plus_minutes target 5) else Ok false.

(** Body of the loop of [send_return_reminders] (main.py, 741-775). *)
Definition return_for_user (e : env) (now : datetime) (today : date)
    (user : user_row) : M unit :=
  let uid := user_id user in
  let email := user_email user in
  match last_class_end e uid today with
  | None => ret tt
  | Some last_end =>
      inside <- lift (in_return_window (of_timestamp last_end) (now_in_tz now)) ;;
      if negb inside then ret tt
      else
        already <- select_reminder_log uid today "return" ;;
        if already then ret tt
        else
          let prefs := preferences_for_user e uid in
          let home := match prefs with Some p => home_location p | None => None end in
          journey <- match home with
                     | Some h =>
                         if str_is_empty h then ret PNone
                         else
                           origin <- resolve_location e campus ;;
                           destination <- resolve_location e h ;;
                           build_journey e origin destination prefs
                     | None => ret PNone
                     end ;;
          let cs := classes_for_day e uid today in
          html <- lift (build_journey_email email cs journey) ;;
          sent <- try_except
                    (_ <- send_brevo_email e (uid, today, KReturn) email
                            "CampusPulse reminder: time to head home" html ;;
                     ret true)
                    (fun _ => ret false) ;;
          if sent then insert_reminder_log uid today "return" else ret tt
  end.

(** [send_return_reminders] (main.py, 733-775) *)
Definition send_return_reminders (e : env) : M unit :=
  n <- request_count ;;
  let now := clock e n in
  let today := date_of now in
  for_each (return_for_user e now today) (users e).

End Model.

(** * Specification-side definitions *)

Notation "x <- m ;; k" := (bind m (fun x => k))
  (at level 61, m at next level, right associativity).

(** The final segment of a colon-delimited string. *)
Definition final_segment (s : string) : string :=
  List.last (split_on colon s) EmptyString.

Fixpoint has_char (c : ascii) (s : string) : bool :=
  match s with
  | EmptyString => false
  | String c' s' => Ascii.eqb c' c || has_char c s'
  end.

(** The stop identifier a field value yields: its final segment, when
    that consists entirely of digits. *)
Definition field_stop_id (v : pyval) : option string :=
  match v with
  | PStr s => if isdigit (final_segment s) then Some (final_segment s) else None
  | _ => None
  end.

(** The value stored under a key of a JSON object, [PNone] when absent. *)
Definition dict_field (kv : list (string * pyval)) (k : string) : pyval :=
  match assoc k kv with
  | Some x => x
  | None => PNone
  end.

(** The world after one more request has been issued. *)
Definition with_request (w : world) (r : request) : world :=
  {| email_notifications := email_notifications w;
     reminder_logs := reminder_logs w;
     outbox := outbox w;
     requests := requests w ++ [r] |}.

(** The place search issued by [resolve_location]. *)
Definition search_params (query : string) : list (string * pyval) :=
  [("query", PStr query); ("results", PStr "5")].

(** The instant [hh]:[mm] of a day. *)
Definition at_time (day : date) (hh mm : Z) : datetime :=
  combine day (hh * usec_per_hour + mm * usec_per_minute).

Section RoutingRequest.

Variable isoformat : datetime -> string.

(** An endpoint carries a stop identifier. *)
Definition carries_id (l : resolved) : bool := truthy_str (loc_id l).

(** Origin and destination given by stop identifier. *)
Definition identifier_pair (oid did : string) : list (string * pyval) :=
  [("from", PStr oid); ("to", PStr did)].

(** Origin and destination given by coordinate, display names passed
    through (with their defaults when a name is missing). *)
Definition coordinate_pair (origin destination : resolved) (oxy dxy : Q * Q)
  : list (string * pyval) :=
  [("from.latitude", PNum (fst oxy));
   ("from.longitude", PNum (snd oxy));
   ("from.name", py_or (loc_name origin) (PStr "Start"));
   ("to.latitude", PNum (fst dxy));
   ("to.longitude", PNum (snd dxy));
   ("to.name", py_or (loc_name destination) (PStr "Campus Jungfernsee"))].

(** The five mode filters. *)
Definition mode_filters (prefs : option prefs_row) : list (string * pyval) :=
  [("products[subway]", product_flag prefs allow_ubahn);
   ("products[suburban]", product_flag prefs allow_sbahn);
   ("products[regional]", product_flag prefs allow_regional);
   ("products[tram]", product_flag prefs allow_tram);
   ("products[bus]", product_flag prefs allow_bus)].

Definition arrival_field (arrival : option datetime) : list (string * pyval) :=
  match arrival with
  | Some a => [("arrival", PStr (isoformat a))]
  | None => []
  end.

(** The whole routing request. *)
Definition journey_request (endpoints : list (string * pyval))
    (prefs : option prefs_row) (arrival : option datetime) : list (string * pyval) :=
  [("results", PStr "3"); ("polylines", PStr "false")]
    ++ endpoints ++ mode_filters prefs ++ arrival_field arrival.

Definition prefs_arrival_time (prefs : option prefs_row) : option string :=
  match prefs with
  | Some p => arrival_time p
  | None => None
  end.

Definition prefs_timing (prefs : option prefs_row) : string :=
  match prefs with
  | Some p => timing_pref p
  | None => "earlier"
  end.

(** How the endpoints of a request are given: by identifier pair when
    both carry an identifier, by coordinate pair otherwise. *)
Inductive endpoints_of (origin destination : resolved) : list (string * pyval) -> Prop :=
| by_identifiers (oid did : string) :
    loc_id origin = Some oid -> loc_id destination = Some did ->
    carries_id origin && carries_id destination = true ->
    endpoints_of origin destination (identifier_pair oid did)
| by_coordinates (oxy dxy : Q * Q) :
    carries_id origin && carries_id destination = false ->
    loc_coords origin = Some oxy -> loc_coords destination = Some dxy ->
    endpoints_of origin destination (coordinate_pair origin destination oxy dxy).

(** The itineraries of a routing response, [journeys] missing or null
    counting as none. *)
Definition itineraries (data : list (string * pyval)) : pyval :=
  py_or (dict_field data "journeys") (PList []).

End RoutingRequest.










(** * Example data *)

Definition no_float (s : string) : option Q := None.
Definition no_isoformat (t : datetime) : string := EmptyString.
Definition no_repr (v : pyval) : string := EmptyString.

Definition empty_world : world :=
  {| email_notifications := []; reminder_logs := []; outbox := []; requests := [] |}.

Definition a_day : date := 19999.

Definition ada : user_row := {| user_id := 1; user_email := "ada@ue-germany.de" |}.

(** A class from 12:30 to 14:00. *)
Definition logic_class : class_row :=
  {| class_user_id := 1; course_name := "Logic";
     start_time := at_time a_day 12 30; end_time := Some (at_time a_day 14 0);
     location := "Room 1" |}.

(** One user, one class ending at 14:00, no preferences, mail delivery
    working, the clock reading [hh]:[mm]. *)
Definition afternoon_env (hh mm : Z) : env :=
  {| clock := fun _ => at_time a_day hh mm;
     bvg_api := fun _ _ _ => HttpOk (PList []);
     nominatim_api := fun _ _ => HttpOk (PList []);
     brevo_api := fun _ _ _ _ => HttpOk PNone;
     BREVO_API_KEY := Some "key";
     BREVO_SENDER_EMAIL := Some "noreply@ue-germany.de";
     users := [ada];
     classes := [logic_class];
     user_preferences := [] |}.

(** The (user, day, kind) tags of the e-mails that went out. *)
Definition dispatched (w : world) : list (Z * date * kind) :=
  map sent_tag (outbox w).

(** * Job invariants *)

(** The dedup tables and the outbox are the same in both worlds. *)
Definition same_store (w w' : world) : Prop :=
  email_notifications w' = email_notifications w
  /\ reminder_logs w' = reminder_logs w
  /\ outbox w' = outbox w.

(** A computation that may issue requests but leaves the store alone. *)
Definition preserves {A : Type} (m : M A) : Prop :=
  forall w, same_store w (snd (m w)).

(** What one iteration of the daily loop does to the store: nothing, or
    one new row for a (user, day) that had none, with at most one
    e-mail. *)
Inductive daily_step (uid : Z) (today : date) (w w' : world) : Prop :=
| daily_skip :
    same_store w w' -> daily_step uid today w w'
| daily_sent :
    existsb (daily_row_matches uid today) (email_notifications w) = false ->
    email_notifications w' = email_notifications w ++ [(uid, today)] ->
    reminder_logs w' = reminder_logs w ->
    (outbox w' = outbox w
     \/ exists m, sent_tag m = (uid, today, KDaily) /\ outbox w' = outbox w ++ [m]) ->
    daily_step uid today w w'.

(** The same for the return-reminder loop. *)
Inductive return_step (uid : Z) (today : date) (w w' : world) : Prop :=
| return_skip :
    same_store w w' -> return_step uid today w w'
| return_sent :
    existsb (reminder_row_matches uid today "return") (reminder_logs w) = false ->
    reminder_logs w' = reminder_logs w ++ [(uid, today, "return")] ->
    email_notifications w' = email_notifications w ->
    (outbox w' = outbox w
     \/ exists m, sent_tag m = (uid, today, KReturn) /\ outbox w' = outbox w ++ [m]) ->
    return_step uid today w w'.

Definition kind_eqb (a b : kind) : bool :=
  match a, b with
  | KDaily, KDaily => true
  | KReturn, KReturn => true
  | _, _ => false
  end.

Definition tag_matches (uid : Z) (day : date) (k : kind) (m : sent_email) : bool :=
  let '(u, d, k') := sent_tag m in
  (u =? uid) && (d =? day) && kind_eqb k' k.

(** Number of notification records for (user, day, kind): rows of
    [email_notifications] for the daily kind, rows of [reminder_logs]
    of kind ["return"] for the return kind. *)
Definition count_records (uid : Z) (day : date) (k : kind) (w : world) : nat :=
  match k with
  | KDaily => List.length (filter (daily_row_matches uid day) (email_notifications w))
  | KReturn =>
      List.length (filter (reminder_row_matches uid day "return") (reminder_logs w))
  end.

(** Number of e-mails dispatched for (user, day, kind). *)
Definition count_sent (uid : Z) (day : date) (k : kind) (w : world) : nat :=
  List.length (filter (tag_matches uid day k) (outbox w)).

Definition dedup_invariant (w : world) : Prop :=
  forall uid day k,
    (count_sent uid day k w <= count_records uid day k w)%nat
    /\ (count_records uid day k w <= 1)%nat.

(** The rows of [email_notifications] and the dispatched e-mails of one
    user. *)
Definition daily_rows_of (uid : Z) (w : world) : list (Z * date) :=
  filter (fun r => fst r =? uid) (email_notifications w).

Definition sent_to_user (uid : Z) (w : world) : list sent_email :=
  filter (fun m => fst (fst (sent_tag m)) =? uid) (outbox w).

Inductive job : Type := DailyJob | ReturnJob.

Section Ticks.

Variable float_of_str : string -> option Q.
Variable isoformat : datetime -> string.
Variable repr_other : pyval -> string.

(** One firing of a job by the scheduler, in the environment it finds;
    the world it leaves is kept whether the job returned or raised. *)
Definition run_tick (t : job * env) (w : world) : world :=
  snd (match fst t with
       | DailyJob => send_daily_emails float_of_str isoformat repr_other (snd t) w
       | ReturnJob => send_return_reminders float_of_str isoformat repr_other (snd t) w
       end).

Definition run_ticks (ts : list (job * env)) (w : world) : world :=
  fold_left (fun w t => run_tick t w) ts w.

End Ticks.

(** * More example data *)

Definition bob : user_row := {| user_id := 2; user_email := "bob@ue-germany.de" |}.

(** A place with a coordinate and no stop identifier, and a stop. *)
Definition street_place : pyval :=
  PDict [("type", PStr "location");
         ("id", PNone);
         ("name", PStr "Am Kanal 1");
         ("latitude", PNum (5240 # 100));
         ("longitude", PNum (1306 # 100))].

Definition stop_place : pyval :=
  PDict [("type", PStr "stop");
         ("id", PStr "900000012345");
         ("name", PStr "S Potsdam Hauptbahnhof");
         ("location", PDict [("latitude", PNum (5239 # 100));
                             ("longitude", PNum (1307 # 100))])].

Definition search_env (found : list pyval) : env :=
  {| clock := fun _ => at_time a_day 7 0;
     bvg_api := fun _ _ _ => HttpOk (PList found);
     nominatim_api := fun _ _ => HttpOk (PList []);
     brevo_api := fun _ _ _ _ => HttpOk PNone;
     BREVO_API_KEY := Some "key";
     BREVO_SENDER_EMAIL := Some "noreply@ue-germany.de";
     users := [];
     classes := [];
     user_preferences := [] |}.

Definition home_stop : resolved :=
  {| loc_id := Some "900000012345";
     loc_name := PStr "S Potsdam Hauptbahnhof";
     loc_coords := Some (5239 # 100, 1307 # 100) |}.

Definition campus_stop : resolved :=
  {| loc_id := Some "900000230003";
     loc_name := PStr "Campus Jungfernsee";
     loc_coords := None |}.

Definition unknown_place : resolved :=
  {| loc_id := None; loc_name := PStr "Nowhere"; loc_coords := None |}.

Definition bus_leg : pyval :=
  PDict [("departure", PStr "2024-10-03T07:12:00+02:00");
         ("arrival", PStr "2024-10-03T07:31:00+02:00");
         ("line", PDict [("name", PStr "603")]);
         ("mode", PStr "bus");
         ("origin", PDict [("name", PStr "S Potsdam Hauptbahnhof")]);
         ("destination", PDict [("name", PStr "Campus Jungfernsee")])].

Definition bus_journey : list (string * pyval) :=
  [("type", PStr "journey"); ("legs", PList [bus_leg])].

Definition routing_env : env :=
  {| clock := fun _ => at_time a_day 7 0;
     bvg_api := fun _ _ _ => HttpOk (PDict [("journeys", PList [PDict bus_journey])]);
     nominatim_api := fun _ _ => HttpOk (PList []);
     brevo_api := fun _ _ _ _ => HttpOk PNone;
     BREVO_API_KEY := Some "key";
     BREVO_SENDER_EMAIL := Some "noreply@ue-germany.de";
     users := [];
     classes := [];
     user_preferences := [] |}.

(** Ada has a class today, Bob has none; the daily job fires at 07:00. *)
Definition morning_env : env :=
  {| clock := fun _ => at_time a_day 7 0;
     bvg_api := fun _ _ _ => HttpOk (PList []);
     nominatim_api := fun _ _ => HttpOk (PList []);
     brevo_api := fun _ _ _ _ => HttpOk PNone;
     BREVO_API_KEY := Some "key";
     BREVO_SENDER_EMAIL := Some "noreply@ue-germany.de";
     users := [ada; bob];
     classes := [logic_class];
     user_preferences := [] |}.

(** A class from 23:00 the evening before to 00:45 today. *)
Definition night_lab : class_row :=
  {| class_user_id := 1; course_name := "Night Lab";
     start_time := at_time (a_day - 1) 23 0; end_time := Some (at_time a_day 0 45);
     location := "Observatory" |}.

Definition night_env : env :=
  {| clock := fun _ => at_time a_day 0 16;
     bvg_api := fun _ _ _ => HttpOk (PList []);
     nominatim_api := fun _ _ => HttpOk (PList []);
     brevo_api := fun _ _ _ _ => HttpOk PNone;
     BREVO_API_KEY := Some "key";
     BREVO_SENDER_EMAIL := Some "noreply@ue-germany.de";
     users := [ada];
     classes := [night_lab];
     user_preferences := [] |}.

(** Three users with a class ending at 14:00 and a home location each.
    The place search rejects Ada's home with status 503 and finds a stop
    for every other query; routing finds no itinerary; the mail service
    refuses the addresses in [bounced]. *)
Definition algebra_class : class_row :=
  {| class_user_id := 2; course_name := "Algebra";
     start_time := at_time a_day 12 30; end_time := Some (at_time a_day 14 0);
     location := "Room 2" |}.

Definition ada_prefs : prefs_row :=
  {| prefs_user_id := 1; allow_ubahn := true; allow_sbahn := true;
     allow_regional := true; allow_tram := true; allow_bus := true;
     timing_pref := "earlier"; arrival_time := None;
     home_location := Some "Nowhere" |}.

Definition bob_prefs : prefs_row :=
  {| prefs_user_id := 2; allow_ubahn := true; allow_sbahn := true;
     allow_regional := true; allow_tram := true; allow_bus := true;
     timing_pref := "earlier"; arrival_time := None;
     home_location := Some "Potsdam Hbf" |}.

Definition carol : user_row := {| user_id := 3; user_email := "carol@ue-germany.de" |}.

Definition physics_class : class_row :=
  {| class_user_id := 3; course_name := "Physics";
     start_time := at_time a_day 12 30; end_time := Some (at_time a_day 14 0);
     location := "Room 3" |}.

Definition carol_prefs : prefs_row :=
  {| prefs_user_id := 3; allow_ubahn := true; allow_sbahn := true;
     allow_regional := true; allow_tram := true; allow_bus := true;
     timing_pref := "earlier"; arrival_time := None;
     home_location := Some "Berlin Hbf" |}.

Definition outage_bvg (path : string) (params : list (string * pyval)) : http_response :=
  if String.eqb path "/locations" then
    if is_py_str "Nowhere" (dict_field params "query")
    then HttpStatus 503 "Service Unavailable"
    else HttpOk (PList [stop_place])
  else HttpOk (PDict [("journeys", PList [])]).

Definition outage_env (us : list user_row) (bounced : list string) : env :=
  {| clock := fun _ => at_time a_day 13 31;
     bvg_api := fun _ => outage_bvg;
     nominatim_api := fun _ _ => HttpOk (PList []);
     brevo_api := fun _ to_email _ _ =>
                    if existsb (String.eqb to_email) bounced
                    then HttpStatus 400 "Bad Request" else HttpOk PNone;
     BREVO_API_KEY := Some "key";
     BREVO_SENDER_EMAIL := Some "noreply@ue-germany.de";
     users := us;
     classes := [logic_class; algebra_class; physics_class];
     user_preferences := [ada_prefs; bob_prefs; carol_prefs] |}.

(** The user has a class that ends within the day. *)
Definition ends_class_today (e : env) (today : date) (user : user_row) : bool :=
  match last_class_end e (user_id user) today with
  | Some _ => true
  | None => false
  end.

(** * Further definitions *)

(** The classes are in ascending order of start time. *)
Definition sorted_by_start (l : list class_row) : Prop :=
  Sorted (fun a b => start_time a <= start_time b) l.

(** A class of the user that ends within the day. *)
Definition ends_on (uid : Z) (day : date) (c : class_row) (t : datetime) : Prop :=
  class_user_id c = uid /\ end_time c = Some t
  /\ combine day time_min <= t <= combine day time_max.

(** A class of the user that starts within the day. *)
Definition starts_on (uid : Z) (day : date) (c : class_row) : bool :=
  (class_user_id c =? uid)
  && (combine day time_min <=? start_time c) && (start_time c <=? combine day time_max).

(** Worlds after one more e-mail and after one more daily record. *)
Definition with_mail (w : world) (m : sent_email) : world :=
  {| email_notifications := email_notifications w;
     reminder_logs := reminder_logs w;
     outbox := outbox w ++ [m];
     requests := requests w |}.

Definition with_daily_record (w : world) (uid : Z) (day : date) : world :=
  {| email_notifications := email_notifications w ++ [(uid, day)];
     reminder_logs := reminder_logs w;
     outbox := outbox w;
     requests := requests w |}.

Definition home_of (prefs : option prefs_row) : option string :=
  match prefs with
  | Some p => home_location p
  | None => None
  end.

Definition daily_subject : string := "CampusPulse daily reminder".

Section JourneyFor.

Variable float_of_str : string -> option Q.
Variable isoformat : datetime -> string.

(** The journey the jobs compute for a user (main.py, 698-703 and
    758-763): from home to campus for the daily digest ([outbound]),
    from campus to home for the return reminder; [None] without a home
    location. *)
Definition journey_for (outbound : bool) (e : env) (prefs : option prefs_row) : M pyval :=
  match home_of prefs with
  | Some h =>
      if str_is_empty h then ret PNone
      else
        origin <- resolve_location float_of_str e (if outbound then h else campus) ;;
        destination <- resolve_location float_of_str e (if outbound then campus else h) ;;
        build_journey isoformat e origin destination prefs
  | None => ret PNone
  end.

End JourneyFor.

(** The store of [w'] extends that of [w] by the given rows and mails. *)
Definition store_extended (w w' : world) (rows : list (Z * date))
    (logs : list (Z * date * string)) (mails : list sent_email) : Prop :=
  email_notifications w' = email_notifications w ++ rows
  /\ reminder_logs w' = reminder_logs w ++ logs
  /\ outbox w' = outbox w ++ mails.

(** * Accounts, sessions, preferences and classes

    The tables of [init_db] with the columns the program reads or
    writes ([created_at] and the serial [id] of [sessions] are written
    by the database and never read).  Values drawn at random
    ([secrets.token_bytes], [secrets.token_urlsafe]) and clock readings
    ([datetime.utcnow], SQL [NOW()]) are arguments of the functions that
    draw them. *)

Record user_record : Type := {
  usr_id : Z;
  usr_email : string;
  usr_password_hash : string
}.

Record session_record : Type := {
  ses_user_id : Z;
  ses_token : string;
  ses_expires_at : datetime
}.

Record stored_class : Type := {
  cls_id : Z;
  cls_row : class_row
}.

Record database : Type := {
  tbl_users : list user_record;
  tbl_sessions : list session_record;
  tbl_classes : list stored_class;
  tbl_preferences : list prefs_row;
  users_id_seq : Z;
  classes_id_seq : Z
}.

(** ** More of Python's strings *)

Definition lower_char (c : ascii) : ascii :=
  let n := N_of_ascii c in
  if ((65 <=? n) && (n <=? 90))%N then ascii_of_N (n + 32) else c.

(** [s.lower()] *)
Fixpoint str_lower (s : string) : string :=
  match s with
  | EmptyString => EmptyString
  | String c s' => String (lower_char c) (str_lower s')
  end.

(** [s.endswith(suffix)] *)
Fixpoint endswith (s suffix : string) : bool :=
  String.eqb s suffix ||
  match s with
  | EmptyString => false
  | String _ s' => endswith s' suffix
  end.

(** [s.split(sep, maxsplit)] for a one-character separator. *)
Fixpoint split_on_max (sep : ascii) (s : string) (maxsplit : nat) : list string :=
  match maxsplit with
  | O => [s]
  | S n =>
      match s with
      | EmptyString => [EmptyString]
      | String c s' =>
          if Ascii.eqb c sep then EmptyString :: split_on_max sep s' n
          else match split_on_max sep s' maxsplit with
               | seg :: segs => String c seg :: segs
               | [] => [String c EmptyString]
               end
      end
  end.

Definition dollar : ascii := "$"%char.

Definition is_ascii_char (c : ascii) : bool := (N_of_ascii c <? 128)%N.

(** [s.encode("ascii")]: [UnicodeEncodeError], a [ValueError], on a
    character outside ASCII. *)
Definition encode_ascii (s : string) : result string :=
  if all_chars is_ascii_char s then Ok s else Raise ValueError.

Section Passwords.

(** [base64.b64encode(b).decode("ascii")], [base64.b64decode]
    ([None] when it raises [binascii.Error]) and
    [hashlib.pbkdf2_hmac("sha256", password, salt, iterations)]. *)
Variable b64encode : string -> string.
Variable b64decode : string -> option string.
Variable pbkdf2_hmac : string -> string -> Z -> result string.

Definition pbkdf2_iterations : Z := 120000.

(** [hash_password] (main.py, 223-231); [salt] is the value of
    [secrets.token_bytes(16)]. *)
Definition hash_password (salt password : string) : result string :=
  dk <~ pbkdf2_hmac password salt pbkdf2_iterations ;;
  Ok ("pbkdf2_sha256$" +++ "120000" +++ "$" +++ b64encode salt +++ "$" +++ b64encode dk).

(** The [try] block of [verify_password] (main.py, 235-243): [None]
    where it returns [False], otherwise the iteration count, the salt
    and the expected key. *)
Definition parse_stored_hash (stored : string) : option (Z * string * string) :=
  match split_on_max dollar stored 3 with
  | [algo; iter_s; salt_b64; hash_b64] =>
      if negb (String.eqb algo "pbkdf2_sha256") then None
      else
        match py_int iter_s with
        | None => None
        | Some iterations =>
            match encode_ascii salt_b64 with
            | Raise _ => None
            | Ok salt_a =>
                match b64decode salt_a with
                | None => None
                | Some salt =>
                    match encode_ascii hash_b64 with
                    | Raise _ => None
                    | Ok hash_a =>
                        match b64decode hash_a with
                        | None => None
                        | Some expected => Some (iterations, salt, expected)
                        end
                    end
                end
            end
        end
  | _ => None
  end.

(** [verify_password] (main.py, 234-245) *)
Definition verify_password (password stored : string) : result bool :=
  match parse_stored_hash stored with
  | None => Ok false
  | Some (iterations, salt, expected) =>
      dk <~ pbkdf2_hmac password salt iterations ;;
      Ok (String.eqb dk expected)
  end.

(** ** Sessions *)

Definition with_sessions (db : database) (l : list session_record) : database :=
  {| tbl_users := tbl_users db; tbl_sessions := l; tbl_classes := tbl_classes db;
     tbl_preferences := tbl_preferences db;
     users_id_seq := users_id_seq db; classes_id_seq := classes_id_seq db |}.

Definition seven_days : Z := 7 * usec_per_day.

(** [create_session] (main.py, 248-259): [token] is the value of
    [secrets.token_urlsafe(32)], [utcnow] of [datetime.utcnow()]; the
    insert fails on a token already stored ([token TEXT NOT NULL
    UNIQUE]). *)
Definition create_session (token : string) (utcnow : datetime) (uid : Z)
    (db : database) : result string * database :=
  if existsb (fun s => String.eqb (ses_token s) token) (tbl_sessions db)
  then (Raise UniqueViolation, db)
  else (Ok token,
        with_sessions db
          (tbl_sessions db ++ [{| ses_user_id := uid; ses_token := token;
                                  ses_expires_at := utcnow + seven_days |}])).

(** [get_current_user] (main.py, 262-278): the [session] cookie, the
    SQL [NOW()]; the first row [(id, email)] of the join of the
    unexpired sessions with that token and their users, or [None]. *)
Definition get_current_user (cookie : option string) (db_now : datetime)
    (db : database) : option (Z * string) :=
  match cookie with
  | None => None
  | Some token =>
      if str_is_empty token then None
      else
        hd_error
          (flat_map
             (fun s =>
                if String.eqb (ses_token s) token && (db_now <? ses_expires_at s)
                then map (fun u => (usr_id u, usr_email u))
                       (filter (fun u => usr_id u =? ses_user_id s) (tbl_users db))
                else [])
             (tbl_sessions db))
  end.

(** [require_user] (main.py, 281-285) *)
Definition require_user (cookie : option string) (db_now : datetime)
    (db : database) : result (Z * string) :=
  match get_current_user cookie db_now db with
  | Some user => Ok user
  | None => Raise (HTTPException 401 "Unauthorized")
  end.

(** [auth_logout] (main.py, 880-890) *)
Definition auth_logout (cookie : option string) (db : database) : database :=
  match cookie with
  | None => db
  | Some token =>
      if str_is_empty token then db
      else with_sessions db
             (filter (fun s => negb (String.eqb (ses_token s) token)) (tbl_sessions db))
  end.

(** ** Signing up and logging in *)

Record signup_in : Type := {
  si_email : string;
  si_password : string;
  si_home_location : option string
}.

Record auth_in : Type := {
  ai_email : string;
  ai_password : string
}.

Definition email_domain : string := "@ue-germany.de".

(** [payload.email.strip().lower()] *)
Definition normalize_email (s : string) : string := str_lower (strip s).

(** The row [INSERT INTO user_preferences (user_id, home_location)]
    creates, the other columns at their defaults. *)
Definition default_prefs (uid : Z) (home : option string) : prefs_row :=
  {| prefs_user_id := uid; allow_ubahn := true; allow_sbahn := true;
     allow_regional := true; allow_tram := true; allow_bus := true;
     timing_pref := "earlier"; arrival_time := None; home_location := home |}.

Definition set_home (home : option string) (p : prefs_row) : prefs_row :=
  {| prefs_user_id := prefs_user_id p; allow_ubahn := allow_ubahn p;
     allow_sbahn := allow_sbahn p; allow_regional := allow_regional p;
     allow_tram := allow_tram p; allow_bus := allow_bus p;
     timing_pref := timing_pref p; arrival_time := arrival_time p;
     home_location := home |}.

(** [INSERT ... ON CONFLICT (user_id) DO UPDATE], [update] applied to
    the row in conflict. *)
Fixpoint upsert_prefs (row : prefs_row) (update : prefs_row -> prefs_row)
    (l : list prefs_row) : list prefs_row :=
  match l with
  | [] => [row]
  | p :: rest =>
      if prefs_user_id p =? prefs_user_id row then update p :: rest
      else p :: upsert_prefs row update rest
  end.

(** [auth_signup] (main.py, 810-852).  The result is the value of the
    [session] cookie.  An exception inside the connection block rolls
    the transaction back; the user id drawn from the sequence is not
    given back.  The insert into [users] fails on an id already stored
    ([id SERIAL PRIMARY KEY]). *)
Definition auth_signup (salt token : string) (utcnow : datetime)
    (payload : signup_in) (db : database) : result string * database :=
  let email := normalize_email (si_email payload) in
  if negb (endswith email email_domain) then
    (Raise (HTTPException 400 "Email must end with @ue-germany.de"), db)
  else if (String.length (si_password payload) <? 8)%nat then
    (Raise (HTTPException 400 "Password must be at least 8 characters"), db)
  else if existsb (fun u => String.eqb (usr_email u) email) (tbl_users db) then
    (Raise (HTTPException 409 "User already exists"), db)
  else
    match hash_password salt (si_password payload) with
    | Raise err => (Raise err, db)
    | Ok password_hash =>
        let uid := users_id_seq db in
        let rolled_back :=
          {| tbl_users := tbl_users db; tbl_sessions := tbl_sessions db;
             tbl_classes := tbl_classes db; tbl_preferences := tbl_preferences db;
             users_id_seq := uid + 1; classes_id_seq := classes_id_seq db |} in
        let prefs :=
          if truthy_str (si_home_location payload)
          then upsert_prefs (default_prefs uid (si_home_location payload))
                 (set_home (si_home_location payload)) (tbl_preferences db)
          else tbl_preferences db in
        let db1 :=
          {| tbl_users := tbl_users db ++ [{| usr_id := uid; usr_email := email;
                                              usr_password_hash := password_hash |}];
             tbl_sessions := tbl_sessions db;
             tbl_classes := tbl_classes db;
             tbl_preferences := prefs;
             users_id_seq := uid + 1;
             classes_id_seq := classes_id_seq db |} in
        if existsb (fun u => usr_id u =? uid) (tbl_users db) then
          (Raise UniqueViolation, rolled_back)
        else
          match create_session token utcnow uid db1 with
          | (Ok t, db2) => (Ok t, db2)
          | (Raise err, _) => (Raise err, rolled_back)
          end
    end.

(** [auth_login] (main.py, 855-877) *)
Definition auth_login (token : string) (utcnow : datetime)
    (payload : auth_in) (db : database) : result string * database :=
  let email := normalize_email (ai_email payload) in
  match find (fun u => String.eqb (usr_email u) email) (tbl_users db) with
  | None => (Raise (HTTPException 401 "Invalid credentials"), db)
  | Some user =>
      match verify_password (ai_password payload) (usr_password_hash user) with
      | Raise err => (Raise err, db)
      | Ok false => (Raise (HTTPException 401 "Invalid credentials"), db)
      | Ok true =>
          match create_session token utcnow (usr_id user) db with
          | (Ok t, db1) => (Ok t, db1)
          | (Raise err, _) => (Raise err, db)
          end
      end
  end.

(** [auth_me] (main.py, 802-807) *)
Definition auth_me (cookie : option string) (db_now : datetime)
    (db : database) : result (Z * string) :=
  match get_current_user cookie db_now db with
  | Some user => Ok user
  | None => Raise (HTTPException 401 "Unauthorized")
  end.

(** ** Preferences *)

Record preferences_in : Type := {
  pi_allow_ubahn : option bool;
  pi_allow_sbahn : option bool;
  pi_allow_regional : option bool;
  pi_allow_tram : option bool;
  pi_allow_bus : option bool;
  pi_timing_pref : option string;
  pi_arrival_time : option string;
  pi_home_location : option string
}.

(** The dict returned by [get_preferences]. *)
Record preferences_out : Type := {
  po_allow_ubahn : bool;
  po_allow_sbahn : bool;
  po_allow_regional : bool;
  po_allow_tram : bool;
  po_allow_bus : bool;
  po_timing_pref : string;
  po_arrival_time : string;
  po_home_location : string
}.

Definition with_preferences (db : database) (l : list prefs_row) : database :=
  {| tbl_users := tbl_users db; tbl_sessions := tbl_sessions db;
     tbl_classes := tbl_classes db; tbl_preferences := l;
     users_id_seq := users_id_seq db; classes_id_seq := classes_id_seq db |}.

(** [x or default] on an optional string *)
Definition str_or (x : option string) (default : string) : string :=
  match x with
  | Some s => if str_is_empty s then default else s
  | None => default
  end.

(** [x or None] on an optional string *)
Definition str_or_none (x : option string) : option string :=
  match x with
  | Some s => if str_is_empty s then None else Some s
  | None => None
  end.

Definition bool_or_true (x : option bool) : bool :=
  match x with
  | Some b => b
  | None => true
  end.

(** [get_preferences] (main.py, 893-929) *)
Definition get_preferences (cookie : option string) (db_now : datetime)
    (db : database) : result preferences_out :=
  user <~ require_user cookie db_now db ;;
  match find (fun p => prefs_user_id p =? fst user) (tbl_preferences db) with
  | None =>
      Ok {| po_allow_ubahn := true; po_allow_sbahn := true; po_allow_regional := true;
            po_allow_tram := true; po_allow_bus := true; po_timing_pref := "earlier";
            po_arrival_time := EmptyString; po_home_location := EmptyString |}
  | Some row =>
      Ok {| po_allow_ubahn := allow_ubahn row; po_allow_sbahn := allow_sbahn row;
            po_allow_regional := allow_regional row; po_allow_tram := allow_tram row;
            po_allow_bus := allow_bus row; po_timing_pref := timing_pref row;
            po_arrival_time := str_or (arrival_time row) EmptyString;
            po_home_location := str_or (home_location row) EmptyString |}
  end.

(** [save_preferences] (main.py, 932-980) *)
Definition save_preferences (cookie : option string) (db_now : datetime)
    (payload : preferences_in) (db : database) : result unit * database :=
  match require_user cookie db_now db with
  | Raise err => (Raise err, db)
  | Ok user =>
      let timing := str_or (pi_timing_pref payload) "earlier" in
      if negb (String.eqb timing "earlier" || String.eqb timing "later") then
        (Raise (HTTPException 400 "Invalid timing preference"), db)
      else
        let current_home :=
          match pi_home_location payload with
          | None =>
              match find (fun p => prefs_user_id p =? fst user) (tbl_preferences db) with
              | Some row => home_location row
              | None => None
              end
          | Some _ => None
          end in
        let row :=
          {| prefs_user_id := fst user;
             allow_ubahn := bool_or_true (pi_allow_ubahn payload);
             allow_sbahn := bool_or_true (pi_allow_sbahn payload);
             allow_regional := bool_or_true (pi_allow_regional payload);
             allow_tram := bool_or_true (pi_allow_tram payload);
             allow_bus := bool_or_true (pi_allow_bus payload);
             timing_pref := timing;
             arrival_time := str_or_none (pi_arrival_time payload);
             home_location := match pi_home_location payload with
                              | Some h => Some h
                              | None => current_home
                              end |} in
        (Ok tt, with_preferences db (upsert_prefs row (fun _ => row) (tbl_preferences db)))
  end.

(** ** Classes *)

(** A [datetime] of a request body: its wall-clock reading and, when it
    carries an offset, that offset from UTC in microseconds. *)
Record payload_datetime : Type := {
  pd_wall : datetime;
  pd_utcoffset : option Z
}.

Record class_in : Type := {
  ci_course_name : string;
  ci_start_time : payload_datetime;
  ci_end_time : payload_datetime;
  ci_location : string
}.

(** The offset from UTC, in microseconds, of the time zone of the
    database session at a UTC instant. *)
Variable session_utcoffset : datetime -> Z.

(** What a [TIMESTAMP] column holds after the insert of a Python
    [datetime]: a naive one as it reads; an aware one, which is sent as
    a [timestamptz], as the wall clock of its instant in the time zone
    of the database session. *)
Definition to_timestamp (t : payload_datetime) : datetime :=
  match pd_utcoffset t with
  | None => pd_wall t
  | Some offset =>
      let utc := pd_wall t - offset in
      utc + session_utcoffset utc
  end.

Definition with_classes (db : database) (l : list stored_class) (seq : Z) : database :=
  {| tbl_users := tbl_users db; tbl_sessions := tbl_sessions db;
     tbl_classes := l; tbl_preferences := tbl_preferences db;
     users_id_seq := users_id_seq db; classes_id_seq := seq |}.

(** [create_class] (main.py, 778-799); the insert fails on an id already
    stored ([id SERIAL PRIMARY KEY]). *)
Definition create_class (cookie : option string) (db_now : datetime)
    (payload : class_in) (db : database) : result stored_class * database :=
  match require_user cookie db_now db with
  | Raise err => (Raise err, db)
  | Ok user =>
      let cid := classes_id_seq db in
      let row :=
        {| cls_id := cid;
           cls_row := {| class_user_id := fst user;
                         course_name := ci_course_name payload;
                         start_time := to_timestamp (ci_start_time payload);
                         end_time := Some (to_timestamp (ci_end_time payload));
                         location := ci_location payload |} |} in
      if existsb (fun k => cls_id k =? cid) (tbl_classes db) then
        (Raise UniqueViolation, with_classes db (tbl_classes db) (cid + 1))
      else (Ok row, with_classes db (tbl_classes db ++ [row]) (cid + 1))
  end.

Fixpoint insert_by_start_desc (k : stored_class) (l : list stored_class)
  : list stored_class :=
  match l with
  | [] => [k]
  | k' :: rest =>
      if start_time (cls_row k') <? start_time (cls_row k) then k :: l
      else k' :: insert_by_start_desc k rest
  end.

(** [ORDER BY start_time DESC] *)
Definition order_by_start_desc (l : list stored_class) : list stored_class :=
  fold_right insert_by_start_desc [] l.

(** [list_classes] (main.py, 321-338) *)
Definition list_classes (cookie : option string) (db_now : datetime)
    (db : database) : result (list stored_class) :=
  user <~ require_user cookie db_now db ;;
  Ok (firstn 50
        (order_by_start_desc
           (filter (fun k => class_user_id (cls_row k) =? fst user) (tbl_classes db)))).

(** [delete_class] (main.py, 341-354) *)
Definition delete_class (class_id : Z) (cookie : option string) (db_now : datetime)
    (db : database) : result unit * database :=
  match require_user cookie db_now db with
  | Raise err => (Raise err, db)
  | Ok user =>
      let hit := fun k => (cls_id k =? class_id)
                          && (class_user_id (cls_row k) =? fst user) in
      if existsb hit (tbl_classes db) then
        (Ok tt, with_classes db (filter (fun k => negb (hit k)) (tbl_classes db))
                  (classes_id_seq db))
      else (Raise (HTTPException 404 "Class not found"), db)
  end.

(** The classes and preferences a job reads from the database. *)
Definition job_classes (db : database) : list class_row := map cls_row (tbl_classes db).

Definition job_users (db : database) : list user_row :=
  map (fun u => {| user_id := usr_id u; user_email := usr_email u |}) (tbl_users db).

End Passwords.

Fixpoint count_char (c : ascii) (s : string) : nat :=
  match s with
  | EmptyString => O
  | String c' s' => (if Ascii.eqb c' c then 1 else 0) + count_char c s'
  end.

(** What the constraints of [init_db] and the checks of the endpoints
    keep true of the accounts: unique e-mails and ids, ids below the
    sequence, every e-mail in the campus domain, unique session tokens,
    every session owned by a stored user. *)
Definition accounts_ok (db : database) : Prop :=
  NoDup (map usr_email (tbl_users db))
  /\ NoDup (map usr_id (tbl_users db))
  /\ (forall u, In u (tbl_users db) ->
        usr_id u < users_id_seq db /\ endswith (usr_email u) email_domain = true)
  /\ NoDup (map ses_token (tbl_sessions db))
  /\ (forall s, In s (tbl_sessions db) ->
        exists u, In u (tbl_users db) /\ usr_id u = ses_user_id s).


(** The classes are in descending order of start time. *)
Definition sorted_by_start_desc (l : list stored_class) : Prop :=
  Sorted (fun a b => start_time (cls_row b) <= start_time (cls_row a)) l.

(** A class of the table that belongs to the user. *)
Definition owned_by (uid : Z) (k : stored_class) : bool :=
  class_user_id (cls_row k) =? uid.

Definition valid_timing (s : string) : bool :=
  String.eqb s "earlier" || String.eqb s "later".

(** * Example data for the accounts *)

(** Stand-ins for the three library functions: base64 as the identity
    and a key derivation that joins password and salt. *)
Definition plain_b64encode (s : string) : string := s.
Definition plain_b64decode (s : string) : option string := Some s.
Definition joined_pbkdf2 (password salt : string) (iterations : Z) : result string :=
  Ok (password +++ salt).

Definition ada_account : user_record :=
  {| usr_id := 1; usr_email := "ada@ue-germany.de";
     usr_password_hash := "pbkdf2_sha256$120000$NaCl$correct horseNaCl" |}.

Definition bob_account : user_record :=
  {| usr_id := 2; usr_email := "bob@ue-germany.de";
     usr_password_hash := "pbkdf2_sha256$120000$KCl$battery stapleKCl" |}.

Definition ada_session : session_record :=
  {| ses_user_id := 1; ses_token := "ada-token";
     ses_expires_at := at_time (a_day + 7) 7 0 |}.

(** Two accounts, Ada logged in, a class each, preferences for Ada. *)
Definition campus_db : database :=
  {| tbl_users := [ada_account; bob_account];
     tbl_sessions := [ada_session];
     tbl_classes := [{| cls_id := 1; cls_row := logic_class |};
                     {| cls_id := 2; cls_row := algebra_class |}];
     tbl_preferences := [ada_prefs];
     users_id_seq := 3;
     classes_id_seq := 3 |}.

Definition carol_signup : signup_in :=
  {| si_email := "  Carol@UE-Germany.de ";
     si_password := "correct horse";
     si_home_location := Some "Berlin Hbf" |}.

Definition arrival_only (s : string) : preferences_in :=
  {| pi_allow_ubahn := None; pi_allow_sbahn := None; pi_allow_regional := None;
     pi_allow_tram := None; pi_allow_bus := None; pi_timing_pref := None;
     pi_arrival_time := Some s; pi_home_location := None |}.

Definition timing_only (s : string) : preferences_in :=
  {| pi_allow_ubahn := None; pi_allow_sbahn := None; pi_allow_regional := None;
     pi_allow_tram := None; pi_allow_bus := None; pi_timing_pref := Some s;
     pi_arrival_time := None; pi_home_location := None |}.

(** A database session one hour east of UTC. *)
Definition one_hour_east (utc : datetime) : Z := usec_per_hour.


(** A class given in UTC, from 23:30 to 23:45 the evening before. *)
Definition late_talk : class_in :=
  {| ci_course_name := "Late Talk";
     ci_start_time := {| pd_wall := at_time (a_day - 1) 23 30; pd_utcoffset := Some 0 |};
     ci_end_time := {| pd_wall := at_time (a_day - 1) 23 45; pd_utcoffset := Some 0 |};
     ci_location := "Room 5" |}.

(** The jobs' view of a database at 07:00, routing and mail working. *)
Definition env_of_database (db : database) : env :=
  {| clock := fun _ => at_time a_day 7 0;
     bvg_api := fun _ _ _ => HttpOk (PDict [("journeys", PList [PDict bus_journey])]);
     nominatim_api := fun _ _ => HttpOk (PList []);
     brevo_api := fun _ _ _ _ => HttpOk PNone;
     BREVO_API_KEY := Some "key";
     BREVO_SENDER_EMAIL := Some "noreply@ue-germany.de";
     users := job_users db;
     classes := job_classes db;
     user_preferences := tbl_preferences db |}.

(** [morning_env] without the key of the mail service. *)
Definition unconfigured_env : env :=
  {| clock := fun _ => at_time a_day 7 0;
     bvg_api := fun _ _ _ => HttpOk (PList []);
     nominatim_api := fun _ _ => HttpOk (PList []);
     brevo_api := fun _ _ _ _ => HttpOk PNone;
     BREVO_API_KEY := None;
     BREVO_SENDER_EMAIL := Some "noreply@ue-germany.de";
     users := [ada; bob];
     classes := [logic_class];
     user_preferences := [] |}.

(** [morning_env] with the mail service refusing every message. *)
Definition refusing_env : env :=
  {| clock := fun _ => at_time a_day 7 0;
     bvg_api := fun _ _ _ => HttpOk (PList []);
     nominatim_api := fun _ _ => HttpOk (PList []);
     brevo_api := fun _ _ _ _ => HttpStatus 400 "Bad Request";
     BREVO_API_KEY := Some "key";
     BREVO_SENDER_EMAIL := Some "noreply@ue-germany.de";
     users := [ada; bob];
     classes := [logic_class];
     user_preferences := [] |}.

Definition ada_digest : string :=
  email_document "ada@ue-germany.de" (class_rows_html [logic_class]) EmptyString.

(** * Properties *)

(** ** Stop identifiers *)

Lemma split_on_nonempty (sep : ascii) (s : string) : split_on sep s <> [].
Proof.
  induction s as [|c s IH]; simpl; [discriminate|].
  destruct (Ascii.eqb c sep); [discriminate|].
  destruct (split_on sep s); discriminate.
Qed.

Lemma last_cons_nonempty {A : Type} (x : A) (l : list A) (d : A) :
  l <> [] -> List.last (x :: l) d = List.last l d.
Proof. destruct l; [congruence | reflexivity]. Qed.

Lemma final_segment_cons (c : ascii) (s : string) :
  final_segment (String c s) =
    if Ascii.eqb c colon then final_segment s
    else match split_on colon s with
         | [_] => String c (final_segment s)
         | _ => final_segment s
         end.
Proof.
  unfold final_segment; simpl.
  destruct (Ascii.eqb c colon).
  - apply last_cons_nonempty, split_on_nonempty.
  - pose proof (split_on_nonempty colon s) as Hne.
    destruct (split_on colon s) as [|seg [|seg' segs]]; [congruence| reflexivity | reflexivity].
Qed.

Lemma split_on_single_no_sep (s seg : string) :
  split_on colon s = [seg] -> seg = s /\ has_char colon s = false.
Proof.
  revert seg; induction s as [|c s IH]; simpl; intros seg H.
  - inversion H; auto.
  - destruct (Ascii.eqb c colon) eqn:Hc.
    + pose proof (split_on_nonempty colon s).
      destruct (split_on colon s); [congruence | discriminate].
    + destruct (split_on colon s) as [|seg0 [|seg1 segs]] eqn:Hs.
      * exfalso; exact (split_on_nonempty _ _ Hs).
      * inversion H; subst.
        destruct (IH seg0 eq_refl) as [-> ->]. auto.
      * discriminate.
Qed.

Lemma final_segment_no_colon (s : string) : has_char colon (final_segment s) = false.
Proof.
  induction s as [|c s IH]; [reflexivity|].
  rewrite final_segment_cons.
  destruct (Ascii.eqb c colon) eqn:Hc; [exact IH|].
  destruct (split_on colon s) as [|seg [|seg' segs]] eqn:Hs; try exact IH.
  simpl. rewrite Hc. exact IH.
Qed.

Lemma final_segment_suffix (s : string) :
  s = final_segment s \/ exists p, s = p +++ String colon (final_segment s).
Proof.
  induction s as [|c s IH]; [left; reflexivity|].
  rewrite final_segment_cons.
  destruct (Ascii.eqb c colon) eqn:Hc.
  - apply Ascii.eqb_eq in Hc; subst c.
    right. destruct IH as [IH | [p IH]].
    + exists EmptyString. simpl. rewrite <- IH. reflexivity.
    + exists (String colon p). simpl. rewrite <- IH. reflexivity.
  - destruct (split_on colon s) as [|seg [|seg' segs]] eqn:Hs.
    + exfalso; exact (split_on_nonempty _ _ Hs).
    + left. destruct (split_on_single_no_sep _ Hs) as [-> _].
      unfold final_segment. rewrite Hs. reflexivity.
    + right. destruct IH as [IH | [p IH]].
      * exfalso. pose proof (final_segment_no_colon s) as Hn.
        rewrite <- IH in Hn.
        clear IH. revert seg seg' segs Hs Hn.
        induction s as [|c' s' IH']; simpl; intros; [discriminate|].
        destruct (Ascii.eqb c' colon) eqn:Hc'; [discriminate|]. simpl in Hn.
        destruct (split_on colon s') as [|a [|b l]] eqn:Hs'; try discriminate.
        inversion Hs; subst. eapply IH'; eauto.
      * exists (String c p). simpl. rewrite <- IH. reflexivity.
Qed.

Lemma accept_pick_field (v : pyval) : accept_id (pick_id v) = field_stop_id v.
Proof.
  destruct v as [| b | q | s | l | kv]; try reflexivity.
  unfold pick_id, field_stop_id. fold (final_segment s).
  destruct s as [|c s]; [reflexivity|].
  cbn [str_is_empty].
  destruct (final_segment (String c s)) as [|c' s'] eqn:Hf; reflexivity.
Qed.

Lemma py_get_dict (kv : list (string * pyval)) (k : string) :
  py_get (PDict kv) k = Ok (dict_field kv k).
Proof. reflexivity. Qed.

(** C5. [normalize_stop_id] tries the [ibnr] field, then the [id]
    field, then the [id] of the nested [station] object; each value
    counts through its final colon-delimited segment, accepted only when
    it consists entirely of digits, and the result is absent when no
    field yields one.  ["900000012345"] is accepted, ["abc123"] is not. *)
Theorem normalize_stop_id_priority :
  (forall kv : list (string * pyval),
      normalize_stop_id (PDict kv) =
        if is_nil kv then Ok None
        else match field_stop_id (dict_field kv "ibnr") with
             | Some s => Ok (Some s)
             | None =>
                 match field_stop_id (dict_field kv "id") with
                 | Some s => Ok (Some s)
                 | None =>
                     match py_or (dict_field kv "station") (PDict []) with
                     | PDict st => Ok (field_stop_id (dict_field st "id"))
                     | _ => Raise AttributeError
                     end
                 end
             end)
  /\ (forall s : string,
        field_stop_id (PStr s) =
          if isdigit (final_segment s) then Some (final_segment s) else None)
  /\ (forall s : string,
        has_char colon (final_segment s) = false
        /\ (s = final_segment s \/ exists p, s = p +++ String colon (final_segment s)))
  /\ field_stop_id (PStr "900000012345") = Some "900000012345"
  /\ field_stop_id (PStr "abc123") = None
  /\ normalize_stop_id (PDict [("id", PStr "900000012345")]) = Ok (Some "900000012345")
  /\ normalize_stop_id (PDict [("id", PStr "abc123")]) = Ok None.
Proof.
  split; [|split; [|split; [|repeat split]]].
  - intros [|[k v] kv]; [reflexivity|].
    unfold normalize_stop_id.
    cbn [truthy is_nil negb].
    rewrite py_get_dict. cbn [rbind]. rewrite accept_pick_field.
    destruct (field_stop_id (dict_field ((k, v) :: kv) "ibnr")); [reflexivity|].
    rewrite py_get_dict. cbn [rbind]. rewrite accept_pick_field.
    destruct (field_stop_id (dict_field ((k, v) :: kv) "id")); [reflexivity|].
    rewrite py_get_dict. cbn [rbind].
    destruct (py_or (dict_field ((k, v) :: kv) "station") (PDict [])); try reflexivity.
    rewrite py_get_dict. cbn [rbind]. rewrite accept_pick_field.
    destruct (field_stop_id (dict_field kv0 "id")); reflexivity.
  - reflexivity.
  - intros s; split; [apply final_segment_no_colon | apply final_segment_suffix].
Qed.

(** ** Location resolution *)

Section ResolverProperties.

Variable float_of_str : string -> option Q.

Lemma py_iter_list (l : list pyval) : py_iter (PList l) = Ok l.
Proof. destruct l; reflexivity. Qed.

Lemma normalize_some_is_dict (item : pyval) (sid : string) :
  normalize_stop_id item = Ok (Some sid) -> exists kv, item = PDict kv.
Proof.
  destruct item as [| b | q | s | l | kv]; unfold normalize_stop_id; simpl.
  - discriminate.
  - destruct b; discriminate.
  - destruct (Qnum q =? 0); discriminate.
  - destruct s; discriminate.
  - destruct l; discriminate.
  - eauto.
Qed.

Lemma first_stop_candidate_skip (query : string) (pre rest : list pyval) :
  Forall (fun x => normalize_stop_id x = Ok None) pre ->
  first_stop_candidate float_of_str query (pre ++ rest) =
    first_stop_candidate float_of_str query rest.
Proof.
  induction 1 as [|x pre Hx _ IH]; [reflexivity|].
  simpl. rewrite Hx. simpl. exact IH.
Qed.

Lemma first_stop_candidate_none (query : string) (items : list pyval) :
  Forall (fun x => normalize_stop_id x = Ok None) items ->
  first_stop_candidate float_of_str query items = Ok None.
Proof.
  intros H. rewrite <- (app_nil_r items).
  rewrite first_stop_candidate_skip by assumption. reflexivity.
Qed.

Lemma first_coord_candidate_skip (query : string) (pre rest : list pyval) :
  Forall (fun x => extract_coords float_of_str x = Ok None) pre ->
  first_coord_candidate float_of_str query (pre ++ rest) =
    first_coord_candidate float_of_str query rest.
Proof.
  induction 1 as [|x pre Hx _ IH]; [reflexivity|].
  simpl. rewrite Hx. simpl. exact IH.
Qed.

Lemma resolve_location_search (e : env) (query : string) (w : world) (items : list pyval) :
  bvg_api e (List.length (requests w)) "/locations" (search_params query)
    = HttpOk (PList items) ->
  resolve_location float_of_str e query w =
    (by_id <- lift (first_stop_candidate float_of_str query items) ;;
     match by_id with
     | Some loc => ret loc
     | None =>
         by_coords <- lift (first_coord_candidate float_of_str query items) ;;
         match by_coords with
         | Some loc => ret loc
         | None =>
             n <- request_count ;;
             _ <- log_request (ReqNominatim query) ;;
             match nominatim_api e n query with
             | HttpOk data => lift (geocoded float_of_str query data)
             | HttpStatus code _ => lift (Raise (HTTPStatusError code))
             | HttpTransport name => lift (Raise (RequestError name))
             end
         end
     end) (with_request w (ReqBvg "/locations" (search_params query))).
Proof.
  intros Hapi.
  unfold resolve_location, bvg_get.
  unfold bind at 1 2 3. unfold request_count at 1. unfold log_request at 1.
  fold (search_params query). rewrite Hapi.
  unfold ret at 1. unfold bind at 1. unfold lift at 1.
  rewrite py_iter_list. reflexivity.
Qed.

(** C4. [resolve_location] prefers a stop identifier to a bare
    coordinate: when some candidate of the place search yields an
    identifier, the result is built from the first such candidate, with
    its coordinate if it exposes one; only when no candidate yields an
    identifier is the first candidate exposing a coordinate returned,
    the identifier absent.  Either way the search is the only request. *)
Theorem resolve_location_prefers_stop_id
    (e : env) (query : string) (w : world)
    (pre post : list pyval) (c : pyval) :
  bvg_api e (List.length (requests w)) "/locations" (search_params query)
    = HttpOk (PList (pre ++ c :: post)) ->
  (forall sid coords,
      Forall (fun x => normalize_stop_id x = Ok None) pre ->
      normalize_stop_id c = Ok (Some sid) ->
      extract_coords float_of_str c = Ok coords ->
      exists kv,
        c = PDict kv /\
        resolve_location float_of_str e query w =
          (Ok {| loc_id := Some sid;
                 loc_name := py_or (dict_field kv "name") (PStr query);
                 loc_coords := coords |},
           with_request w (ReqBvg "/locations" (search_params query))))
  /\ (forall xy,
        Forall (fun x => normalize_stop_id x = Ok None) (pre ++ c :: post) ->
        Forall (fun x => extract_coords float_of_str x = Ok None) pre ->
        extract_coords float_of_str c = Ok (Some xy) ->
        exists kv,
          c = PDict kv /\
          resolve_location float_of_str e query w =
            (Ok {| loc_id := None;
                   loc_name := py_or (dict_field kv "name") (PStr query);
                   loc_coords := Some xy |},
             with_request w (ReqBvg "/locations" (search_params query)))).
Proof.
  intros Hapi. split.
  - intros sid coords Hpre Hc Hxy.
    destruct (normalize_some_is_dict _ Hc) as [kv ->].
    exists kv. split; [reflexivity|].
    rewrite (resolve_location_search _ _ _ Hapi).
    unfold bind at 1. unfold lift at 1.
    rewrite first_stop_candidate_skip by assumption.
    simpl first_stop_candidate. rewrite Hc. cbn [rbind]. rewrite Hxy. cbn [rbind].
    reflexivity.
  - intros xy Hall Hpre Hxy.
    assert (exists kv, c = PDict kv) as [kv ->].
    { apply Forall_app in Hall. destruct Hall as [_ Hall].
      inversion Hall as [|? ? Hc _]; subst.
      destruct c as [| b | q | s | l | kv]; eauto; exfalso; revert Hc Hxy;
        unfold normalize_stop_id, extract_coords; simpl.
      - discriminate.
      - destruct b; simpl; discriminate.
      - destruct (Qnum q =? 0); simpl; discriminate.
      - destruct s; simpl; discriminate.
      - destruct l; simpl; discriminate. }
    exists kv. split; [reflexivity|].
    rewrite (resolve_location_search _ _ _ Hapi).
    unfold bind at 1. unfold lift at 1.
    rewrite first_stop_candidate_none by assumption.
    unfold bind at 1. unfold lift at 1.
    rewrite first_coord_candidate_skip by assumption.
    simpl first_coord_candidate. rewrite Hxy. cbn [rbind].
    reflexivity.
Qed.

End ResolverProperties.

(** ** Civil time *)

Lemma usec_per_day_pos : 0 < usec_per_day.
Proof. reflexivity. Qed.

Lemma date_of_combine (day : date) (t : Z) :
  0 <= t < usec_per_day -> date_of (combine day t) = day.
Proof.
  intros Ht. unfold date_of, combine.
  rewrite Z.add_comm, Z.div_add by (pose proof usec_per_day_pos; lia).
  rewrite Z.div_small by assumption. lia.
Qed.

Lemma time_of_combine (day : date) (t : Z) :
  0 <= t < usec_per_day -> combine day t mod usec_per_day = t.
Proof.
  intros Ht. unfold combine.
  rewrite Z.add_comm, Z.mod_add by (pose proof usec_per_day_pos; lia).
  apply Z.mod_small; assumption.
Qed.

Lemma at_time_fields (day : date) (hh mm : Z) :
  0 <= hh <= 23 -> 0 <= mm <= 59 ->
  date_of (at_time day hh mm) = day
  /\ hour_of (at_time day hh mm) = hh
  /\ minute_of (at_time day hh mm) = mm.
Proof.
  intros Hh Hm. unfold at_time.
  assert (Ht : 0 <= hh * usec_per_hour + mm * usec_per_minute < usec_per_day).
  { unfold usec_per_day, usec_per_hour, usec_per_minute. lia. }
  split; [apply date_of_combine; assumption|].
  unfold hour_of, minute_of. rewrite time_of_combine by assumption.
  unfold usec_per_hour. split.
  - rewrite Z.mul_assoc.
    replace (hh * 60 * usec_per_minute + mm * usec_per_minute)
      with (mm * usec_per_minute + hh * (60 * usec_per_minute)) by lia.
    rewrite Z.div_add by (unfold usec_per_minute; lia).
    rewrite Z.div_small by (unfold usec_per_minute; lia). lia.
  - replace (hh * (60 * usec_per_minute) + mm * usec_per_minute)
      with ((hh * 60 + mm) * usec_per_minute) by lia.
    rewrite Z.div_mul by (unfold usec_per_minute; lia).
    rewrite Z.add_comm, Z.mod_add by lia.
    apply Z.mod_small; lia.
Qed.

(** ** Arrival time *)

Section PlannerProperties.

Variable isoformat : datetime -> string.

Lemma build_arrival_datetime_absent (now : datetime) (timing : string) :
  build_arrival_datetime now None timing = Ok None
  /\ build_arrival_datetime now (Some EmptyString) timing = Ok None.
Proof. split; reflexivity. Qed.

(** A string that is not two [int] literals around one colon gives no
    arrival time. *)
Lemma build_arrival_datetime_not_two_ints (now : datetime) (s timing : string) :
  (forall hh mm, map py_int (split_on colon s) <> [Some hh; Some mm]) ->
  build_arrival_datetime now (Some s) timing = Ok None.
Proof.
  intros H. unfold build_arrival_datetime.
  destruct (str_is_empty s); [reflexivity|].
  destruct (map py_int (split_on colon s)) as [|[hh|] [|[mm|] [|x l]]]; try reflexivity.
  exfalso; exact (H hh mm eq_refl).
Qed.

Lemma fits_c_int_bounds (n : Z) :
  - 2 ^ 31 <= n < 2 ^ 31 -> fits_c_int n = true.
Proof.
  intros H. unfold fits_c_int. apply andb_true_intro.
  split; [apply Z.leb_le | apply Z.ltb_lt]; lia.
Qed.

(** The offset is +10 minutes for ["later"] and -10 minutes for any
    other preference. *)
Lemma build_arrival_datetime_value (now : datetime) (s timing : string) (hh mm : Z) :
  str_is_empty s = false ->
  map py_int (split_on colon s) = [Some hh; Some mm] ->
  0 <= hh <= 23 -> 0 <= mm <= 59 ->
  build_arrival_datetime now (Some s) timing =
    Ok (Some (at_time (date_of now) hh mm
              + timedelta_minutes (if String.eqb timing "later" then 10 else -10))).
Proof.
  intros Hs Hp Hh Hm. unfold build_arrival_datetime. rewrite Hs, Hp.
  unfold mk_datetime.
  rewrite (@fits_c_int_bounds hh), (@fits_c_int_bounds mm) by lia. cbn [andb negb].
  replace ((0 <=? hh) && (hh <=? 23) && (0 <=? mm) && (mm <=? 59)) with true
    by (symmetry; repeat (apply andb_true_intro; split); apply Z.leb_le; lia).
  reflexivity.
Qed.

Lemma at_time_shift (day : date) (hh mm k : Z) :
  at_time day hh mm + timedelta_minutes k = at_time day hh (mm + k).
Proof.
  unfold at_time, combine, timedelta_minutes. lia.
Qed.

Lemma build_arrival_datetime_earlier (now : datetime) :
  build_arrival_datetime now (Some "08:30") "earlier" = Ok (Some (at_time (date_of now) 8 20)).
Proof.
  rewrite (@build_arrival_datetime_value now "08:30" "earlier" 8 30);
    [| reflexivity | reflexivity | lia | lia].
  cbn [String.eqb Ascii.eqb Bool.eqb]. rewrite at_time_shift. reflexivity.
Qed.

Lemma build_arrival_datetime_later (now : datetime) :
  build_arrival_datetime now (Some "08:30") "later" = Ok (Some (at_time (date_of now) 8 40)).
Proof.
  rewrite (@build_arrival_datetime_value now "08:30" "later" 8 30);
    [| reflexivity | reflexivity | lia | lia].
  cbn [String.eqb Ascii.eqb Bool.eqb]. rewrite at_time_shift. reflexivity.
Qed.

(** Two integers that are not a clock time make the constructor raise:
    [OverflowError] when one of them is no C [int], [ValueError]
    otherwise. *)
Lemma build_arrival_datetime_raises (now : datetime) (s timing : string) (hh mm : Z) :
  str_is_empty s = false ->
  map py_int (split_on colon s) = [Some hh; Some mm] ->
  ~ (0 <= hh <= 23 /\ 0 <= mm <= 59) ->
  build_arrival_datetime now (Some s) timing =
    Raise (if fits_c_int hh && fits_c_int mm then ValueError else OverflowError).
Proof.
  intros Hs Hp Hr. unfold build_arrival_datetime. rewrite Hs, Hp.
  unfold mk_datetime.
  destruct (fits_c_int hh && fits_c_int mm); [|reflexivity]. cbn [negb].
  destruct ((0 <=? hh) && (hh <=? 23) && (0 <=? mm) && (mm <=? 59)) eqn:Hb;
    [|reflexivity].
  exfalso. apply Hr.
  rewrite !andb_true_iff, !Z.leb_le in Hb. lia.
Qed.

(** C6. ["08:30"] with [earlier] gives 08:20 and with [later] 08:40 on
    the current date, and an absent arrival time gives no result; but an
    arrival time that is two integers out of the range of a clock time,
    such as ["25:00"], is not turned into an absent result: the
    constructor's [ValueError] escapes, whatever the timing preference. *)
Theorem build_arrival_datetime_out_of_range (now : datetime) (timing : string) :
  build_arrival_datetime now (Some "25:00") timing = Raise ValueError
  /\ build_arrival_datetime now (Some "08:30") "earlier"
       = Ok (Some (at_time (date_of now) 8 20))
  /\ build_arrival_datetime now (Some "08:30") "later"
       = Ok (Some (at_time (date_of now) 8 40))
  /\ build_arrival_datetime now None timing = Ok None.
Proof.
  split; [reflexivity|].
  split; [apply build_arrival_datetime_earlier|].
  split; [apply build_arrival_datetime_later | reflexivity].
Qed.

(** ** Journey planning *)

Lemma endpoint_params_identifiers (origin destination : resolved) (oid did : string) :
  loc_id origin = Some oid -> loc_id destination = Some did ->
  carries_id origin && carries_id destination = true ->
  endpoint_params origin destination [("results", PStr "3"); ("polylines", PStr "false")]
    = Some ([("results", PStr "3"); ("polylines", PStr "false")] ++ identifier_pair oid did).
Proof.
  intros Ho Hd Hb. unfold endpoint_params. unfold carries_id, truthy_str in Hb.
  rewrite Ho, Hd in *. rewrite Hb. reflexivity.
Qed.

Lemma endpoint_params_without_identifiers (origin destination : resolved) :
  carries_id origin && carries_id destination = false ->
  endpoint_params origin destination [("results", PStr "3"); ("polylines", PStr "false")]
    = match loc_coords origin, loc_coords destination with
      | Some oxy, Some dxy =>
          Some ([("results", PStr "3"); ("polylines", PStr "false")]
                  ++ coordinate_pair origin destination oxy dxy)
      | _, _ => None
      end.
Proof.
  intros Hb. unfold endpoint_params. unfold carries_id, truthy_str in Hb.
  assert (Hc : match loc_coords origin, loc_coords destination with
               | Some (olat, olon), Some (dlat, dlon) =>
                   Some (dict_set "to.name"
                           (py_or (loc_name destination) (PStr "Campus Jungfernsee"))
                        (dict_set "to.longitude" (PNum dlon)
                        (dict_set "to.latitude" (PNum dlat)
                        (dict_set "from.name" (py_or (loc_name origin) (PStr "Start"))
                        (dict_set "from.longitude" (PNum olon)
                        (dict_set "from.latitude" (PNum olat)
                           [("results", PStr "3"); ("polylines", PStr "false")]))))))
               | _, _ => None
               end
               = match loc_coords origin, loc_coords destination with
                 | Some oxy, Some dxy =>
                     Some ([("results", PStr "3"); ("polylines", PStr "false")]
                             ++ coordinate_pair origin destination oxy dxy)
                 | _, _ => None
                 end).
  { destruct (loc_coords origin) as [[olat olon]|]; [|reflexivity].
    destruct (loc_coords destination) as [[dlat dlon]|]; reflexivity. }
  cbv zeta. rewrite Hc.
  destruct (loc_id origin) as [oid|]; [|reflexivity].
  destruct (loc_id destination) as [did|]; [|reflexivity].
  rewrite Hb. reflexivity.
Qed.

Lemma endpoint_params_coordinates (origin destination : resolved) (oxy dxy : Q * Q) :
  carries_id origin && carries_id destination = false ->
  loc_coords origin = Some oxy -> loc_coords destination = Some dxy ->
  endpoint_params origin destination [("results", PStr "3"); ("polylines", PStr "false")]
    = Some ([("results", PStr "3"); ("polylines", PStr "false")]
              ++ coordinate_pair origin destination oxy dxy).
Proof.
  intros Hb Ho Hd. rewrite (endpoint_params_without_identifiers _ _ Hb), Ho, Hd.
  reflexivity.
Qed.

Lemma endpoint_params_none (origin destination : resolved) :
  carries_id origin && carries_id destination = false ->
  loc_coords origin = None \/ loc_coords destination = None ->
  endpoint_params origin destination [("results", PStr "3"); ("polylines", PStr "false")]
    = None.
Proof.
  intros Hb H. rewrite (endpoint_params_without_identifiers _ _ Hb).
  destruct H as [-> | ->]; [reflexivity|].
  destruct (loc_coords origin); reflexivity.
Qed.

Lemma build_journey_request (e : env) (origin destination : resolved)
    (prefs : option prefs_row) (w : world)
    (endpoints : list (string * pyval)) (arrival : option datetime) :
  endpoints_of origin destination endpoints ->
  build_arrival_datetime (clock e (List.length (requests w)))
    (prefs_arrival_time prefs) (prefs_timing prefs) = Ok arrival ->
  build_journey isoformat e origin destination prefs w =
    (data <- bvg_get e "/journeys" (journey_request isoformat endpoints prefs arrival) ;;
     journeys0 <- lift (py_get data "journeys") ;;
     let journeys := py_or journeys0 (PList []) in
     if negb (truthy journeys) then ret PNone
     else lift (py_index0 journeys)) w.
Proof.
  intros Hend Harr. unfold build_journey.
  fold (prefs_arrival_time prefs). fold (prefs_timing prefs).
  destruct Hend as [oid did Ho Hd Hb | oxy dxy Hb Ho Hd].
  - rewrite (endpoint_params_identifiers _ _ Ho Hd Hb).
    unfold bind at 1. unfold request_count at 1.
    unfold bind at 1. unfold lift at 1. rewrite Harr.
    destruct arrival; reflexivity.
  - rewrite (endpoint_params_coordinates _ _ Hb Ho Hd).
    unfold bind at 1. unfold request_count at 1.
    unfold bind at 1. unfold lift at 1. rewrite Harr.
    destruct arrival; reflexivity.
Qed.

(** C7. [build_journey] returns [None] without attempting a request when
    the endpoints do not both carry a stop identifier and one of them
    lacks a coordinate.  Otherwise, once the arrival time is computed,
    it issues one request, by identifier pair when both endpoints carry
    identifiers and by coordinate pair with the display names otherwise,
    and from an answer it returns [None] when there are no itineraries
    and the first itinerary when there are; so, the itineraries being
    JSON objects, the result is [None] if and only if no request could
    be formed or the service returned zero itineraries. *)
Theorem build_journey_absent_iff (e : env) (origin destination : resolved)
    (prefs : option prefs_row) (w : world) :
  (carries_id origin && carries_id destination = false ->
   loc_coords origin = None \/ loc_coords destination = None ->
   build_journey isoformat e origin destination prefs w = (Ok PNone, w))
  /\ (forall endpoints arrival data js,
        endpoints_of origin destination endpoints ->
        build_arrival_datetime (clock e (List.length (requests w)))
          (prefs_arrival_time prefs) (prefs_timing prefs) = Ok arrival ->
        bvg_api e (List.length (requests w)) "/journeys"
          (journey_request isoformat endpoints prefs arrival) = HttpOk (PDict data) ->
        itineraries data = PList js ->
        build_journey isoformat e origin destination prefs w =
          (Ok (match js with [] => PNone | j :: _ => j end),
           with_request w
             (ReqBvg "/journeys" (journey_request isoformat endpoints prefs arrival)))
        /\ ((forall j, In j js -> exists kv, j = PDict kv) ->
            (fst (build_journey isoformat e origin destination prefs w) = Ok PNone
             <-> js = [])))
  /\ (forall endpoints, endpoints_of origin destination endpoints ->
        ~ (carries_id origin && carries_id destination = false
           /\ (loc_coords origin = None \/ loc_coords destination = None)))
  /\ ((carries_id origin && carries_id destination = false
       /\ (loc_coords origin = None \/ loc_coords destination = None))
      \/ exists endpoints, endpoints_of origin destination endpoints).
Proof.
  split; [|split; [|split]].
  - intros Hb Hc. unfold build_journey.
    rewrite (endpoint_params_none _ _ Hb Hc). reflexivity.
  - intros endpoints arrival data js Hend Harr Hapi Hjs.
    assert (Hrun : build_journey isoformat e origin destination prefs w =
      (Ok (match js with [] => PNone | j :: _ => j end),
       with_request w
         (ReqBvg "/journeys" (journey_request isoformat endpoints prefs arrival)))).
    { rewrite (build_journey_request e prefs w Hend Harr).
      unfold bvg_get.
      unfold bind at 1 2 3. unfold request_count at 1. unfold log_request at 1.
      rewrite Hapi. unfold ret at 1.
      unfold bind at 1. unfold lift at 1. rewrite py_get_dict.
      fold (itineraries data). rewrite Hjs.
      destruct js; reflexivity. }
    split; [exact Hrun|].
    intros Hobj. rewrite Hrun. cbn [fst].
    destruct js as [|j js']; [tauto|].
    destruct (Hobj j (or_introl eq_refl)) as [kv ->].
    split; discriminate.
  - intros endpoints Hend [Hb Hc].
    destruct Hend as [oid did Ho Hd Hb' | oxy dxy Hb' Ho Hd].
    + congruence.
    + destruct Hc; congruence.
  - destruct (carries_id origin && carries_id destination) eqn:Hb.
    + right. apply andb_prop in Hb. destruct Hb as [Ho Hd].
      unfold carries_id, truthy_str in Ho, Hd.
      destruct (loc_id origin) as [oid|] eqn:Eo; [|discriminate].
      destruct (loc_id destination) as [did|] eqn:Ed; [|discriminate].
      exists (identifier_pair oid did). apply by_identifiers; auto.
      unfold carries_id, truthy_str. rewrite Eo, Ed, Ho, Hd. reflexivity.
    + destruct (loc_coords origin) as [oxy|] eqn:Eo; [|left; auto].
      destruct (loc_coords destination) as [dxy|] eqn:Ed; [|left; auto].
      right. exists (coordinate_pair origin destination oxy dxy).
      apply by_coordinates; auto.
Qed.

End PlannerProperties.

(** ** E-mail rendering *)






Section RenderingProperties.

Variable repr_other : pyval -> string.








End RenderingProperties.

(** ** The return-reminder window *)

(** The window test as the job makes it, on the value of a [TIMESTAMP]
    column and a reading of [datetime.now(TZ)], raises before it
    compares anything. *)
Lemma in_return_window_raises (last_end now : datetime) :
  in_return_window (of_timestamp last_end) (now_in_tz now) = Raise TypeError.
Proof. reflexivity. Qed.

(** ** The store is touched only by sending and recording *)

Lemma same_store_refl (w : world) : same_store w w.
Proof. repeat split. Qed.

Lemma same_store_trans (w1 w2 w3 : world) :
  same_store w1 w2 -> same_store w2 w3 -> same_store w1 w3.
Proof.
  intros (A1 & B1 & C1) (A2 & B2 & C2). repeat split; congruence.
Qed.

Lemma preserves_ret {A : Type} (a : A) : preserves (ret a).
Proof. intros w; apply same_store_refl. Qed.

Lemma preserves_lift {A : Type} (r : result A) : preserves (lift r).
Proof. intros w; apply same_store_refl. Qed.

Lemma preserves_bind {A B : Type} (m : M A) (k : A -> M B) :
  preserves m -> (forall a, preserves (k a)) -> preserves (bind m k).
Proof.
  intros Hm Hk w. unfold bind. specialize (Hm w).
  destruct (m w) as [[a|err] w1]; cbn [snd] in *.
  - eapply same_store_trans; [exact Hm | apply Hk].
  - exact Hm.
Qed.

Lemma preserves_request_count : preserves request_count.
Proof. intros w; apply same_store_refl. Qed.

Lemma preserves_log_request (r : request) : preserves (log_request r).
Proof. intros w; repeat split. Qed.

Lemma preserves_bvg_get (e : env) (path : string) (params : list (string * pyval)) :
  preserves (bvg_get e path params).
Proof.
  unfold bvg_get.
  apply preserves_bind; [apply preserves_request_count | intros n].
  apply preserves_bind; [apply preserves_log_request | intros _].
  destruct (bvg_api e n path params);
    [apply preserves_ret | apply preserves_lift | apply preserves_lift].
Qed.

Section JobProperties.

Variable float_of_str : string -> option Q.
Variable isoformat : datetime -> string.
Variable repr_other : pyval -> string.

Lemma preserves_resolve_location (e : env) (query : string) :
  preserves (resolve_location float_of_str e query).
Proof.
  unfold resolve_location.
  apply preserves_bind; [apply preserves_bvg_get | intros items].
  apply preserves_bind; [apply preserves_lift | intros candidates].
  apply preserves_bind; [apply preserves_lift | intros [loc|]]; [apply preserves_ret|].
  apply preserves_bind; [apply preserves_lift | intros [loc|]]; [apply preserves_ret|].
  apply preserves_bind; [apply preserves_request_count | intros n].
  apply preserves_bind; [apply preserves_log_request | intros _].
  destruct (nominatim_api e n query); apply preserves_lift.
Qed.

Lemma preserves_build_journey (e : env) (origin destination : resolved)
    (prefs : option prefs_row) :
  preserves (build_journey isoformat e origin destination prefs).
Proof.
  unfold build_journey.
  destruct (endpoint_params origin destination _) as [params|]; [|apply preserves_ret].
  apply preserves_bind; [apply preserves_request_count | intros n].
  apply preserves_bind; [apply preserves_lift | intros arrival].
  apply preserves_bind; [apply preserves_bvg_get | intros data].
  apply preserves_bind; [apply preserves_lift | intros journeys0].
  destruct (negb _); [apply preserves_ret | apply preserves_lift].
Qed.

(** The journey computed for a user, in either direction. *)
Lemma preserves_journey (e : env) (home : option string) (prefs : option prefs_row)
    (outbound : bool) :
  preserves
    (match home with
     | Some h =>
         if str_is_empty h then ret PNone
         else
           origin <- resolve_location float_of_str e (if outbound then h else campus) ;;
           destination <- resolve_location float_of_str e (if outbound then campus else h) ;;
           build_journey isoformat e origin destination prefs
     | None => ret PNone
     end).
Proof.
  destruct home as [h|]; [|apply preserves_ret].
  destruct (str_is_empty h); [apply preserves_ret|].
  apply preserves_bind; [apply preserves_resolve_location | intros origin].
  apply preserves_bind; [apply preserves_resolve_location | intros destination].
  apply preserves_build_journey.
Qed.

(** [send_brevo_email] leaves the dedup tables alone; it adds at most
    one e-mail, carrying the given tag, and none when it raises. *)
Lemma send_brevo_email_effect (e : env) (tag : Z * date * kind)
    (to_email subject html : string) (w : world) :
  let r := send_brevo_email e tag to_email subject html w in
  email_notifications (snd r) = email_notifications w
  /\ reminder_logs (snd r) = reminder_logs w
  /\ ((fst r = Ok tt
       /\ (outbox (snd r) = outbox w
           \/ exists m, sent_tag m = tag /\ outbox (snd r) = outbox w ++ [m]))
      \/ (exists err, fst r = Raise err) /\ outbox (snd r) = outbox w).
Proof.
  unfold send_brevo_email.
  destruct (negb (truthy_str (BREVO_API_KEY e)) || negb (truthy_str (BREVO_SENDER_EMAIL e))).
  - cbn. repeat split. left. split; [reflexivity | left; reflexivity].
  - unfold bind, request_count, log_request. cbn [fst snd].
    destruct (brevo_api e _ to_email subject html); cbn.
    + repeat split. left. split; [reflexivity|]. right.
      exists {| sent_tag := tag; sent_to := to_email;
                sent_subject := subject; sent_html := html |}.
      split; reflexivity.
    + repeat split. right. split; [eexists|]; reflexivity.
    + repeat split. right. split; [eexists|]; reflexivity.
Qed.

(** One iteration of the daily loop. *)
Lemma daily_for_user_step (e : env) (today : date) (user : user_row) (w : world) :
  daily_step (user_id user) today w
    (snd (daily_for_user float_of_str isoformat repr_other e today user w)).
Proof.
  unfold daily_for_user.
  unfold bind at 1. unfold select_email_notification at 1.
  destruct (existsb (daily_row_matches (user_id user) today) (email_notifications w))
    eqn:Hex.
  { apply daily_skip, same_store_refl. }
  destruct (is_nil (classes_for_day e (user_id user) today)).
  { apply daily_skip, same_store_refl. }
  match goal with
  | |- daily_step _ _ _ (snd (bind ?m ?k w)) =>
      pose proof (preserves_journey e _ _ true w : same_store w (snd (m w))) as Hj;
      unfold bind at 1; destruct (m w) as [[journey|err] w1]
  end; cbn [snd] in Hj; [|apply daily_skip; exact Hj].
  unfold bind at 1. unfold lift at 1.
  destruct (build_journey_email repr_other (user_email user)
              (classes_for_day e (user_id user) today) journey) as [html|err];
    [|apply daily_skip; exact Hj].
  unfold bind at 1. unfold try_except at 1. unfold bind at 1.
  pose proof (send_brevo_email_effect e (user_id user, today, KDaily) (user_email user)
                "CampusPulse daily reminder" html w1) as Hs.
  cbv zeta in Hs.
  destruct Hj as (Hj1 & Hj2 & Hj3).
  destruct (send_brevo_email e (user_id user, today, KDaily) (user_email user)
              "CampusPulse daily reminder" html w1) as [[[]|err] w2];
    cbn [fst snd] in Hs; destruct Hs as (Hs1 & Hs2 & Hs3).
  - unfold ret at 1. unfold insert_email_notification.
    rewrite Hs1, Hj1, Hex. cbn [snd].
    apply daily_sent; cbn [email_notifications reminder_logs outbox]; try congruence.
    destruct Hs3 as [[_ [Ho | (m & Hm & Ho)]] | [[err Herr] _]]; [| |discriminate].
    + left; congruence.
    + right; exists m; split; [exact Hm | congruence].
  - unfold ret. cbn [snd].
    apply daily_skip. repeat split; try congruence.
    destruct Hs3 as [[Hok _] | [_ Ho]]; [discriminate | congruence].
Qed.

(** One iteration of the return-reminder loop. *)
Lemma return_for_user_step (e : env) (now : datetime) (today : date)
    (user : user_row) (w : world) :
  return_step (user_id user) today w
    (snd (return_for_user float_of_str isoformat repr_other e now today user w)).
Proof.
  unfold return_for_user.
  destruct (last_class_end e (user_id user) today) as [last_end|];
    [|apply return_skip, same_store_refl].
  unfold bind at 1. unfold lift at 1.
  destruct (in_return_window (of_timestamp last_end) (now_in_tz now)) as [inside|err];
    [|apply return_skip, same_store_refl].
  destruct (negb inside); [apply return_skip, same_store_refl|].
  unfold bind at 1. unfold select_reminder_log at 1.
  destruct (existsb (reminder_row_matches (user_id user) today "return") (reminder_logs w))
    eqn:Hex.
  { apply return_skip, same_store_refl. }
  match goal with
  | |- return_step _ _ _ (snd (bind ?m ?k w)) =>
      pose proof (preserves_journey e _ _ false w : same_store w (snd (m w))) as Hj;
      unfold bind at 1; destruct (m w) as [[journey|err] w1]
  end; cbn [snd] in Hj; [|apply return_skip; exact Hj].
  unfold bind at 1. unfold lift at 1.
  destruct (build_journey_email repr_other (user_email user)
              (classes_for_day e (user_id user) today) journey) as [html|err];
    [|apply return_skip; exact Hj].
  unfold bind at 1. unfold try_except at 1. unfold bind at 1.
  pose proof (send_brevo_email_effect e (user_id user, today, KReturn) (user_email user)
                "CampusPulse reminder: time to head home" html w1) as Hs.
  cbv zeta in Hs.
  destruct Hj as (Hj1 & Hj2 & Hj3).
  destruct (send_brevo_email e (user_id user, today, KReturn) (user_email user)
              "CampusPulse reminder: time to head home" html w1) as [[[]|err] w2];
    cbn [fst snd] in Hs; destruct Hs as (Hs1 & Hs2 & Hs3).
  - unfold ret at 1. unfold insert_reminder_log.
    rewrite Hs2, Hj2, Hex. cbn [snd].
    apply return_sent; cbn [email_notifications reminder_logs outbox]; try congruence.
    destruct Hs3 as [[_ [Ho | (m & Hm & Ho)]] | [[err Herr] _]]; [| |discriminate].
    + left; congruence.
    + right; exists m; split; [exact Hm | congruence].
  - unfold ret. cbn [snd].
    apply return_skip. repeat split; try congruence.
    destruct Hs3 as [[Hok _] | [_ Ho]]; [discriminate | congruence].
Qed.

(** A property kept by every iteration is kept by the loop. *)
Lemma for_each_invariant {A : Type} (I : world -> Prop) (body : A -> M unit) (l : list A) :
  (forall x w, I w -> I (snd (body x w))) ->
  forall w, I w -> I (snd (for_each body l w)).
Proof.
  intros Hbody. induction l as [|x l IH]; intros w Hw; [exact Hw|].
  simpl. unfold bind. specialize (Hbody x w Hw).
  destruct (body x w) as [[[]|err] w1]; cbn [snd] in *.
  - apply IH; exact Hbody.
  - exact Hbody.
Qed.

Lemma filter_length_app_one {A : Type} (p : A -> bool) (l : list A) (x : A) :
  List.length (filter p (l ++ [x])) =
    (List.length (filter p l) + (if p x then 1 else 0))%nat.
Proof.
  rewrite filter_app, length_app. simpl. destruct (p x); reflexivity.
Qed.

Lemma existsb_false_filter {A : Type} (p : A -> bool) (l : list A) :
  existsb p l = false -> filter p l = [].
Proof.
  induction l as [|x l IH]; simpl; [reflexivity|].
  destruct (p x); simpl; [discriminate | exact IH].
Qed.

Lemma count_same_store (w w' : world) :
  same_store w w' ->
  forall uid day k,
    count_records uid day k w' = count_records uid day k w
    /\ count_sent uid day k w' = count_sent uid day k w.
Proof.
  intros (H1 & H2 & H3) uid day k.
  unfold count_records, count_sent. rewrite H1, H2, H3. split; reflexivity.
Qed.

Lemma dedup_invariant_same_store (w w' : world) :
  same_store w w' -> dedup_invariant w -> dedup_invariant w'.
Proof.
  intros Hs Hinv uid day k.
  destruct (count_same_store Hs uid day k) as [-> ->]. apply Hinv.
Qed.

Lemma tag_matches_spec (uid : Z) (day : date) (k : kind) (m : sent_email)
    (u : Z) (d : date) (k' : kind) :
  sent_tag m = (u, d, k') ->
  tag_matches uid day k m = (u =? uid) && (d =? day) && kind_eqb k' k.
Proof. intros H. unfold tag_matches. rewrite H. reflexivity. Qed.

Lemma daily_row_matches_pair (u uid : Z) (d today : date) :
  daily_row_matches u d (uid, today) = (uid =? u) && (today =? d).
Proof. reflexivity. Qed.

Lemma reminder_row_matches_return (u uid : Z) (d today : date) :
  reminder_row_matches u d "return" (uid, today, "return") = (uid =? u) && (today =? d).
Proof. unfold reminder_row_matches. cbn [fst snd]. apply andb_true_r. Qed.

Lemma dedup_invariant_daily_step (uid : Z) (today : date) (w w' : world) :
  daily_step uid today w w' -> dedup_invariant w -> dedup_invariant w'.
Proof.
  intros [Hs | Hex Hrows Hlogs Hout] Hinv;
    [exact (dedup_invariant_same_store Hs Hinv)|].
  intros u d k. specialize (Hinv u d k).
  pose proof (Hinv0 := proj1 (Hinv)).
  unfold count_records, count_sent in *.
  destruct k.
  - rewrite Hrows, filter_length_app_one.
    rewrite !daily_row_matches_pair.
    destruct ((uid =? u) && (today =? d)) eqn:Hm; cbv iota.
    + apply andb_prop in Hm. destruct Hm as [Hu Hd].
      apply Z.eqb_eq in Hu, Hd. subst u d.
      rewrite (existsb_false_filter _ _ Hex) in *. cbn [List.length] in *.
      split; [|lia].
      destruct Hout as [-> | (m & Hm & ->)]; [lia|].
      rewrite filter_length_app_one. destruct (tag_matches uid today KDaily m); cbv iota; lia.
    + destruct Hout as [-> | (m & Htag & ->)]; [lia|].
      rewrite filter_length_app_one, (tag_matches_spec u d KDaily m Htag).
      rewrite Hm. cbn [andb]. lia.
  - rewrite Hlogs.
    destruct Hout as [-> | (m & Htag & ->)]; [lia|].
    rewrite filter_length_app_one, (tag_matches_spec u d KReturn m Htag).
    cbn [kind_eqb]. rewrite andb_false_r. lia.
Qed.

Lemma dedup_invariant_return_step (uid : Z) (today : date) (w w' : world) :
  return_step uid today w w' -> dedup_invariant w -> dedup_invariant w'.
Proof.
  intros [Hs | Hex Hlogs Hrows Hout] Hinv;
    [exact (dedup_invariant_same_store Hs Hinv)|].
  intros u d k. specialize (Hinv u d k).
  unfold count_records, count_sent in *.
  destruct k.
  - rewrite Hrows.
    destruct Hout as [-> | (m & Htag & ->)]; [lia|].
    rewrite filter_length_app_one, (tag_matches_spec u d KDaily m Htag).
    cbn [kind_eqb]. rewrite andb_false_r. lia.
  - rewrite Hlogs, filter_length_app_one.
    rewrite !reminder_row_matches_return.
    destruct ((uid =? u) && (today =? d)) eqn:Hm; cbv iota.
    + apply andb_prop in Hm. destruct Hm as [Hu Hd].
      apply Z.eqb_eq in Hu, Hd. subst u d.
      rewrite (existsb_false_filter _ _ Hex) in *. cbn [List.length] in *.
      split; [|lia].
      destruct Hout as [-> | (m & Hm & ->)]; [lia|].
      rewrite filter_length_app_one. destruct (tag_matches uid today KReturn m); cbv iota; lia.
    + destruct Hout as [-> | (m & Htag & ->)]; [lia|].
      rewrite filter_length_app_one, (tag_matches_spec u d KReturn m Htag).
      rewrite Hm. cbn [andb]. lia.
Qed.

Lemma dedup_invariant_tick (t : job * env) (w : world) :
  dedup_invariant w ->
  dedup_invariant (run_tick float_of_str isoformat repr_other t w).
Proof.
  intros Hinv. unfold run_tick. destruct (fst t).
  - unfold send_daily_emails, bind, request_count.
    apply for_each_invariant; [|exact Hinv].
    intros user w1 Hw1.
    exact (dedup_invariant_daily_step (daily_for_user_step _ _ _ _) Hw1).
  - unfold send_return_reminders, bind, request_count.
    apply for_each_invariant; [|exact Hinv].
    intros user w1 Hw1.
    exact (dedup_invariant_return_step (return_for_user_step _ _ _ _ _) Hw1).
Qed.

Lemma dedup_invariant_ticks (ts : list (job * env)) (w : world) :
  dedup_invariant w ->
  dedup_invariant (run_ticks float_of_str isoformat repr_other ts w).
Proof.
  revert w; induction ts as [|t ts IH]; intros w Hw; [exact Hw|].
  simpl. apply IH, dedup_invariant_tick, Hw.
Qed.

(** C1. After any number of firings of the two jobs, in any order and
    whatever the users, classes, preferences, clock and remote services
    at each firing, there is for every user, day and kind at most one
    notification record in the dedup store and at most one e-mail was
    dispatched. *)
Theorem at_most_one_notification (ts : list (job * env)) (uid : Z) (day : date) (k : kind) :
  let w := run_ticks float_of_str isoformat repr_other ts empty_world in
  (count_records uid day k w <= 1)%nat /\ (count_sent uid day k w <= 1)%nat.
Proof.
  intros w.
  assert (Hinv : dedup_invariant w).
  { apply dedup_invariant_ticks. intros u d k'. destruct k'; cbn; lia. }
  destruct (Hinv uid day k). split; lia.
Qed.

(** ** A day without classes *)

Lemma daily_for_user_no_classes (e : env) (today : date) (user : user_row) (w : world) :
  classes_for_day e (user_id user) today = [] ->
  daily_for_user float_of_str isoformat repr_other e today user w = (Ok tt, w).
Proof.
  intros Hcs. unfold daily_for_user.
  unfold bind at 1. unfold select_email_notification at 1.
  destruct (existsb _ _); [reflexivity|].
  rewrite Hcs. reflexivity.
Qed.

Lemma filter_app_one_false {A : Type} (p : A -> bool) (l : list A) (x : A) :
  p x = false -> filter p (l ++ [x]) = filter p l.
Proof.
  intros H. rewrite filter_app. simpl. rewrite H. apply app_nil_r.
Qed.

Lemma daily_step_other_user (u uid : Z) (today : date) (w w' : world) :
  daily_step u today w w' -> u <> uid ->
  daily_rows_of uid w' = daily_rows_of uid w
  /\ sent_to_user uid w' = sent_to_user uid w
  /\ reminder_logs w' = reminder_logs w.
Proof.
  intros [(H1 & H2 & H3) | Hex Hrows Hlogs Hout] Hne;
    unfold daily_rows_of, sent_to_user.
  - rewrite H1, H2, H3. repeat split.
  - assert (Hu : (u =? uid) = false) by (apply Z.eqb_neq; exact Hne).
    rewrite Hrows, Hlogs.
    rewrite filter_app_one_false by exact Hu.
    split; [reflexivity|]. split; [|reflexivity].
    destruct Hout as [-> | (m & Htag & ->)]; [reflexivity|].
    apply filter_app_one_false. rewrite Htag. exact Hu.
Qed.

(** C9. When a user has no class today, a firing of the daily job
    leaves that user's records in the dedup store as they were and
    dispatches no e-mail to them, whatever happens to the other users. *)
Theorem daily_job_skips_empty_day (e : env) (w : world) (uid : Z) :
  classes_for_day e uid (date_of (clock e (List.length (requests w)))) = [] ->
  let w' := snd (send_daily_emails float_of_str isoformat repr_other e w) in
  daily_rows_of uid w' = daily_rows_of uid w
  /\ sent_to_user uid w' = sent_to_user uid w
  /\ reminder_logs w' = reminder_logs w.
Proof.
  intros Hcs w'. subst w'.
  unfold send_daily_emails, bind, request_count.
  set (today := date_of (clock e (List.length (requests w)))) in *.
  apply (@for_each_invariant _
           (fun w1 => daily_rows_of uid w1 = daily_rows_of uid w
                      /\ sent_to_user uid w1 = sent_to_user uid w
                      /\ reminder_logs w1 = reminder_logs w));
    [|repeat split].
  intros user w1 (I1 & I2 & I3).
  destruct (Z.eq_dec (user_id user) uid) as [Heq | Hne].
  - rewrite daily_for_user_no_classes by (rewrite Heq; exact Hcs).
    cbn [snd]. auto.
  - destruct (daily_step_other_user (daily_for_user_step e today user w1) Hne)
      as (S1 & S2 & S3).
    repeat split; congruence.
Qed.

(** ** Classes of the day and the last class end *)

Lemma In_insert_by_start (c x : class_row) (l : list class_row) :
  In x (insert_by_start c l) <-> x = c \/ In x l.
Proof.
  induction l as [|c' l IH]; simpl.
  - intuition congruence.
  - destruct (start_time c <? start_time c'); simpl; [intuition congruence|].
    rewrite IH. intuition congruence.
Qed.

Lemma In_order_by_start (x : class_row) (l : list class_row) :
  In x (order_by_start l) <-> In x l.
Proof.
  unfold order_by_start. induction l as [|c l IH]; simpl; [tauto|].
  rewrite In_insert_by_start, IH. intuition congruence.
Qed.

Lemma classes_for_day_In (e : env) (uid : Z) (day : date) (c : class_row) :
  In c (classes_for_day e uid day) <->
    In c (classes e) /\ class_user_id c = uid
    /\ combine day time_min <= start_time c <= combine day time_max.
Proof.
  unfold classes_for_day. rewrite In_order_by_start, filter_In.
  rewrite !andb_true_iff, Z.eqb_eq, !Z.leb_le. tauto.
Qed.

Lemma max_end_ge (l : list class_row) (c : class_row) (t : datetime) :
  In c l -> end_time c = Some t -> exists m, max_end l = Some m /\ t <= m.
Proof.
  induction l as [|c' l IH]; simpl; [tauto|].
  intros [-> | Hin] Ht.
  - rewrite Ht. destruct (max_end l) as [m|]; eexists; split; try reflexivity; lia.
  - destruct (IH Hin Ht) as (m & -> & Hm).
    destruct (end_time c') as [t'|]; eexists; split; try reflexivity; lia.
Qed.

Lemma max_end_attained (l : list class_row) (m : datetime) :
  max_end l = Some m -> exists c, In c l /\ end_time c = Some m.
Proof.
  revert m; induction l as [|c l IH]; simpl; [discriminate|].
  intros m. destruct (end_time c) as [t|] eqn:Ht.
  - destruct (max_end l) as [m'|].
    + intros H; inversion H; subst.
      destruct (Z.max_spec t m') as [[_ ->] | [_ ->]].
      * destruct (IH m' eq_refl) as (c' & Hin & Hc'). eauto.
      * eauto.
    + intros H; inversion H; subst. eauto.
  - intros H. destruct (IH m H) as (c' & Hin & Hc'). eauto.
Qed.

Lemma last_class_end_ge (e : env) (uid : Z) (day : date) (c : class_row) (t : datetime) :
  In c (classes e) -> class_user_id c = uid -> end_time c = Some t ->
  combine day time_min <= t <= combine day time_max ->
  exists m, last_class_end e uid day = Some m /\ t <= m.
Proof.
  intros Hin Hu Ht Hday. unfold last_class_end.
  apply max_end_ge with (c := c); [|exact Ht].
  apply filter_In. split; [exact Hin|].
  rewrite Ht, !andb_true_iff, Z.eqb_eq, !Z.leb_le. tauto.
Qed.

Lemma last_class_end_attained (e : env) (uid : Z) (day : date) (m : datetime) :
  last_class_end e uid day = Some m ->
  exists c, In c (classes e) /\ class_user_id c = uid /\ end_time c = Some m
            /\ combine day time_min <= m <= combine day time_max.
Proof.
  unfold last_class_end. intros H.
  destruct (max_end_attained _ H) as (c & Hin & Hc).
  apply filter_In in Hin. destruct Hin as [Hin Hf].
  rewrite Hc, !andb_true_iff, Z.eqb_eq, !Z.leb_le in Hf.
  exists c. tauto.
Qed.

(** ** The return-reminder job on one user *)

(** A user with a class that ends today makes the window comparison
    raise: nothing is asked, sent or recorded. *)
Lemma return_for_user_raises (e : env) (now : datetime) (today : date)
    (user : user_row) (w : world) (last_end : datetime) :
  last_class_end e (user_id user) today = Some last_end ->
  return_for_user float_of_str isoformat repr_other e now today user w
    = (Raise TypeError, w).
Proof.
  intros Hl. unfold return_for_user. rewrite Hl. reflexivity.
Qed.

Lemma return_for_user_passes (e : env) (now : datetime) (today : date)
    (user : user_row) (w : world) :
  last_class_end e (user_id user) today = None ->
  return_for_user float_of_str isoformat repr_other e now today user w = (Ok tt, w).
Proof.
  intros Hl. unfold return_for_user. rewrite Hl. reflexivity.
Qed.

(** The loop of the return job: it passes over the users without a
    class that ends today and raises at the first user with one. *)
Lemma return_loop_outcome (e : env) (now : datetime) (today : date)
    (us : list user_row) (w : world) :
  for_each (return_for_user float_of_str isoformat repr_other e now today) us w =
    (if existsb (ends_class_today e today) us then Raise TypeError else Ok tt, w).
Proof.
  induction us as [|user us IH]; [reflexivity|].
  simpl. unfold bind. unfold ends_class_today at 1.
  destruct (last_class_end e (user_id user) today) as [last_end|] eqn:Hl.
  - rewrite (@return_for_user_raises e now today user w last_end Hl). reflexivity.
  - rewrite (@return_for_user_passes e now today user w Hl). exact IH.
Qed.

Lemma date_of_at_time (day : date) (hh mm : Z) :
  0 <= hh <= 23 -> 0 <= mm <= 59 -> date_of (at_time day hh mm) = day.
Proof.
  intros Hh Hm. unfold at_time. apply date_of_combine.
  unfold usec_per_day, usec_per_hour, usec_per_minute. lia.
Qed.

(** C3 (code bug). With the last class of a user ending today, the
    window comparison of the return job is made between that end, read
    from a [TIMESTAMP] column and so without time zone, and the
    time-zone-aware reading of the clock: it raises [TypeError].  With
    the last class ending at 14:00 the job fired at 13:30, at 13:31, at
    13:35, or at any other time of that day, raises and sends and
    records nothing: no user is ever found eligible. *)
Theorem return_window_comparison_raises :
  (forall last_end now,
      in_return_window (of_timestamp last_end) (now_in_tz now) = Raise TypeError)
  /\ (forall e now today user w last_end,
      last_class_end e (user_id user) today = Some last_end ->
      return_for_user float_of_str isoformat repr_other e now today user w
        = (Raise TypeError, w))
  /\ (forall hh mm,
        0 <= hh <= 23 -> 0 <= mm <= 59 ->
        last_class_end (afternoon_env hh mm) 1 (date_of (clock (afternoon_env hh mm) 0))
          = Some (at_time a_day 14 0)
        /\ send_return_reminders float_of_str isoformat repr_other (afternoon_env hh mm)
             empty_world = (Raise TypeError, empty_world)).
Proof.
  split; [exact in_return_window_raises|]. split.
  - intros e now today user w last_end Hl.
    exact (@return_for_user_raises e now today user w last_end Hl).
  - intros hh mm Hh Hm.
    assert (Hday : date_of (clock (afternoon_env hh mm) 0) = a_day)
      by (cbn [clock afternoon_env]; exact (@date_of_at_time a_day hh mm Hh Hm)).
    rewrite Hday. split; [reflexivity|].
    unfold send_return_reminders. unfold bind at 1. unfold request_count at 1.
    cbn [requests empty_world List.length]. rewrite Hday.
    rewrite return_loop_outcome. reflexivity.
Qed.

(** C10 (code bug). [last_class_end] looks at the classes that end
    within the day and [classes_for_day] at those that start within
    it.  A class that starts before midnight and ends today is
    therefore no row of the day's classes, yet it gives the user a last
    class end today, equal to its own end when no class of the user
    ends later that day.  But no reminder is rendered for that user:
    having found the last class end, the return job raises [TypeError]
    at the window comparison, at whatever time it fires. *)
Theorem overnight_class_counted_but_not_listed
    (e : env) (uid : Z) (day : date) (c : class_row) (t : datetime) :
  In c (classes e) ->
  class_user_id c = uid ->
  start_time c < combine day time_min ->
  end_time c = Some t ->
  combine day time_min <= t <= combine day time_max ->
  ~ In c (classes_for_day e uid day)
  /\ (exists m, last_class_end e uid day = Some m /\ t <= m)
  /\ ((forall c' t', In c' (classes e) -> class_user_id c' = uid ->
                     end_time c' = Some t' -> t' <= combine day time_max -> t' <= t) ->
      last_class_end e uid day = Some t)
  /\ (forall now user w,
        user_id user = uid ->
        return_for_user float_of_str isoformat repr_other e now day user w
          = (Raise TypeError, w)).
Proof.
  intros Hin Hu Hstart Ht Hday.
  split; [|split; [|split]].
  - rewrite classes_for_day_In. lia.
  - exact (@last_class_end_ge e uid day c t Hin Hu Ht Hday).
  - intros Hmax.
    destruct (@last_class_end_ge e uid day c t Hin Hu Ht Hday) as (m & Hm & Hle).
    destruct (@last_class_end_attained e uid day m Hm) as (c' & Hin' & Hu' & Hc' & Hday').
    rewrite Hm. f_equal.
    pose proof (Hmax c' m Hin' Hu' Hc' (proj2 Hday')). lia.
  - intros now user w Huser.
    destruct (@last_class_end_ge e uid day c t Hin Hu Ht Hday) as (m & Hm & _).
    rewrite <- Huser in Hm. exact (@return_for_user_raises e now day user w m Hm).
Qed.

(** ** A failed send is skipped *)

Lemma for_each_returns {A : Type} (body : A -> M unit) (l : list A) :
  (forall x w, In x l -> fst (body x w) = Ok tt) ->
  forall w, fst (for_each body l w) = Ok tt.
Proof.
  induction l as [|x l IH]; intros Hbody w; [reflexivity|].
  simpl. unfold bind.
  pose proof (Hbody x w (or_introl eq_refl)) as Hx.
  destruct (body x w) as [[[]|err] w1]; cbn [fst] in Hx; [|discriminate].
  apply IH. intros y w' Hy. apply Hbody. right; exact Hy.
Qed.

(** Whatever the mail service answers, the daily iteration for a user
    without home location returns normally. *)
Lemma daily_for_user_returns (e : env) (today : date) (user : user_row) (w : world) :
  match preferences_for_user e (user_id user) with
  | Some p => home_location p
  | None => None
  end = None ->
  fst (daily_for_user float_of_str isoformat repr_other e today user w) = Ok tt.
Proof.
  intros Hhome. unfold daily_for_user.
  unfold bind at 1. unfold select_email_notification at 1.
  destruct (existsb (daily_row_matches (user_id user) today) (email_notifications w))
    eqn:Hex; [reflexivity|].
  destruct (is_nil (classes_for_day e (user_id user) today)); [reflexivity|].
  rewrite Hhome.
  unfold bind at 1. unfold ret at 1.
  unfold bind at 1. unfold lift at 1.
  unfold build_journey_email, journey_html. cbn [truthy rbind].
  unfold bind at 1. unfold try_except at 1. unfold bind at 1.
  match goal with
  | |- context [send_brevo_email e ?tag ?to ?subj ?html w] =>
      pose proof (send_brevo_email_effect e tag to subj html w) as Hs;
      cbv zeta in Hs;
      destruct (send_brevo_email e tag to subj html w) as [[[]|err] w2]
  end; cbn [fst snd] in Hs; destruct Hs as (Hs1 & _ & _).
  - unfold ret at 1. unfold insert_email_notification. rewrite Hs1, Hex. reflexivity.
  - reflexivity.
Qed.

(** When no user has a home location, so that no place search or
    routing is attempted, the daily job returns normally whatever the
    mail service does: a failed send never ends it. *)
Lemma send_failures_never_abort (e : env) (w : world) :
  (forall user, In user (users e) ->
     match preferences_for_user e (user_id user) with
     | Some p => home_location p
     | None => None
     end = None) ->
  fst (send_daily_emails float_of_str isoformat repr_other e w) = Ok tt.
Proof.
  intros Hhome.
  unfold send_daily_emails, bind, request_count.
  apply for_each_returns. intros user w1 Hin.
  apply daily_for_user_returns, Hhome, Hin.
Qed.

(** ** A failed place search is not skipped *)

Lemma for_each_aborts {A : Type} (body : A -> M unit) (x : A) (rest : list A)
    (w w1 : world) (err : exn) :
  body x w = (Raise err, w1) -> for_each body (x :: rest) w = (Raise err, w1).
Proof. intros H. simpl. unfold bind. rewrite H. reflexivity. Qed.

Lemma resolve_location_upstream_error (e : env) (query : string) (w : world)
    (code : Z) (text : string) :
  bvg_api e (List.length (requests w)) "/locations" (search_params query)
    = HttpStatus code text ->
  resolve_location float_of_str e query w =
    (Raise (HTTPException code text),
     with_request w (ReqBvg "/locations" (search_params query))).
Proof.
  intros Hapi. unfold resolve_location, bvg_get.
  unfold bind at 1 2 3. unfold request_count at 1. unfold log_request at 1.
  fold (search_params query). rewrite Hapi. reflexivity.
Qed.

(** The daily iteration for a user whose home cannot be searched raises
    the error of the place search. *)
Lemma daily_for_user_search_failure (e : env) (today : date) (user : user_row)
    (w : world) (p : prefs_row) (h : string) (code : Z) (text : string) :
  existsb (daily_row_matches (user_id user) today) (email_notifications w) = false ->
  classes_for_day e (user_id user) today <> [] ->
  preferences_for_user e (user_id user) = Some p ->
  home_location p = Some h ->
  str_is_empty h = false ->
  bvg_api e (List.length (requests w)) "/locations" (search_params h)
    = HttpStatus code text ->
  daily_for_user float_of_str isoformat repr_other e today user w =
    (Raise (HTTPException code text),
     with_request w (ReqBvg "/locations" (search_params h))).
Proof.
  intros Hex Hcs Hp Hh Hne Hapi. unfold daily_for_user.
  unfold bind at 1. unfold select_email_notification at 1. rewrite Hex.
  destruct (classes_for_day e (user_id user) today) as [|c cs]; [congruence|].
  cbn [is_nil]. rewrite Hp, Hh, Hne.
  unfold bind at 1. unfold bind at 1.
  rewrite (resolve_location_upstream_error e h w Hapi). reflexivity.
Qed.

End JobProperties.

(** * The properties at concrete inputs *)

(** C2 (code bug). One user's failed place search ends the daily job:
    with Ada before Bob nobody is served, although Bob is served when
    he comes first; a refused e-mail, by contrast, costs only its own
    recipient: Carol is served after Bob's e-mail was refused.  The
    return job does not get as far as a place search: with a class of
    its first user ending today it raises [TypeError] at the window
    comparison and serves nobody, in either order. *)
Theorem location_failure_aborts_job :
  let daily us bounced :=
    send_daily_emails no_float no_isoformat no_repr (outage_env us bounced) empty_world in
  let reminders us bounced :=
    send_return_reminders no_float no_isoformat no_repr (outage_env us bounced) empty_world in
  (fst (daily [ada; bob] []) = Raise (HTTPException 503 "Service Unavailable")
   /\ dispatched (snd (daily [ada; bob] [])) = []
   /\ email_notifications (snd (daily [ada; bob] [])) = [])
  /\ (fst (daily [bob; ada] []) = Raise (HTTPException 503 "Service Unavailable")
      /\ dispatched (snd (daily [bob; ada] [])) = [(2, a_day, KDaily)]
      /\ email_notifications (snd (daily [bob; ada] [])) = [(2, a_day)])
  /\ reminders [ada; bob] [] = (Raise TypeError, empty_world)
  /\ reminders [bob; ada] [] = (Raise TypeError, empty_world)
  /\ (fst (daily [bob; ada] ["bob@ue-germany.de"])
        = Raise (HTTPException 503 "Service Unavailable")
      /\ email_notifications (snd (daily [bob; ada] ["bob@ue-germany.de"])) = [])
  /\ (fst (daily [bob; carol] ["bob@ue-germany.de"]) = Ok tt
      /\ dispatched (snd (daily [bob; carol] ["bob@ue-germany.de"])) = [(3, a_day, KDaily)]
      /\ email_notifications (snd (daily [bob; carol] ["bob@ue-germany.de"]))
         = [(3, a_day)]).
Proof.
  cbv zeta. repeat split; vm_compute; reflexivity.
Qed.

(** ** Examples *)

Example class_row_of_logic_class :
  class_rows_html [logic_class] = "<tr><td>12:30-14:00</td><td>Logic</td><td>Room 1</td></tr>".
Proof. reflexivity. Qed.

Example class_rows_of_empty_day :
  class_rows_html [] = "<tr><td colspan='3'>No classes today.</td></tr>".
Proof. reflexivity. Qed.

Example leg_row_of_bus_leg :
  leg_row_html no_repr bus_leg =
    Ok "<tr><td>603</td><td>07:12-07:31</td><td>S Potsdam Hauptbahnhof → Campus Jungfernsee</td></tr>".
Proof. reflexivity. Qed.

Example compound_identifier :
  normalize_stop_id (PDict [("id", PStr "de:12054:900230999")]) = Ok (Some "900230999").
Proof. reflexivity. Qed.

Example py_int_examples :
  py_int "08" = Some 8 /\ py_int " 30 " = Some 30 /\ py_int "1_0" = Some 10
  /\ py_int "-5" = Some (-5) /\ py_int "8h" = None /\ py_int EmptyString = None.
Proof. repeat split. Qed.

(** The daily job on a user with one class: one record, one e-mail, and
    nothing more on a second firing the same day. *)
Example daily_job_twice :
  let w1 := run_tick no_float no_isoformat no_repr (DailyJob, morning_env) empty_world in
  let w2 := run_tick no_float no_isoformat no_repr (DailyJob, morning_env) w1 in
  email_notifications w1 = [(1, a_day)]
  /\ dispatched w1 = [(1, a_day, KDaily)]
  /\ email_notifications w2 = [(1, a_day)]
  /\ dispatched w2 = [(1, a_day, KDaily)].
Proof. cbv zeta. repeat split; vm_compute; reflexivity. Qed.

(** The return job on the evening of the overnight class: Ada's last
    class end is found and the comparison raises. *)
Example night_reminder_raises :
  send_return_reminders no_float no_isoformat no_repr night_env empty_world
    = (Raise TypeError, empty_world).
Proof. vm_compute. reflexivity. Qed.

(** ** Witnesses *)

Lemma resolve_location_prefers_stop_id_witness :
  (exists kv,
      stop_place = PDict kv /\
      resolve_location no_float (search_env [street_place; stop_place]) "Potsdam Hbf"
        empty_world =
        (Ok {| loc_id := Some "900000012345";
               loc_name := py_or (dict_field kv "name") (PStr "Potsdam Hbf");
               loc_coords := Some (5239 # 100, 1307 # 100)%Q |},
         with_request empty_world (ReqBvg "/locations" (search_params "Potsdam Hbf"))))
  /\ (exists kv,
        street_place = PDict kv /\
        resolve_location no_float (search_env [PDict []; street_place]) "Am Kanal"
          empty_world =
          (Ok {| loc_id := None;
                 loc_name := py_or (dict_field kv "name") (PStr "Am Kanal");
                 loc_coords := Some (5240 # 100, 1306 # 100)%Q |},
           with_request empty_world (ReqBvg "/locations" (search_params "Am Kanal")))).
Proof.
  split.
  - apply (proj1 (@resolve_location_prefers_stop_id no_float
                    (search_env [street_place; stop_place]) "Potsdam Hbf" empty_world
                    [street_place] [] stop_place eq_refl)).
    + repeat constructor.
    + reflexivity.
    + reflexivity.
  - apply (proj2 (@resolve_location_prefers_stop_id no_float
                    (search_env [PDict []; street_place]) "Am Kanal" empty_world
                    [PDict []] [] street_place eq_refl)).
    + repeat constructor.
    + repeat constructor.
    + reflexivity.
Defined.

Lemma build_journey_absent_iff_witness :
  build_journey no_isoformat routing_env unknown_place campus_stop None empty_world
    = (Ok PNone, empty_world)
  /\ build_journey no_isoformat routing_env home_stop campus_stop None empty_world
     = (Ok (PDict bus_journey),
        with_request empty_world
          (ReqBvg "/journeys"
             (journey_request no_isoformat
                (identifier_pair "900000012345" "900000230003") None None))).
Proof.
  split.
  - apply (proj1 (@build_journey_absent_iff no_isoformat routing_env
                    unknown_place campus_stop None empty_world)).
    + reflexivity.
    + left; reflexivity.
  - pose proof (proj1 (proj2 (@build_journey_absent_iff no_isoformat routing_env
                                home_stop campus_stop None empty_world))) as H.
    apply (proj1 (H (identifier_pair "900000012345" "900000230003") None
                    [("journeys", PList [PDict bus_journey])] [PDict bus_journey]
                    (@by_identifiers home_stop campus_stop _ _ eq_refl eq_refl eq_refl)
                    eq_refl eq_refl eq_refl)).
Defined.


Lemma daily_job_skips_empty_day_witness :
  classes_for_day morning_env 2 (date_of (clock morning_env 0)) = []
  /\ (let w' := snd (send_daily_emails no_float no_isoformat no_repr morning_env
                       empty_world) in
      daily_rows_of 2 w' = daily_rows_of 2 empty_world
      /\ sent_to_user 2 w' = sent_to_user 2 empty_world
      /\ reminder_logs w' = reminder_logs empty_world).
Proof.
  split; [reflexivity|].
  apply (@daily_job_skips_empty_day no_float no_isoformat no_repr morning_env empty_world 2).
  reflexivity.
Defined.

Lemma return_window_comparison_raises_witness :
  last_class_end (afternoon_env 13 31) 1 (date_of (clock (afternoon_env 13 31) 0))
    = Some (at_time a_day 14 0)
  /\ send_return_reminders no_float no_isoformat no_repr (afternoon_env 13 31) empty_world
     = (Raise TypeError, empty_world).
Proof.
  apply (proj2 (proj2 (@return_window_comparison_raises no_float no_isoformat no_repr))
           13 31); lia.
Defined.

Lemma overnight_class_counted_but_not_listed_witness :
  ~ In night_lab (classes_for_day night_env 1 a_day)
  /\ last_class_end night_env 1 a_day = Some (at_time a_day 0 45)
  /\ return_for_user no_float no_isoformat no_repr night_env
       (at_time a_day 0 16) a_day ada empty_world = (Raise TypeError, empty_world).
Proof.
  assert (Hstart : start_time night_lab < combine a_day time_min) by reflexivity.
  assert (Hday : combine a_day time_min <= at_time a_day 0 45 <= combine a_day time_max)
    by (split; discriminate).
  pose proof (@overnight_class_counted_but_not_listed no_float no_isoformat no_repr
                night_env 1 a_day night_lab (at_time a_day 0 45)
                (or_introl eq_refl) eq_refl Hstart eq_refl Hday)
    as (Hrow & _ & Hlast & Hraise).
  split; [exact Hrow|]. split.
  - apply Hlast. intros c' t' [<- | []] _ Ht' _.
    inversion Ht'. apply Z.le_refl.
  - exact (Hraise (at_time a_day 0 16) ada empty_world eq_refl).
Defined.

(** * Further properties of the resolver, the planner and the jobs *)

Lemma bind_ok_inv {A B : Type} (m : M A) (k : A -> M B) (w w' : world) (b : B) :
  bind m k w = (Ok b, w') ->
  exists a w1, m w = (Ok a, w1) /\ k a w1 = (Ok b, w').
Proof.
  unfold bind. destruct (m w) as [[a|err] w1]; intros H; [eauto | discriminate].
Qed.

Lemma lift_ok_inv {A : Type} (r : result A) (w w' : world) (a : A) :
  lift r w = (Ok a, w') -> r = Ok a /\ w' = w.
Proof. unfold lift. intros H; inversion H; auto. Qed.

Section ResolverInvariants.

Variable float_of_str : string -> option Q.

Lemma first_coord_candidate_id (query : string) (items : list pyval) (loc : resolved) :
  first_coord_candidate float_of_str query items = Ok (Some loc) ->
  loc_id loc = None /\ loc_coords loc <> None.
Proof.
  induction items as [|item rest IH]; simpl; [discriminate|].
  destruct (extract_coords float_of_str item) as [[xy|]|err]; cbn [rbind];
    [|exact IH|discriminate].
  destruct (py_get item "name") as [name|err]; cbn [rbind]; [|discriminate].
  intros H; inversion H; subst. cbn. split; [reflexivity | discriminate].
Qed.

Lemma geocoded_id (query : string) (data : pyval) (loc : resolved) :
  geocoded float_of_str query data = Ok loc -> loc_id loc = None.
Proof.
  unfold geocoded. destruct (negb (truthy data)).
  - intros H; inversion H; reflexivity.
  - destruct (py_index0 data) as [item|]; cbn [rbind]; [|discriminate].
    destruct (py_get item "display_name"); cbn [rbind]; [|discriminate].
    destruct (py_item item "lat") as [lat_v|]; cbn [rbind]; [|discriminate].
    destruct (py_float float_of_str lat_v); cbn [rbind]; [|discriminate].
    destruct (py_item item "lon") as [lon_v|]; cbn [rbind]; [|discriminate].
    destruct (py_float float_of_str lon_v); cbn [rbind]; [|discriminate].
    intros H; inversion H; reflexivity.
Qed.

Lemma first_stop_candidate_source (query : string) (items : list pyval) (loc : resolved) :
  first_stop_candidate float_of_str query items = Ok (Some loc) ->
  exists sid item,
    In item items /\ normalize_stop_id item = Ok (Some sid) /\ loc_id loc = Some sid.
Proof.
  induction items as [|item rest IH]; simpl; [discriminate|].
  destruct (normalize_stop_id item) as [[sid|]|err] eqn:Hn; cbn [rbind];
    [| |discriminate].
  - destruct (extract_coords float_of_str item) as [coords|err]; cbn [rbind];
      [|discriminate].
    destruct (py_get item "name") as [name|err]; cbn [rbind]; [|discriminate].
    intros H; inversion H; subst. cbn [loc_id].
    exists sid, item. split; [left; reflexivity | split; [exact Hn | reflexivity]].
  - intros H. destruct (IH H) as (sid & it & Hin & Hit & Hid).
    exists sid, it. split; [right; exact Hin | split; assumption].
Qed.

Lemma bvg_get_ok_inv (e : env) (path : string) (params : list (string * pyval))
    (w w1 : world) (body : pyval) :
  bvg_get e path params w = (Ok body, w1) ->
  bvg_api e (List.length (requests w)) path params = HttpOk body
  /\ w1 = with_request w (ReqBvg path params).
Proof.
  unfold bvg_get. unfold bind at 1 2. unfold request_count at 1. unfold log_request at 1.
  destruct (bvg_api e (List.length (requests w)) path params) as [b| |];
    unfold ret, lift; intros H; inversion H.
  split; reflexivity.
Qed.

(** X1. An identifier in the result of [resolve_location] always comes
    from the transit search: when the result carries one, the search
    was the only request, and the identifier is what
    [normalize_stop_id] gives for one of the candidates it returned.
    A result for which the geocoder was asked therefore carries no
    identifier, and neither does any result when no candidate yields
    one. *)
Theorem resolved_id_comes_from_search (e : env) (query : string) (w w' : world)
    (loc : resolved) :
  resolve_location float_of_str e query w = (Ok loc, w') ->
  (forall sid,
      loc_id loc = Some sid ->
      w' = with_request w (ReqBvg "/locations" (search_params query))
      /\ exists items candidates item,
           bvg_api e (List.length (requests w)) "/locations" (search_params query)
             = HttpOk items
           /\ py_iter items = Ok candidates
           /\ In item candidates
           /\ normalize_stop_id item = Ok (Some sid))
  /\ (In (ReqNominatim query) (requests w') -> ~ In (ReqNominatim query) (requests w) ->
      loc_id loc = None).
Proof.
  intros H.
  assert (Hfirst : forall sid,
      loc_id loc = Some sid ->
      w' = with_request w (ReqBvg "/locations" (search_params query))
      /\ exists items candidates item,
           bvg_api e (List.length (requests w)) "/locations" (search_params query)
             = HttpOk items
           /\ py_iter items = Ok candidates
           /\ In item candidates
           /\ normalize_stop_id item = Ok (Some sid)).
  { unfold resolve_location in H.
    apply bind_ok_inv in H. destruct H as (items & w1 & Hget & H).
    apply bvg_get_ok_inv in Hget. destruct Hget as [Hapi ->].
    apply bind_ok_inv in H. destruct H as (candidates & w2 & Hiter & H).
    apply lift_ok_inv in Hiter. destruct Hiter as [Hiter ->].
    apply bind_ok_inv in H. destruct H as (by_id & w3 & Hid & H).
    apply lift_ok_inv in Hid. destruct Hid as [Hid ->].
    destruct by_id as [loc0|].
    - inversion H; subst loc0 w'. intros sid Hsid.
      split; [reflexivity|].
      destruct (first_stop_candidate_source _ _ Hid) as (sid' & item & Hin & Hn & Hloc).
      exists items, candidates, item.
      repeat split; try assumption. congruence.
    - apply bind_ok_inv in H. destruct H as (by_coords & w4 & Hco & H).
      apply lift_ok_inv in Hco. destruct Hco as [Hco _].
      destruct by_coords as [loc0|].
      + inversion H; subst loc0. intros sid Hsid.
        rewrite (proj1 (first_coord_candidate_id _ _ Hco)) in Hsid. discriminate.
      + apply bind_ok_inv in H. destruct H as (n & w5 & _ & H).
        apply bind_ok_inv in H. destruct H as (u & w6 & _ & H).
        intros sid Hsid.
        destruct (nominatim_api e n query);
          try (apply lift_ok_inv in H; destruct H as [H _]); try discriminate.
        rewrite (geocoded_id _ _ H) in Hsid. discriminate. }
  split; [exact Hfirst|].
  intros Hasked Hnew.
  destruct (loc_id loc) as [sid|] eqn:Hsid; [|reflexivity].
  exfalso. destruct (Hfirst sid eq_refl) as [-> _].
  unfold with_request in Hasked. cbn [requests] in Hasked.
  apply in_app_or in Hasked. destruct Hasked as [Hin | [Heq | []]];
    [exact (Hnew Hin) | discriminate Heq].
Qed.

Lemma assoc_some_nonempty (k : string) (kv : list (string * pyval)) (v : pyval) :
  assoc k kv = Some v -> truthy (PDict kv) = true.
Proof. destruct kv; [discriminate | reflexivity]. Qed.

End ResolverInvariants.

(** [float] on integers: exact below 2^53, [OverflowError] from 2^1024
    on. *)
Lemma float_of_int_exact (n : Z) :
  Z.abs n < 2 ^ 53 -> float_of_int n = Ok (inject_Z n).
Proof.
  intros Hn. unfold float_of_int.
  replace (Z.log2 (Z.abs n) + 1 <=? 53) with true; [reflexivity|].
  symmetry. apply Z.leb_le.
  destruct (Z.eq_dec (Z.abs n) 0) as [-> | Hz]; [cbn; lia|].
  assert (Z.log2 (Z.abs n) < 53) by (apply Z.log2_lt_pow2; lia).
  lia.
Qed.

Lemma float_of_int_overflow (n : Z) :
  2 ^ 1024 <= n -> float_of_int n = Raise OverflowError.
Proof.
  intros Hn.
  assert (Hpos : 0 < n) by (pose proof (Z.pow_pos_nonneg 2 1024); lia).
  assert (Hlog : 1024 <= Z.log2 n).
  { rewrite <- (Z.log2_pow2 1024) by lia. apply Z.log2_le_mono. exact Hn. }
  unfold float_of_int. rewrite (Z.abs_eq n) by lia.
  replace (Z.log2 n + 1 <=? 53) with false by (symmetry; apply Z.leb_gt; lia).
  set (k := Z.log2 n + 1 - 53).
  assert (Hk : 0 <= k) by (unfold k; lia).
  cbv zeta.
  set (m := Z.shiftr n k).
  set (m' := if (Z.shiftl 1 (k - 1) <? n - Z.shiftl m k)
                || ((n - Z.shiftl m k =? Z.shiftl 1 (k - 1)) && Z.odd m)
             then m + 1 else m).
  assert (Hm : 2 ^ 52 <= m).
  { subst m. rewrite Z.shiftr_div_pow2 by exact Hk.
    apply Z.div_le_lower_bound; [apply Z.pow_pos_nonneg; lia|].
    rewrite <- Z.pow_add_r by lia.
    replace (k + 52) with (Z.log2 n) by (unfold k; lia).
    apply (Z.log2_spec n Hpos). }
  assert (Hm' : m <= m') by (subst m'; destruct (_ || _); lia).
  replace (2 ^ 1024 <=? Z.shiftl m' k) with true; [reflexivity|].
  symmetry. apply Z.leb_le. rewrite Z.shiftl_mul_pow2 by exact Hk.
  apply Z.le_trans with (2 ^ 52 * 2 ^ k).
  - rewrite <- Z.pow_add_r by lia. apply Z.pow_le_mono_r; [lia|]. unfold k. lia.
  - apply Z.mul_le_mono_nonneg_r; [apply Z.pow_nonneg; lia | lia].
Qed.

Section CoordinateProperties.

Variable float_of_str : string -> option Q.

Lemma py_float_integer (n : Z) :
  py_float float_of_str (PNum (inject_Z n)) = float_of_int n.
Proof.
  unfold py_float, inject_Z. cbn [Qnum Qden].
  rewrite Z.mod_1_r, Z.div_1_r. reflexivity.
Qed.

(** X2. [extract_coords] on a JSON object.  When both top-level keys
    are present their values are converted by [float] and returned,
    whatever the nested [location] holds; when one of them is missing
    the pair of the nested [location] object is converted and returned;
    with neither there is no coordinate.  A top-level latitude that
    [float] rejects makes [extract_coords] raise that error instead of
    falling back to [location]: [TypeError] for [null], [OverflowError]
    for an integer from 2^1024 on; an integer below 2^53 in absolute
    value is converted exactly. *)
Theorem extract_coords_precedence (kv : list (string * pyval)) :
  (forall lat_v lon_v lat lon,
      assoc "latitude" kv = Some lat_v -> assoc "longitude" kv = Some lon_v ->
      py_float float_of_str lat_v = Ok lat -> py_float float_of_str lon_v = Ok lon ->
      extract_coords float_of_str (PDict kv) = Ok (Some (lat, lon)))
  /\ (forall l lat_v lon_v lat lon,
        assoc "latitude" kv = None \/ assoc "longitude" kv = None ->
        assoc "location" kv = Some (PDict l) ->
        assoc "latitude" l = Some lat_v -> assoc "longitude" l = Some lon_v ->
        py_float float_of_str lat_v = Ok lat -> py_float float_of_str lon_v = Ok lon ->
        extract_coords float_of_str (PDict kv) = Ok (Some (lat, lon)))
  /\ (assoc "latitude" kv = None \/ assoc "longitude" kv = None ->
      assoc "location" kv = None \/ assoc "location" kv = Some PNone ->
      extract_coords float_of_str (PDict kv) = Ok None)
  /\ (forall lat_v lon_v err,
        assoc "latitude" kv = Some lat_v -> assoc "longitude" kv = Some lon_v ->
        py_float float_of_str lat_v = Raise err ->
        extract_coords float_of_str (PDict kv) = Raise err)
  /\ py_float float_of_str PNone = Raise TypeError
  /\ (forall n, 2 ^ 1024 <= n ->
        py_float float_of_str (PNum (inject_Z n)) = Raise OverflowError)
  /\ (forall n, Z.abs n < 2 ^ 53 ->
        py_float float_of_str (PNum (inject_Z n)) = Ok (inject_Z n)).
Proof.
  split; [|split; [|split; [|split; [|split; [|split]]]]].
  - intros lat_v lon_v lat lon Ha Hb Hlat Hlon. unfold extract_coords.
    rewrite (assoc_some_nonempty _ _ Ha). cbn [negb py_in rbind].
    rewrite Ha. cbn [rbind]. rewrite Hb. cbn [rbind andb py_item].
    rewrite Ha, Hb. cbn [rbind]. rewrite Hlat. cbn [rbind]. rewrite Hlon. reflexivity.
  - intros l lat_v lon_v lat lon Hmiss Hloc Ha Hb Hlat Hlon. unfold extract_coords.
    pose proof (assoc_some_nonempty _ _ Ha) as Hl.
    rewrite (assoc_some_nonempty _ _ Hloc). cbn [negb py_in rbind].
    destruct Hmiss as [Hm | Hm]; rewrite Hm.
    + cbn [rbind andb]. rewrite py_get_dict. unfold dict_field. rewrite Hloc.
      cbn [rbind]. unfold py_or. rewrite Hl.
      cbn [py_in rbind]. rewrite Ha, Hb. cbn [rbind andb py_item].
      rewrite Ha, Hb. cbn [rbind]. rewrite Hlat. cbn [rbind]. rewrite Hlon. reflexivity.
    + destruct (assoc "latitude" kv); cbn [rbind andb];
        rewrite py_get_dict; unfold dict_field; rewrite Hloc;
        cbn [rbind]; unfold py_or; rewrite Hl;
        cbn [py_in rbind]; rewrite Ha, Hb; cbn [rbind andb py_item];
        rewrite Ha, Hb; cbn [rbind]; rewrite Hlat; cbn [rbind]; rewrite Hlon;
        reflexivity.
  - intros Hmiss Hloc. unfold extract_coords.
    destruct kv as [|p kv']; [reflexivity|]. cbn [truthy is_nil negb py_in rbind].
    rewrite py_get_dict. unfold dict_field.
    destruct Hmiss as [Hm | Hm]; rewrite Hm.
    + cbn [rbind andb]. destruct Hloc as [-> | ->]; reflexivity.
    + destruct (assoc "latitude" (p :: kv')); cbn [rbind andb];
        destruct Hloc as [-> | ->]; reflexivity.
  - intros lat_v lon_v err Ha Hb Hlat. unfold extract_coords.
    rewrite (assoc_some_nonempty _ _ Ha). cbn [negb py_in rbind].
    rewrite Ha. cbn [rbind]. rewrite Hb. cbn [rbind andb py_item].
    rewrite Ha. cbn [rbind]. rewrite Hlat. reflexivity.
  - reflexivity.
  - intros n Hn. rewrite py_float_integer. exact (float_of_int_overflow Hn).
  - intros n Hn. rewrite py_float_integer. exact (float_of_int_exact n Hn).
Qed.

End CoordinateProperties.

Section ResolverFallback.

Variable float_of_str : string -> option Q.

Lemma first_coord_candidate_none (query : string) (items : list pyval) :
  Forall (fun x => extract_coords float_of_str x = Ok None) items ->
  first_coord_candidate float_of_str query items = Ok None.
Proof.
  intros H. rewrite <- (app_nil_r items).
  rewrite first_coord_candidate_skip by assumption. reflexivity.
Qed.

Lemma requests_with_request (w : world) (r : request) :
  List.length (requests (with_request w r)) = S (List.length (requests w)).
Proof. unfold with_request. cbn [requests]. rewrite length_app. simpl. lia. Qed.

(** What [resolve_location] does once the search gave no candidate with
    an identifier or a coordinate. *)
Lemma resolve_location_fallback_run (e : env) (query : string) (w : world)
    (items : pyval) (candidates : list pyval) :
  bvg_api e (List.length (requests w)) "/locations" (search_params query) = HttpOk items ->
  py_iter items = Ok candidates ->
  Forall (fun x => normalize_stop_id x = Ok None) candidates ->
  Forall (fun x => extract_coords float_of_str x = Ok None) candidates ->
  resolve_location float_of_str e query w =
    (match nominatim_api e (S (List.length (requests w))) query with
     | HttpOk data => geocoded float_of_str query data
     | HttpStatus code _ => Raise (HTTPStatusError code)
     | HttpTransport name => Raise (RequestError name)
     end,
     with_request (with_request w (ReqBvg "/locations" (search_params query)))
       (ReqNominatim query)).
Proof.
  intros Hapi Hiter Hids Hcoords.
  unfold resolve_location, bvg_get.
  unfold bind at 1 2 3. unfold request_count at 1. unfold log_request at 1.
  fold (search_params query). rewrite Hapi.
  unfold ret at 1. unfold bind at 1. unfold lift at 1. rewrite Hiter.
  unfold bind at 1. unfold lift at 1.
  rewrite (first_stop_candidate_none float_of_str query Hids).
  unfold bind at 1. unfold lift at 1.
  rewrite (first_coord_candidate_none query Hcoords).
  unfold bind at 1. unfold request_count at 1.
  unfold bind at 1. unfold log_request at 1.
  cbn [requests]. rewrite length_app. cbn [List.length].
  replace (List.length (requests w) + 1)%nat with (S (List.length (requests w))) by lia.
  unfold with_request. cbn [email_notifications reminder_logs outbox requests].
  destruct (nominatim_api e (S (List.length (requests w))) query); reflexivity.
Qed.

(** X3. When no candidate of the search yields an identifier or a
    coordinate, [resolve_location] asks the geocoder, as its second
    request: an empty answer gives a location without identifier and
    without coordinate, named by the query; a first result with [lat]
    and [lon] gives a coordinate-only location named by its
    [display_name], or by the query when that is missing; a first
    result lacking [lat] raises [KeyError]. *)
Theorem resolve_location_geocoder_fallback (e : env) (query : string) (w : world)
    (items : pyval) (candidates : list pyval) (data : pyval) :
  bvg_api e (List.length (requests w)) "/locations" (search_params query) = HttpOk items ->
  py_iter items = Ok candidates ->
  Forall (fun x => normalize_stop_id x = Ok None) candidates ->
  Forall (fun x => extract_coords float_of_str x = Ok None) candidates ->
  nominatim_api e (S (List.length (requests w))) query = HttpOk data ->
  let w2 := with_request (with_request w (ReqBvg "/locations" (search_params query)))
              (ReqNominatim query) in
  (truthy data = false ->
   resolve_location float_of_str e query w =
     (Ok {| loc_id := None; loc_name := PStr query; loc_coords := None |}, w2))
  /\ (forall kv rest lat_v lon_v lat lon,
        data = PList (PDict kv :: rest) ->
        assoc "lat" kv = Some lat_v -> py_float float_of_str lat_v = Ok lat ->
        assoc "lon" kv = Some lon_v -> py_float float_of_str lon_v = Ok lon ->
        resolve_location float_of_str e query w =
          (Ok {| loc_id := None;
                 loc_name := py_or (dict_field kv "display_name") (PStr query);
                 loc_coords := Some (lat, lon) |}, w2))
  /\ (forall kv rest,
        data = PList (PDict kv :: rest) -> assoc "lat" kv = None ->
        resolve_location float_of_str e query w = (Raise KeyError, w2)).
Proof.
  intros Hapi Hiter Hids Hcoords Hgeo w2.
  rewrite (resolve_location_fallback_run e query w Hapi Hiter Hids Hcoords), Hgeo.
  fold w2. split; [|split].
  - intros Hd. unfold geocoded. rewrite Hd. reflexivity.
  - intros kv rest lat_v lon_v lat lon -> Hlat Hflat Hlon Hflon.
    unfold geocoded. cbn [truthy is_nil negb py_index0 rbind].
    rewrite py_get_dict. cbn [rbind py_item]. rewrite Hlat. cbn [rbind].
    rewrite Hflat. cbn [rbind]. rewrite Hlon. cbn [rbind]. rewrite Hflon. reflexivity.
  - intros kv rest -> Hlat.
    unfold geocoded. cbn [truthy is_nil negb py_index0 rbind].
    rewrite py_get_dict. cbn [rbind py_item]. rewrite Hlat. reflexivity.
Qed.

(** X4. A failed transit search reaches the caller as an
    [HTTPException] (the upstream status and text, or 502 for a
    transport error) after that one request and without any geocoding;
    when the geocoder is reached and fails, the error is the raw
    [HTTPStatusError] or [RequestError] of the HTTP client instead. *)
Theorem resolve_location_errors (e : env) (query : string) (w : world) :
  let w1 := with_request w (ReqBvg "/locations" (search_params query)) in
  (forall code text,
      bvg_api e (List.length (requests w)) "/locations" (search_params query)
        = HttpStatus code text ->
      resolve_location float_of_str e query w = (Raise (HTTPException code text), w1))
  /\ (forall name,
        bvg_api e (List.length (requests w)) "/locations" (search_params query)
          = HttpTransport name ->
        resolve_location float_of_str e query w =
          (Raise (HTTPException 502 ("BVG request failed: " +++ name)), w1))
  /\ (forall items candidates,
        bvg_api e (List.length (requests w)) "/locations" (search_params query)
          = HttpOk items ->
        py_iter items = Ok candidates ->
        Forall (fun x => normalize_stop_id x = Ok None) candidates ->
        Forall (fun x => extract_coords float_of_str x = Ok None) candidates ->
        (forall code text,
            nominatim_api e (S (List.length (requests w))) query = HttpStatus code text ->
            resolve_location float_of_str e query w =
              (Raise (HTTPStatusError code), with_request w1 (ReqNominatim query)))
        /\ (forall name,
              nominatim_api e (S (List.length (requests w))) query = HttpTransport name ->
              resolve_location float_of_str e query w =
                (Raise (RequestError name), with_request w1 (ReqNominatim query)))).
Proof.
  intros w1. split; [|split].
  - intros code text Hapi. unfold resolve_location, bvg_get.
    unfold bind at 1 2 3. unfold request_count at 1. unfold log_request at 1.
    fold (search_params query). rewrite Hapi. reflexivity.
  - intros name Hapi. unfold resolve_location, bvg_get.
    unfold bind at 1 2 3. unfold request_count at 1. unfold log_request at 1.
    fold (search_params query). rewrite Hapi. reflexivity.
  - intros items candidates Hapi Hiter Hids Hcoords.
    rewrite (resolve_location_fallback_run e query w Hapi Hiter Hids Hcoords).
    split; intros; rewrite H; reflexivity.
Qed.

End ResolverFallback.

(** ** The classes of a day *)

Lemma insert_by_start_hd (c x : class_row) (l : list class_row) :
  start_time x <= start_time c ->
  HdRel (fun a b => start_time a <= start_time b) x l ->
  HdRel (fun a b => start_time a <= start_time b) x (insert_by_start c l).
Proof.
  intros Hxc Hhd. destruct l as [|c' rest]; simpl.
  - constructor. exact Hxc.
  - destruct (start_time c <? start_time c'); constructor;
      [exact Hxc | inversion Hhd; assumption].
Qed.

Lemma insert_by_start_sorted (c : class_row) (l : list class_row) :
  sorted_by_start l -> sorted_by_start (insert_by_start c l).
Proof.
  unfold sorted_by_start. induction 1 as [|c' rest Hsorted IH Hhd]; simpl.
  - repeat constructor.
  - destruct (Z.ltb_spec (start_time c) (start_time c')) as [Hlt | Hge].
    + constructor; [constructor; assumption|]. constructor. lia.
    + constructor; [exact IH|]. apply insert_by_start_hd; [lia | exact Hhd].
Qed.

Lemma order_by_start_sorted (l : list class_row) : sorted_by_start (order_by_start l).
Proof.
  unfold order_by_start. induction l as [|c l IH]; simpl.
  - constructor.
  - apply insert_by_start_sorted, IH.
Qed.

Lemma insert_by_start_perm (c : class_row) (l : list class_row) :
  Permutation (insert_by_start c l) (c :: l).
Proof.
  induction l as [|c' rest IH]; simpl; [reflexivity|].
  destruct (start_time c <? start_time c'); [reflexivity|].
  rewrite IH. apply perm_swap.
Qed.

Lemma order_by_start_perm (l : list class_row) : Permutation (order_by_start l) l.
Proof.
  unfold order_by_start. induction l as [|c l IH]; simpl; [reflexivity|].
  rewrite insert_by_start_perm. constructor. exact IH.
Qed.

(** X5. [classes_for_day] returns the stored classes of the user that
    start within the day, each as often as it is stored and no others,
    in ascending order of start time; a class that only ends within the
    day, or belongs to another user, is not among them. *)
Theorem classes_for_day_sorted (e : env) (uid : Z) (day : date) :
  sorted_by_start (classes_for_day e uid day)
  /\ Permutation (classes_for_day e uid day) (filter (starts_on uid day) (classes e))
  /\ (forall c, In c (classes_for_day e uid day) <->
                In c (classes e) /\ class_user_id c = uid
                /\ combine day time_min <= start_time c <= combine day time_max)
  /\ (List.length (classes_for_day e uid day) <= List.length (classes e))%nat.
Proof.
  split; [apply order_by_start_sorted|].
  split; [apply order_by_start_perm|].
  split; [intros c; apply (classes_for_day_In no_float no_isoformat)|].
  unfold classes_for_day. cbv zeta.
  rewrite (Permutation_length (order_by_start_perm _)).
  apply filter_length_le.
Qed.

(** X6. [last_class_end] is the latest end among the user's classes
    that end within the day: it is [None] exactly when no class of the
    user ends that day, and otherwise the end of one such class, not
    exceeded by any other. *)
Theorem last_class_end_is_latest (e : env) (uid : Z) (day : date) :
  (last_class_end e uid day = None <->
     forall c t, In c (classes e) -> ~ ends_on uid day c t)
  /\ (forall m, last_class_end e uid day = Some m ->
        (exists c, In c (classes e) /\ ends_on uid day c m)
        /\ (forall c t, In c (classes e) -> ends_on uid day c t -> t <= m)).
Proof.
  split.
  - split.
    + intros Hnone c t Hin (Hu & Ht & Hday).
      destruct (@last_class_end_ge no_float no_isoformat e uid day c t Hin Hu Ht Hday) as (m & Hm & _).
      congruence.
    + intros Hall. destruct (last_class_end e uid day) as [m|] eqn:Hm; [|reflexivity].
      destruct (@last_class_end_attained no_float no_isoformat e uid day m Hm) as (c & Hin & Hu & Hc & Hday).
      exfalso. apply (Hall c m Hin). repeat split; tauto.
  - intros m Hm. split.
    + destruct (@last_class_end_attained no_float no_isoformat e uid day m Hm) as (c & Hin & Hu & Hc & Hday).
      exists c. repeat split; tauto.
    + intros c t Hin (Hu & Ht & Hday).
      destruct (@last_class_end_ge no_float no_isoformat e uid day c t Hin Hu Ht Hday) as (m' & Hm' & Hle).
      congruence.
Qed.

(** ** Arrival time across midnight *)

Lemma minutes_of_day_split (d minutes : Z) :
  d * usec_per_day + minutes * usec_per_minute =
    combine (d + minutes / 1440) ((minutes mod 1440) * usec_per_minute).
Proof.
  unfold combine.
  pose proof (Z.div_mod minutes 1440 ltac:(lia)) as Hdm.
  unfold usec_per_day, usec_per_hour. nia.
Qed.

Lemma minutes_of_day_range (minutes : Z) :
  0 <= (minutes mod 1440) * usec_per_minute < usec_per_day.
Proof.
  pose proof (Z.mod_pos_bound minutes 1440 ltac:(lia)).
  unfold usec_per_day, usec_per_hour, usec_per_minute. lia.
Qed.

(** X7. For a well-formed arrival time [hh]:[mm] the result is that
    clock time moved by +10 minutes for ["later"] and by -10 minutes for
    any other preference, on the civil time line: an arrival time in the
    first ten minutes of the day is moved to the previous day, and one
    in the last ten minutes with ["later"] to the next day. *)
Theorem build_arrival_datetime_fields (now : datetime) (s timing : string) (hh mm : Z) :
  str_is_empty s = false ->
  map py_int (split_on colon s) = [Some hh; Some mm] ->
  0 <= hh <= 23 -> 0 <= mm <= 59 ->
  let minutes := hh * 60 + mm + (if String.eqb timing "later" then 10 else -10) in
  exists r,
    build_arrival_datetime now (Some s) timing = Ok (Some r)
    /\ date_of r = date_of now + minutes / 1440
    /\ hour_of r = (minutes mod 1440) / 60
    /\ minute_of r = minutes mod 60.
Proof.
  intros Hs Hp Hh Hm minutes.
  assert (Hrun : build_arrival_datetime now (Some s) timing =
                 Ok (Some (date_of now * usec_per_day + minutes * usec_per_minute))).
  { unfold build_arrival_datetime. rewrite Hs, Hp. unfold mk_datetime.
    rewrite (@fits_c_int_bounds hh), (@fits_c_int_bounds mm) by lia. cbn [andb negb].
    replace ((0 <=? hh) && (hh <=? 23) && (0 <=? mm) && (mm <=? 59)) with true
      by (symmetry; repeat (apply andb_true_intro; split); apply Z.leb_le; lia).
    cbn [rbind]. f_equal. f_equal.
    subst minutes. unfold combine, timedelta_minutes, usec_per_hour.
    destruct (String.eqb timing "later"); lia. }
  eexists. split; [exact Hrun|].
  rewrite minutes_of_day_split.
  pose proof (minutes_of_day_range minutes) as Hr.
  split; [apply date_of_combine; exact Hr|].
  unfold hour_of, minute_of. rewrite time_of_combine by exact Hr.
  pose proof (Z.mod_pos_bound minutes 1440 ltac:(lia)) as Hb.
  split.
  - unfold usec_per_hour.
    rewrite Z.div_mul_cancel_r by (unfold usec_per_minute; lia). reflexivity.
  - rewrite Z.div_mul by (unfold usec_per_minute; lia).
    pose proof (Z.div_mod minutes 1440 ltac:(lia)) as Hdm.
    rewrite Hdm at 2.
    replace (1440 * (minutes / 1440) + minutes mod 1440)
      with (minutes mod 1440 + (24 * (minutes / 1440)) * 60) by lia.
    rewrite Z.mod_add by lia. reflexivity.
Qed.

(** ** The return job *)

Section ReturnJobOutcome.

Variable float_of_str : string -> option Q.
Variable isoformat : datetime -> string.
Variable repr_other : pyval -> string.

(** X9. [send_return_reminders] never asks a service, sends or
    records.  It passes over the users without a class that ends today
    and raises [TypeError], at the window comparison, for the first user
    with one; the world is left as it was.  It returns normally exactly
    when no listed user has a class of their own ending today. *)
Theorem return_job_never_sends (e : env) (w : world) :
  let today := date_of (clock e (List.length (requests w))) in
  send_return_reminders float_of_str isoformat repr_other e w =
    (if existsb (ends_class_today e today) (users e) then Raise TypeError else Ok tt, w)
  /\ (existsb (ends_class_today e today) (users e) = true <->
      exists user c t,
        In user (users e) /\ In c (classes e) /\ ends_on (user_id user) today c t).
Proof.
  intros today. split.
  - unfold send_return_reminders. unfold bind at 1. unfold request_count at 1.
    fold today. apply return_loop_outcome.
  - rewrite existsb_exists. split.
    + intros (user & Huser & Hends). unfold ends_class_today in Hends.
      destruct (last_class_end e (user_id user) today) as [m|] eqn:Hm; [|discriminate].
      destruct (@last_class_end_attained no_float no_isoformat e (user_id user) today m Hm)
        as (c & Hin & Hu & Hc & Hday).
      exists user, c, m. unfold ends_on. auto.
    + intros (user & c & t & Huser & Hin & Hu & Hc & Hday).
      exists user. split; [exact Huser|]. unfold ends_class_today.
      destruct (@last_class_end_ge no_float no_isoformat e (user_id user) today c t
                  Hin Hu Hc Hday) as (m & Hm & _).
      rewrite Hm. reflexivity.
Qed.

End ReturnJobOutcome.

(** ** One user in the daily job *)

Section JobRuns.

Variable float_of_str : string -> option Q.
Variable isoformat : datetime -> string.
Variable repr_other : pyval -> string.

Lemma journey_for_same_store (outbound : bool) (e : env) (prefs : option prefs_row)
    (w : world) :
  same_store w (snd (journey_for float_of_str isoformat outbound e prefs w)).
Proof.
  exact (@preserves_journey float_of_str isoformat e (home_of prefs) prefs outbound w).
Qed.

(** The daily iteration for a user who is not yet recorded and has
    classes, once the journey is computed and the document rendered. *)
Lemma daily_for_user_run (e : env) (today : date) (user : user_row) (w wj : world)
    (journey : pyval) (html : string) :
  existsb (daily_row_matches (user_id user) today) (email_notifications w) = false ->
  classes_for_day e (user_id user) today <> [] ->
  journey_for float_of_str isoformat true e (preferences_for_user e (user_id user)) w
    = (Ok journey, wj) ->
  build_journey_email repr_other (user_email user)
    (classes_for_day e (user_id user) today) journey = Ok html ->
  truthy_str (BREVO_API_KEY e) = true ->
  truthy_str (BREVO_SENDER_EMAIL e) = true ->
  daily_for_user float_of_str isoformat repr_other e today user w =
    (Ok tt,
     match brevo_api e (List.length (requests wj)) (user_email user) daily_subject html with
     | HttpOk _ =>
         with_daily_record
           (with_mail (with_request wj (ReqBrevo (user_email user) daily_subject html))
              {| sent_tag := (user_id user, today, KDaily);
                 sent_to := user_email user;
                 sent_subject := daily_subject;
                 sent_html := html |})
           (user_id user) today
     | _ => with_request wj (ReqBrevo (user_email user) daily_subject html)
     end).
Proof.
  intros Hex Hcs Hj Hhtml Hkey Hsender.
  pose proof (journey_for_same_store true e (preferences_for_user e (user_id user)) w)
    as Hsame.
  rewrite Hj in Hsame. cbn [snd] in Hsame. destruct Hsame as (Hs1 & Hs2 & Hs3).
  assert (Hex' : existsb (daily_row_matches (user_id user) today)
                   (email_notifications wj) = false) by (rewrite Hs1; exact Hex).
  unfold daily_for_user.
  unfold bind at 1. unfold select_email_notification at 1. rewrite Hex.
  destruct (classes_for_day e (user_id user) today) as [|c cs] eqn:Hcs';
    [congruence|]. cbn [is_nil].
  unfold bind at 1.
  change (match match preferences_for_user e (user_id user) with
                | Some p => home_location p
                | None => None
                end with
          | Some h =>
              if str_is_empty h then ret PNone
              else
                origin <- resolve_location float_of_str e h ;;
                destination <- resolve_location float_of_str e campus ;;
                build_journey isoformat e origin destination
                  (preferences_for_user e (user_id user))
          | None => ret PNone
          end w)
    with (journey_for float_of_str isoformat true e
            (preferences_for_user e (user_id user)) w).
  rewrite Hj.
  unfold bind at 1. unfold lift at 1. rewrite Hhtml.
  unfold bind at 1. unfold try_except at 1. unfold bind at 1.
  unfold send_brevo_email. rewrite Hkey, Hsender. cbn [negb orb].
  unfold bind at 1. unfold request_count at 1.
  unfold bind at 1. unfold log_request at 1.
  cbn [requests]. fold daily_subject.
  destruct (brevo_api e (List.length (requests wj)) (user_email user) daily_subject html).
  - unfold dispatch, ret. unfold insert_email_notification.
    cbn [email_notifications]. rewrite Hex'. reflexivity.
  - reflexivity.
  - reflexivity.
Qed.

Lemma daily_for_user_recorded (e : env) (today : date) (user : user_row) (w : world) :
  existsb (daily_row_matches (user_id user) today) (email_notifications w) = true ->
  daily_for_user float_of_str isoformat repr_other e today user w = (Ok tt, w).
Proof.
  intros Hex. unfold daily_for_user.
  unfold bind at 1. unfold select_email_notification at 1. rewrite Hex. reflexivity.
Qed.

Lemma existsb_app_one {A : Type} (p : A -> bool) (l : list A) (x : A) :
  p x = true -> existsb p (l ++ [x]) = true.
Proof.
  intros H. rewrite existsb_app. simpl. rewrite H. apply orb_true_iff. right. reflexivity.
Qed.

Lemma daily_row_matches_refl (uid : Z) (day : date) :
  daily_row_matches uid day (uid, day) = true.
Proof. unfold daily_row_matches. cbn [fst snd]. rewrite !Z.eqb_refl. reflexivity. Qed.

(** X10. The daily digest of a user with classes who is not yet
    recorded, when the journey is computed, the document rendered and
    the mail service accepts it: the e-mail goes out with that document,
    the record is written last, and a further firing for the same day,
    in whatever environment, does nothing for that user, without any
    request. *)
Theorem daily_digest_sent_once (e : env) (today : date) (user : user_row) (w wj : world)
    (journey body : pyval) (html : string) :
  existsb (daily_row_matches (user_id user) today) (email_notifications w) = false ->
  classes_for_day e (user_id user) today <> [] ->
  journey_for float_of_str isoformat true e (preferences_for_user e (user_id user)) w
    = (Ok journey, wj) ->
  build_journey_email repr_other (user_email user)
    (classes_for_day e (user_id user) today) journey = Ok html ->
  truthy_str (BREVO_API_KEY e) = true ->
  truthy_str (BREVO_SENDER_EMAIL e) = true ->
  brevo_api e (List.length (requests wj)) (user_email user) daily_subject html = HttpOk body ->
  let w' :=
    with_daily_record
      (with_mail (with_request wj (ReqBrevo (user_email user) daily_subject html))
         {| sent_tag := (user_id user, today, KDaily);
            sent_to := user_email user;
            sent_subject := daily_subject;
            sent_html := html |})
      (user_id user) today in
  daily_for_user float_of_str isoformat repr_other e today user w = (Ok tt, w')
  /\ (forall e2, daily_for_user float_of_str isoformat repr_other e2 today user w'
                 = (Ok tt, w')).
Proof.
  intros Hex Hcs Hj Hhtml Hkey Hsender Hapi w'. split.
  - rewrite (@daily_for_user_run e today user w wj journey html Hex Hcs Hj Hhtml Hkey Hsender), Hapi.
    reflexivity.
  - intros e2. apply daily_for_user_recorded.
    subst w'. unfold with_daily_record. cbn [email_notifications].
    apply existsb_app_one, daily_row_matches_refl.
Qed.

(** X11. When the mail service refuses the digest or cannot be reached,
    the daily iteration returns normally and writes no record: the
    dedup tables and the outbox are as before, only the requests were
    issued, so the user is still unrecorded for the day. *)
Theorem failed_daily_send_leaves_no_record (e : env) (today : date) (user : user_row)
    (w wj : world) (journey : pyval) (html : string) :
  existsb (daily_row_matches (user_id user) today) (email_notifications w) = false ->
  classes_for_day e (user_id user) today <> [] ->
  journey_for float_of_str isoformat true e (preferences_for_user e (user_id user)) w
    = (Ok journey, wj) ->
  build_journey_email repr_other (user_email user)
    (classes_for_day e (user_id user) today) journey = Ok html ->
  truthy_str (BREVO_API_KEY e) = true ->
  truthy_str (BREVO_SENDER_EMAIL e) = true ->
  (forall body,
      brevo_api e (List.length (requests wj)) (user_email user) daily_subject html
        <> HttpOk body) ->
  let w' := with_request wj (ReqBrevo (user_email user) daily_subject html) in
  daily_for_user float_of_str isoformat repr_other e today user w = (Ok tt, w')
  /\ same_store w w'
  /\ existsb (daily_row_matches (user_id user) today) (email_notifications w') = false.
Proof.
  intros Hex Hcs Hj Hhtml Hkey Hsender Hfail w'.
  pose proof (journey_for_same_store true e (preferences_for_user e (user_id user)) w)
    as Hsame.
  rewrite Hj in Hsame. cbn [snd] in Hsame.
  assert (Hsame' : same_store w w').
  { destruct Hsame as (H1 & H2 & H3). subst w'. repeat split; assumption. }
  split; [|split; [exact Hsame'|]].
  - rewrite (@daily_for_user_run e today user w wj journey html Hex Hcs Hj Hhtml Hkey Hsender).
    destruct (brevo_api e (List.length (requests wj)) (user_email user) daily_subject html)
      as [body| |] eqn:Hapi; [|reflexivity|reflexivity].
    exfalso. exact (Hfail body eq_refl).
  - destruct Hsame' as (H1 & _ & _). rewrite H1. exact Hex.
Qed.

(** X12. With the mail service not configured, [send_brevo_email]
    returns without a request, and the daily iteration goes on to write
    the record: the user is marked as notified for the day although no
    e-mail went out, and later firings that day pass them over. *)
Theorem unconfigured_mail_still_records (e : env) (today : date) (user : user_row)
    (w wj : world) (journey : pyval) (html : string) :
  existsb (daily_row_matches (user_id user) today) (email_notifications w) = false ->
  classes_for_day e (user_id user) today <> [] ->
  journey_for float_of_str isoformat true e (preferences_for_user e (user_id user)) w
    = (Ok journey, wj) ->
  build_journey_email repr_other (user_email user)
    (classes_for_day e (user_id user) today) journey = Ok html ->
  truthy_str (BREVO_API_KEY e) = false \/ truthy_str (BREVO_SENDER_EMAIL e) = false ->
  let w' := with_daily_record wj (user_id user) today in
  daily_for_user float_of_str isoformat repr_other e today user w = (Ok tt, w')
  /\ outbox w' = outbox w
  /\ (forall e2, daily_for_user float_of_str isoformat repr_other e2 today user w'
                 = (Ok tt, w')).
Proof.
  intros Hex Hcs Hj Hhtml Hconf w'.
  pose proof (journey_for_same_store true e (preferences_for_user e (user_id user)) w)
    as Hsame.
  rewrite Hj in Hsame. cbn [snd] in Hsame. destruct Hsame as (Hs1 & Hs2 & Hs3).
  assert (Hex' : existsb (daily_row_matches (user_id user) today)
                   (email_notifications wj) = false) by (rewrite Hs1; exact Hex).
  split; [|split].
  - unfold daily_for_user.
    unfold bind at 1. unfold select_email_notification at 1. rewrite Hex.
    destruct (classes_for_day e (user_id user) today) as [|c cs] eqn:Hcs';
      [congruence|]. cbn [is_nil].
    unfold bind at 1.
    change (match match preferences_for_user e (user_id user) with
                  | Some p => home_location p
                  | None => None
                  end with
            | Some h =>
                if str_is_empty h then ret PNone
                else
                  origin <- resolve_location float_of_str e h ;;
                  destination <- resolve_location float_of_str e campus ;;
                  build_journey isoformat e origin destination
                    (preferences_for_user e (user_id user))
            | None => ret PNone
            end w)
      with (journey_for float_of_str isoformat true e
              (preferences_for_user e (user_id user)) w).
    rewrite Hj.
    unfold bind at 1. unfold lift at 1. rewrite Hhtml.
    unfold bind at 1. unfold try_except at 1. unfold bind at 1.
    unfold send_brevo_email.
    replace (negb (truthy_str (BREVO_API_KEY e)) || negb (truthy_str (BREVO_SENDER_EMAIL e)))
      with true
      by (destruct Hconf as [-> | ->]; [reflexivity | symmetry; apply orb_true_r]).
    unfold ret. unfold insert_email_notification. rewrite Hex'. reflexivity.
  - subst w'. cbn [with_daily_record outbox]. exact Hs3.
  - intros e2. apply daily_for_user_recorded.
    subst w'. unfold with_daily_record. cbn [email_notifications].
    apply existsb_app_one, daily_row_matches_refl.
Qed.

(** ** The jobs only add to the store *)

Lemma store_extended_refl (w : world) : store_extended w w [] [] [].
Proof. unfold store_extended. rewrite !app_nil_r. repeat split. Qed.

Lemma daily_step_extends (uid : Z) (today : date) (w0 w1 w2 : world)
    (rows : list (Z * date)) (mails : list sent_email) :
  store_extended w0 w1 rows [] mails ->
  Forall (fun r => snd r = today) rows ->
  Forall (fun m => snd (fst (sent_tag m)) = today /\ snd (sent_tag m) = KDaily) mails ->
  (List.length mails <= List.length rows)%nat ->
  daily_step uid today w1 w2 ->
  exists rows' mails',
    store_extended w0 w2 rows' [] mails'
    /\ Forall (fun r => snd r = today) rows'
    /\ Forall (fun m => snd (fst (sent_tag m)) = today /\ snd (sent_tag m) = KDaily) mails'
    /\ (List.length mails' <= List.length rows')%nat.
Proof.
  intros (E1 & E2 & E3) Hrows Hmails Hlen [(S1 & S2 & S3) | Hex Hr Hl Ho].
  - exists rows, mails. unfold store_extended. rewrite S1, S2, S3. auto.
  - destruct Ho as [Ho | (m & Htag & Ho)].
    + exists (rows ++ [(uid, today)]), mails. unfold store_extended.
      rewrite Hr, Hl, Ho, E1, E2, E3, <- app_assoc.
      repeat split; auto.
      * apply Forall_app. split; [exact Hrows | repeat constructor].
      * rewrite length_app. simpl. lia.
    + exists (rows ++ [(uid, today)]), (mails ++ [m]). unfold store_extended.
      rewrite Hr, Hl, Ho, E1, E2, E3, <- !app_assoc.
      repeat split; auto.
      * apply Forall_app. split; [exact Hrows | repeat constructor].
      * apply Forall_app. split; [exact Hmails|].
        constructor; [|constructor]. rewrite Htag. split; reflexivity.
      * rewrite !length_app. simpl. lia.
Qed.

Lemma return_step_extends (uid : Z) (today : date) (w0 w1 w2 : world)
    (logs : list (Z * date * string)) (mails : list sent_email) :
  store_extended w0 w1 [] logs mails ->
  Forall (fun r => snd (fst r) = today /\ snd r = "return") logs ->
  Forall (fun m => snd (fst (sent_tag m)) = today /\ snd (sent_tag m) = KReturn) mails ->
  (List.length mails <= List.length logs)%nat ->
  return_step uid today w1 w2 ->
  exists logs' mails',
    store_extended w0 w2 [] logs' mails'
    /\ Forall (fun r => snd (fst r) = today /\ snd r = "return") logs'
    /\ Forall (fun m => snd (fst (sent_tag m)) = today /\ snd (sent_tag m) = KReturn) mails'
    /\ (List.length mails' <= List.length logs')%nat.
Proof.
  intros (E1 & E2 & E3) Hlogs Hmails Hlen [(S1 & S2 & S3) | Hex Hl Hr Ho].
  - exists logs, mails. unfold store_extended. rewrite S1, S2, S3. auto.
  - destruct Ho as [Ho | (m & Htag & Ho)].
    + exists (logs ++ [(uid, today, "return")]), mails. unfold store_extended.
      rewrite Hr, Hl, Ho, E1, E2, E3, <- app_assoc.
      repeat split; auto.
      * apply Forall_app. split; [exact Hlogs | repeat constructor].
      * rewrite length_app. simpl. lia.
    + exists (logs ++ [(uid, today, "return")]), (mails ++ [m]). unfold store_extended.
      rewrite Hr, Hl, Ho, E1, E2, E3, <- !app_assoc.
      repeat split; auto.
      * apply Forall_app. split; [exact Hlogs | repeat constructor].
      * apply Forall_app. split; [exact Hmails|].
        constructor; [|constructor]. rewrite Htag. split; reflexivity.
      * rewrite !length_app. simpl. lia.
Qed.

(** X13. A firing of either job only adds to the store, also when it
    ends in an exception: the daily job appends rows to
    [email_notifications] and leaves [reminder_logs] alone, the return
    job the other way round; every row and every e-mail added carries
    the date read at the start of the firing and the kind of the job,
    and no more e-mails are added than records. *)
Theorem jobs_only_append (t : job * env) (w : world) :
  let w' := run_tick float_of_str isoformat repr_other t w in
  let today := date_of (clock (snd t) (List.length (requests w))) in
  match fst t with
  | DailyJob =>
      exists rows mails,
        store_extended w w' rows [] mails
        /\ Forall (fun r => snd r = today) rows
        /\ Forall (fun m => snd (fst (sent_tag m)) = today /\ snd (sent_tag m) = KDaily)
             mails
        /\ (List.length mails <= List.length rows)%nat
  | ReturnJob =>
      exists logs mails,
        store_extended w w' [] logs mails
        /\ Forall (fun r => snd (fst r) = today /\ snd r = "return") logs
        /\ Forall (fun m => snd (fst (sent_tag m)) = today /\ snd (sent_tag m) = KReturn)
             mails
        /\ (List.length mails <= List.length logs)%nat
  end.
Proof.
  intros w' today. subst w'. unfold run_tick.
  destruct (fst t).
  - unfold send_daily_emails, bind, request_count. fold today.
    apply (@for_each_invariant _
             (fun w1 => exists rows mails,
                  store_extended w w1 rows [] mails
                  /\ Forall (fun r => snd r = today) rows
                  /\ Forall (fun m => snd (fst (sent_tag m)) = today
                                      /\ snd (sent_tag m) = KDaily) mails
                  /\ (List.length mails <= List.length rows)%nat)).
    + intros user w1 (rows & mails & Hext & Hrows & Hmails & Hlen).
      exact (daily_step_extends Hext Hrows Hmails Hlen
               (daily_for_user_step float_of_str isoformat repr_other
                  (snd t) today user w1)).
    + exists [], []. split; [apply store_extended_refl|]. repeat split; auto.
  - unfold send_return_reminders, bind, request_count. fold today.
    apply (@for_each_invariant _
             (fun w1 => exists logs mails,
                  store_extended w w1 [] logs mails
                  /\ Forall (fun r => snd (fst r) = today /\ snd r = "return") logs
                  /\ Forall (fun m => snd (fst (sent_tag m)) = today
                                      /\ snd (sent_tag m) = KReturn) mails
                  /\ (List.length mails <= List.length logs)%nat)).
    + intros user w1 (logs & mails & Hext & Hlogs & Hmails & Hlen).
      exact (return_step_extends Hext Hlogs Hmails Hlen
               (return_for_user_step float_of_str isoformat repr_other
                  (snd t) _ today user w1)).
    + exists [], []. split; [apply store_extended_refl|]. repeat split; auto.
Qed.

End JobRuns.

(** * Accounts and sessions *)

(** ** Password hashes *)

Lemma split_on_max_nonempty (sep : ascii) (s : string) (n : nat) :
  split_on_max sep s n <> [].
Proof.
  revert n; induction s as [|c s IH]; intros [|n]; simpl; try discriminate.
  destruct (Ascii.eqb c sep); [discriminate|].
  destruct (split_on_max sep s (S n)); discriminate.
Qed.

Lemma split_on_max_zero (sep : ascii) (s : string) : split_on_max sep s 0 = [s].
Proof. destruct s; reflexivity. Qed.

Lemma split_on_max_app (sep : ascii) (a rest : string) (n : nat) :
  has_char sep a = false ->
  split_on_max sep (a +++ String sep rest) (S n) = a :: split_on_max sep rest n.
Proof.
  induction a as [|c a IH]; simpl; intros H.
  - rewrite Ascii.eqb_refl. reflexivity.
  - apply orb_false_iff in H. destruct H as [Hc Ha].
    rewrite Hc, (IH Ha). reflexivity.
Qed.

Lemma split_on_max_length (sep : ascii) (s : string) (n : nat) :
  List.length (split_on_max sep s n) = S (Nat.min n (count_char sep s)).
Proof.
  revert n; induction s as [|c s IH]; intros [|n]; simpl; try reflexivity.
  destruct (Ascii.eqb c sep) eqn:Hc.
  - simpl. rewrite IH. reflexivity.
  - specialize (IH (S n)).
    destruct (split_on_max sep s (S n)) as [|seg segs] eqn:Hs.
    + exfalso. exact (split_on_max_nonempty _ _ _ Hs).
    + simpl in *. exact IH.
Qed.

Section PasswordProperties.

Variable b64encode : string -> string.
Variable b64decode : string -> option string.
Variable pbkdf2_hmac : string -> string -> Z -> result string.

Lemma parse_own_hash (salt dk : string) :
  has_char dollar (b64encode salt) = false ->
  all_chars is_ascii_char (b64encode salt) = true ->
  all_chars is_ascii_char (b64encode dk) = true ->
  b64decode (b64encode salt) = Some salt ->
  b64decode (b64encode dk) = Some dk ->
  parse_stored_hash b64decode
    ("pbkdf2_sha256$" +++ "120000" +++ "$" +++ b64encode salt +++ "$" +++ b64encode dk)
    = Some (120000, salt, dk).
Proof.
  intros Hd Hsa Hda Hsr Hdr. unfold parse_stored_hash.
  change ("pbkdf2_sha256$" +++ "120000" +++ "$" +++ b64encode salt +++ "$" +++ b64encode dk)
    with ("pbkdf2_sha256" +++ String dollar
            ("120000" +++ String dollar (b64encode salt +++ String dollar (b64encode dk)))).
  rewrite split_on_max_app by reflexivity.
  rewrite split_on_max_app by reflexivity.
  rewrite split_on_max_app by exact Hd.
  rewrite split_on_max_zero.
  replace (String.eqb "pbkdf2_sha256" "pbkdf2_sha256") with true by reflexivity.
  cbn [negb].
  replace (py_int "120000") with (Some 120000) by reflexivity.
  unfold encode_ascii. rewrite Hsa. cbv iota. rewrite Hsr. cbv iota.
  rewrite Hda. cbv iota. rewrite Hdr. reflexivity.
Qed.

(** X14. A hash made by [hash_password] is accepted by
    [verify_password] for the same password, and for another password
    exactly when its derived key under the stored salt and 120000
    iterations is the same; this needs only that the base64 text of the
    salt has no dollar sign and that the two base64 texts decode back. *)
Theorem verify_password_accepts_own_hash (salt password dk : string) :
  pbkdf2_hmac password salt 120000 = Ok dk ->
  has_char dollar (b64encode salt) = false ->
  all_chars is_ascii_char (b64encode salt) = true ->
  all_chars is_ascii_char (b64encode dk) = true ->
  b64decode (b64encode salt) = Some salt ->
  b64decode (b64encode dk) = Some dk ->
  exists stored,
    hash_password b64encode pbkdf2_hmac salt password = Ok stored
    /\ verify_password b64decode pbkdf2_hmac password stored = Ok true
    /\ (forall other dk',
          pbkdf2_hmac other salt 120000 = Ok dk' ->
          verify_password b64decode pbkdf2_hmac other stored = Ok (String.eqb dk' dk)).
Proof.
  intros Hdk Hd Hsa Hda Hsr Hdr.
  eexists. split; [|split].
  - unfold hash_password, pbkdf2_iterations. rewrite Hdk. reflexivity.
  - unfold verify_password. rewrite (parse_own_hash Hd Hsa Hda Hsr Hdr).
    rewrite Hdk. cbn [rbind]. rewrite String.eqb_refl. reflexivity.
  - intros other dk' Hother. unfold verify_password.
    rewrite (parse_own_hash Hd Hsa Hda Hsr Hdr). rewrite Hother. reflexivity.
Qed.

(** X15. A stored value with fewer than three dollar signs, or whose
    first field is not [pbkdf2_sha256], is rejected with [False]:
    [verify_password] does not raise on it and derives no key. *)
Theorem verify_password_rejects_malformed (password stored : string) :
  ((count_char dollar stored < 3)%nat ->
   verify_password b64decode pbkdf2_hmac password stored = Ok false)
  /\ (forall algo rest,
        stored = algo +++ String dollar rest -> has_char dollar algo = false ->
        algo <> "pbkdf2_sha256" ->
        verify_password b64decode pbkdf2_hmac password stored = Ok false).
Proof.
  split.
  - intros Hc. unfold verify_password, parse_stored_hash.
    pose proof (split_on_max_length dollar stored 3) as Hl.
    pose proof (Nat.le_min_r 3 (count_char dollar stored)) as Hm.
    destruct (split_on_max dollar stored 3) as [|a [|b [|c [|d [|x l]]]]];
      try reflexivity.
    cbn [List.length] in Hl. lia.
  - intros algo rest -> Hd Hne. unfold verify_password, parse_stored_hash.
    rewrite split_on_max_app by exact Hd.
    destruct (split_on_max dollar rest 2) as [|b [|c [|d [|x l]]]]; try reflexivity.
    destruct (String.eqb algo "pbkdf2_sha256") eqn:He; [|reflexivity].
    apply String.eqb_eq in He. contradiction.
Qed.

End PasswordProperties.

(** ** Accounts *)

Lemma existsb_false_not_in {A B : Type} (f : A -> B) (eqb : B -> B -> bool) (l : list A)
    (b : B) :
  (forall x y, eqb x y = true <-> x = y) ->
  existsb (fun a => eqb (f a) b) l = false -> ~ In b (map f l).
Proof.
  intros Heq Hex Hin. apply in_map_iff in Hin. destruct Hin as (a & Ha & Hin).
  assert (existsb (fun a => eqb (f a) b) l = true).
  { apply existsb_exists. exists a. split; [exact Hin | apply Heq; exact Ha]. }
  congruence.
Qed.

Lemma NoDup_map_app_one {A B : Type} (f : A -> B) (l : list A) (x : A) :
  NoDup (map f l) -> ~ In (f x) (map f l) -> NoDup (map f (l ++ [x])).
Proof.
  intros Hnd Hnin. rewrite map_app. simpl.
  apply NoDup_app; [exact Hnd | repeat constructor; simpl; tauto |].
  intros b Hb [<- | []]. contradiction.
Qed.

Lemma remaining_tokens_unique (keep : session_record -> bool) (l : list session_record) :
  NoDup (map ses_token l) -> NoDup (map ses_token (filter keep l)).
Proof.
  intros Hnd. induction l as [|s l IH]; simpl; [constructor|].
  simpl in Hnd. apply NoDup_cons_iff in Hnd. destruct Hnd as [Hnin Hnd].
  destruct (keep s); simpl; [|exact (IH Hnd)].
  apply NoDup_cons_iff. split; [|exact (IH Hnd)].
  intros Hin. apply Hnin. apply in_map_iff in Hin.
  destruct Hin as (s' & Hs' & Hin). apply filter_In in Hin.
  rewrite <- Hs'. apply in_map. exact (proj1 Hin).
Qed.

Lemma create_session_cases (token : string) (utcnow : datetime) (uid : Z) (db : database) :
  (existsb (fun s => String.eqb (ses_token s) token) (tbl_sessions db) = true
   /\ create_session token utcnow uid db = (Raise UniqueViolation, db))
  \/ (~ In token (map ses_token (tbl_sessions db))
      /\ create_session token utcnow uid db =
           (Ok token,
            with_sessions db
              (tbl_sessions db ++ [{| ses_user_id := uid; ses_token := token;
                                      ses_expires_at := utcnow + seven_days |}]))).
Proof.
  unfold create_session.
  destruct (existsb (fun s => String.eqb (ses_token s) token) (tbl_sessions db)) eqn:Hex.
  - left. auto.
  - right. split; [|reflexivity].
    apply (existsb_false_not_in ses_token String.eqb); [apply String.eqb_eq | exact Hex].
Qed.

Lemma accounts_ok_new_session (db : database) (token : string) (utcnow : datetime)
    (uid : Z) :
  accounts_ok db ->
  (exists u, In u (tbl_users db) /\ usr_id u = uid) ->
  accounts_ok (snd (create_session token utcnow uid db)).
Proof.
  intros Hok Hu. pose proof Hok as (H1 & H2 & H3 & H4 & H5).
  destruct (create_session_cases token utcnow uid db) as [[_ ->] | [Hfresh ->]];
    cbn [snd]; [exact Hok|].
  unfold accounts_ok, with_sessions.
  cbn [tbl_users tbl_sessions users_id_seq].
  repeat split; try assumption.
  - apply (H3 u H).
  - apply (H3 u H).
  - apply NoDup_map_app_one; assumption.
  - intros s Hs. apply in_app_iff in Hs. destruct Hs as [Hs | [<- | []]].
    + apply H5; exact Hs.
    + exact Hu.
Qed.

Section AccountProperties.

Variable b64encode : string -> string.
Variable b64decode : string -> option string.
Variable pbkdf2_hmac : string -> string -> Z -> result string.

Lemma auth_signup_ok (salt token : string) (utcnow : datetime)
    (payload : signup_in) (db : database) :
  accounts_ok db ->
  accounts_ok (snd (auth_signup b64encode pbkdf2_hmac salt token utcnow payload db)).
Proof.
  intros Hok. pose proof Hok as (H1 & H2 & H3 & H4 & H5).
  unfold auth_signup.
  destruct (negb (endswith (normalize_email (si_email payload)) email_domain)) eqn:Hdom;
    [exact Hok|].
  destruct (String.length (si_password payload) <? 8)%nat; [exact Hok|].
  destruct (existsb (fun u => String.eqb (usr_email u)
                                (normalize_email (si_email payload))) (tbl_users db))
    eqn:Hex; [exact Hok|].
  destruct (hash_password b64encode pbkdf2_hmac salt (si_password payload))
    as [password_hash|err]; [|exact Hok].
  cbv zeta.
  assert (Hrolled : accounts_ok
            {| tbl_users := tbl_users db; tbl_sessions := tbl_sessions db;
               tbl_classes := tbl_classes db; tbl_preferences := tbl_preferences db;
               users_id_seq := users_id_seq db + 1;
               classes_id_seq := classes_id_seq db |}).
  { unfold accounts_ok. cbn [tbl_users tbl_sessions users_id_seq].
    repeat split; try assumption.
    - pose proof (proj1 (H3 u H)). lia.
    - apply (H3 u H). }
  destruct (existsb (fun u => usr_id u =? users_id_seq db) (tbl_users db)) eqn:Hid;
    [exact Hrolled|].
  match goal with
  | |- accounts_ok (snd (match create_session token utcnow ?uid ?db1 with _ => _ end)) =>
      assert (Hdb1 : accounts_ok db1);
      [| pose proof (@accounts_ok_new_session db1 token utcnow uid Hdb1) as Hnew;
         destruct (create_session_cases token utcnow uid db1) as [[_ Hc] | [_ Hc]];
         rewrite Hc in *; cbn [snd] in *; [exact Hrolled|] ]
  end.
  - unfold accounts_ok. cbn [tbl_users tbl_sessions users_id_seq].
    split; [|split; [|split; [|split]]].
    + apply NoDup_map_app_one; [exact H1|]. cbn [usr_email].
      apply (existsb_false_not_in usr_email String.eqb);
        [apply String.eqb_eq | exact Hex].
    + apply NoDup_map_app_one; [exact H2|]. cbn [usr_id].
      apply (existsb_false_not_in usr_id Z.eqb); [apply Z.eqb_eq | exact Hid].
    + intros u Hu. apply in_app_iff in Hu. destruct Hu as [Hu | [<- | []]].
      * pose proof (H3 u Hu) as [Hlt Hend]. split; [lia | exact Hend].
      * cbn [usr_id usr_email]. split; [lia|].
        apply negb_false_iff in Hdom. exact Hdom.
    + exact H4.
    + intros s Hs. destruct (H5 s Hs) as (u & Hu & Hid').
      exists u. split; [apply in_app_iff; left; exact Hu | exact Hid'].
  - apply Hnew. eexists. split; [apply in_app_iff; right; left; reflexivity | reflexivity].
Qed.

Lemma auth_login_ok (token : string) (utcnow : datetime) (payload : auth_in)
    (db : database) :
  accounts_ok db ->
  accounts_ok (snd (auth_login b64decode pbkdf2_hmac token utcnow payload db)).
Proof.
  intros Hok. unfold auth_login.
  destruct (find (fun u => String.eqb (usr_email u) (normalize_email (ai_email payload)))
              (tbl_users db)) as [user|] eqn:Hfind; [|exact Hok].
  destruct (verify_password b64decode pbkdf2_hmac (ai_password payload)
              (usr_password_hash user)) as [[|]|err]; try exact Hok.
  apply find_some in Hfind. destruct Hfind as [Hin _].
  pose proof (@accounts_ok_new_session db token utcnow (usr_id user) Hok
                (ex_intro _ user (conj Hin eq_refl))) as Hnew.
  destruct (create_session token utcnow (usr_id user) db) as [[t|err] db1];
    cbn [snd] in *; [exact Hnew | exact Hok].
Qed.

Lemma auth_logout_ok (cookie : option string) (db : database) :
  accounts_ok db -> accounts_ok (auth_logout cookie db).
Proof.
  intros Hok. pose proof Hok as (H1 & H2 & H3 & H4 & H5).
  unfold auth_logout. destruct cookie as [token|]; [|exact Hok].
  destruct (str_is_empty token); [exact Hok|].
  unfold accounts_ok, with_sessions. cbn [tbl_users tbl_sessions users_id_seq].
  repeat split; try assumption.
  - apply (H3 u H).
  - apply (H3 u H).
  - apply remaining_tokens_unique. exact H4.
  - intros s Hs. apply filter_In in Hs. destruct Hs as [Hs _]. apply H5; exact Hs.
Qed.

(** X16. Signing up, logging in and logging out keep the accounts well
    formed, whatever their outcome: e-mails and user ids stay unique,
    ids stay below the sequence, every stored e-mail ends with the
    campus domain, session tokens stay unique and every session belongs
    to a stored user. *)
Theorem accounts_stay_wellformed (db : database) :
  accounts_ok db ->
  (forall salt token utcnow payload,
      accounts_ok (snd (auth_signup b64encode pbkdf2_hmac salt token utcnow payload db)))
  /\ (forall token utcnow payload,
        accounts_ok (snd (auth_login b64decode pbkdf2_hmac token utcnow payload db)))
  /\ (forall cookie, accounts_ok (auth_logout cookie db)).
Proof.
  intros Hok. split; [|split].
  - intros. apply auth_signup_ok; exact Hok.
  - intros. apply auth_login_ok; exact Hok.
  - intros. apply auth_logout_ok; exact Hok.
Qed.

Lemma find_app_one {A : Type} (p : A -> bool) (l : list A) (x : A) :
  existsb p l = false -> p x = true -> find p (l ++ [x]) = Some x.
Proof.
  induction l as [|a l IH]; simpl; intros Hex Hx.
  - rewrite Hx. reflexivity.
  - apply orb_false_iff in Hex. destruct Hex as [Ha Hex]. rewrite Ha. apply IH; assumption.
Qed.

(** What a successful sign-up has done. *)
Lemma auth_signup_success (salt token : string) (utcnow : datetime)
    (payload : signup_in) (db db1 : database) (cookie : string) :
  auth_signup b64encode pbkdf2_hmac salt token utcnow payload db = (Ok cookie, db1) ->
  let email := normalize_email (si_email payload) in
  endswith email email_domain = true
  /\ (8 <= String.length (si_password payload))%nat
  /\ existsb (fun u => String.eqb (usr_email u) email) (tbl_users db) = false
  /\ cookie = token
  /\ ~ In token (map ses_token (tbl_sessions db))
  /\ exists stored,
       hash_password b64encode pbkdf2_hmac salt (si_password payload) = Ok stored
       /\ tbl_users db1 =
            tbl_users db ++ [{| usr_id := users_id_seq db; usr_email := email;
                                usr_password_hash := stored |}]
       /\ tbl_sessions db1 =
            tbl_sessions db ++ [{| ses_user_id := users_id_seq db; ses_token := token;
                                   ses_expires_at := utcnow + seven_days |}]
       /\ tbl_classes db1 = tbl_classes db
       /\ users_id_seq db1 = users_id_seq db + 1
       /\ tbl_preferences db1 =
            if truthy_str (si_home_location payload)
            then upsert_prefs (default_prefs (users_id_seq db) (si_home_location payload))
                   (set_home (si_home_location payload)) (tbl_preferences db)
            else tbl_preferences db.
Proof.
  intros H. cbv zeta. unfold auth_signup in H. cbv zeta in H.
  destruct (negb (endswith (normalize_email (si_email payload)) email_domain)) eqn:Hdom;
    [discriminate|].
  destruct (String.length (si_password payload) <? 8)%nat eqn:Hlen; [discriminate|].
  destruct (existsb (fun u => String.eqb (usr_email u)
                                (normalize_email (si_email payload))) (tbl_users db))
    eqn:Hex; [discriminate|].
  destruct (hash_password b64encode pbkdf2_hmac salt (si_password payload))
    as [stored|err]; [|discriminate].
  destruct (existsb (fun u => usr_id u =? users_id_seq db) (tbl_users db));
    [discriminate|].
  match type of H with
  | match create_session token utcnow ?uid ?dbx with _ => _ end = _ =>
      destruct (create_session_cases token utcnow uid dbx) as [[_ Hc] | [Hfresh Hc]];
      rewrite Hc in H; [discriminate|]
  end.
  inversion H; subst. cbn [tbl_sessions] in Hfresh.
  apply negb_false_iff in Hdom. apply Nat.ltb_ge in Hlen.
  repeat split; try assumption.
  exists stored. repeat split.
Qed.

(** X17. After a successful sign-up the account can be logged into:
    with an e-mail that normalises to the same address (surrounding
    blanks and letter case do not matter) and the same password, a new
    session is created; with a password whose derived key differs, the
    login is refused with 401 and nothing is stored. *)
Theorem signup_then_login (salt token token2 : string) (utcnow utcnow2 : datetime)
    (payload : signup_in) (db db1 : database) (cookie dk : string) :
  auth_signup b64encode pbkdf2_hmac salt token utcnow payload db = (Ok cookie, db1) ->
  pbkdf2_hmac (si_password payload) salt 120000 = Ok dk ->
  has_char dollar (b64encode salt) = false ->
  all_chars is_ascii_char (b64encode salt) = true ->
  all_chars is_ascii_char (b64encode dk) = true ->
  b64decode (b64encode salt) = Some salt ->
  b64decode (b64encode dk) = Some dk ->
  ~ In token2 (map ses_token (tbl_sessions db1)) ->
  (forall login,
      normalize_email (ai_email login) = normalize_email (si_email payload) ->
      ai_password login = si_password payload ->
      auth_login b64decode pbkdf2_hmac token2 utcnow2 login db1 =
        (Ok token2,
         with_sessions db1
           (tbl_sessions db1 ++ [{| ses_user_id := users_id_seq db; ses_token := token2;
                                    ses_expires_at := utcnow2 + seven_days |}])))
  /\ (forall login dk',
        normalize_email (ai_email login) = normalize_email (si_email payload) ->
        pbkdf2_hmac (ai_password login) salt 120000 = Ok dk' ->
        dk' <> dk ->
        auth_login b64decode pbkdf2_hmac token2 utcnow2 login db1 =
          (Raise (HTTPException 401 "Invalid credentials"), db1)).
Proof.
  intros Hsignup Hdk Hd Hsa Hda Hsr Hdr Hfresh.
  destruct (auth_signup_success _ _ _ _ _ Hsignup)
    as (_ & _ & Hex & _ & _ & stored & Hhash & Husers & _).
  assert (Hstored : stored = "pbkdf2_sha256$" +++ "120000" +++ "$" +++ b64encode salt
                             +++ "$" +++ b64encode dk).
  { unfold hash_password, pbkdf2_iterations in Hhash. rewrite Hdk in Hhash.
    inversion Hhash; reflexivity. }
  assert (Hfind : forall login,
             normalize_email (ai_email login) = normalize_email (si_email payload) ->
             find (fun u => String.eqb (usr_email u) (normalize_email (ai_email login)))
               (tbl_users db1)
             = Some {| usr_id := users_id_seq db;
                       usr_email := normalize_email (si_email payload);
                       usr_password_hash := stored |}).
  { intros login Hmail. rewrite Husers, Hmail.
    apply find_app_one; [exact Hex | apply String.eqb_refl]. }
  split.
  - intros login Hmail Hpw. unfold auth_login. rewrite (Hfind login Hmail).
    cbn [usr_password_hash usr_id]. unfold verify_password.
    rewrite Hstored, (parse_own_hash b64encode b64decode Hd Hsa Hda Hsr Hdr).
    rewrite Hpw, Hdk. cbn [rbind]. rewrite String.eqb_refl.
    destruct (create_session_cases token2 utcnow2 (users_id_seq db) db1)
      as [[Hdup _] | [_ ->]]; [|reflexivity].
    exfalso. apply existsb_exists in Hdup. destruct Hdup as (s0 & Hin & Heq).
    apply String.eqb_eq in Heq. apply Hfresh. rewrite <- Heq. apply in_map. exact Hin.
  - intros login dk' Hmail Hother Hne. unfold auth_login. rewrite (Hfind login Hmail).
    cbn [usr_password_hash usr_id]. unfold verify_password.
    rewrite Hstored, (parse_own_hash b64encode b64decode Hd Hsa Hda Hsr Hdr).
    rewrite Hother. cbn [rbind].
    destruct (String.eqb dk' dk) eqn:He; [|reflexivity].
    apply String.eqb_eq in He. contradiction.
Qed.

End AccountProperties.

(** ** Sessions *)

Lemma flat_map_all_nil {A B : Type} (f : A -> list B) (l : list A) :
  (forall x, In x l -> f x = []) -> flat_map f l = [].
Proof.
  induction l as [|a l IH]; simpl; intros H; [reflexivity|].
  rewrite (H a (or_introl eq_refl)), IH; [reflexivity|].
  intros x Hx. apply H. right; exact Hx.
Qed.

Lemma flat_map_filter_irrelevant {A B : Type} (f : A -> list B) (p : A -> bool)
    (l : list A) :
  (forall x, In x l -> p x = false -> f x = []) ->
  flat_map f (filter p l) = flat_map f l.
Proof.
  induction l as [|a l IH]; simpl; intros H; [reflexivity|].
  destruct (p a) eqn:Hp; simpl.
  - rewrite IH; [reflexivity|]. intros x Hx. apply H. right; exact Hx.
  - rewrite (H a (or_introl eq_refl) Hp). simpl.
    apply IH. intros x Hx. apply H. right; exact Hx.
Qed.

Lemma filter_unique_id (users : list user_record) (u : user_record) :
  NoDup (map usr_id users) -> In u users ->
  filter (fun v => usr_id v =? usr_id u) users = [u].
Proof.
  induction users as [|a l IH]; simpl; intros Hnd Hin; [contradiction|].
  inversion Hnd as [|? ? Hnin Hnd']; subst.
  destruct Hin as [-> | Hin].
  - rewrite Z.eqb_refl. f_equal.
    apply (@existsb_false_filter _ (fun v => usr_id v =? usr_id u)).
    destruct (existsb (fun v => usr_id v =? usr_id u) l) eqn:Hex; [|reflexivity].
    exfalso. apply existsb_exists in Hex. destruct Hex as (v & Hv & Heq).
    apply Z.eqb_eq in Heq. apply Hnin. rewrite <- Heq. apply in_map. exact Hv.
  - destruct (usr_id a =? usr_id u) eqn:Heq.
    + exfalso. apply Z.eqb_eq in Heq. apply Hnin. rewrite Heq. apply in_map. exact Hin.
    + apply IH; assumption.
Qed.

(** X18. A session created for a stored user with a fresh, non-empty
    token identifies that user through [get_current_user] as long as
    the database clock is before its expiry, seven days after creation,
    and nobody from the expiry on; after [auth_logout] with that token
    it identifies nobody, while what every other token identifies is as
    before the session was created. *)
Theorem session_round_trip (db db1 : database) (u : user_record)
    (token cookie : string) (utcnow : datetime) :
  accounts_ok db ->
  In u (tbl_users db) ->
  str_is_empty token = false ->
  create_session token utcnow (usr_id u) db = (Ok cookie, db1) ->
  cookie = token
  /\ (forall now,
        get_current_user (Some cookie) now db1 =
          if now <? utcnow + seven_days then Some (usr_id u, usr_email u) else None)
  /\ (forall now, get_current_user (Some cookie) now (auth_logout (Some cookie) db1) = None)
  /\ (forall other now,
        other <> cookie ->
        get_current_user (Some other) now (auth_logout (Some cookie) db1)
          = get_current_user (Some other) now db).
Proof.
  intros (H1 & H2 & H3 & H4 & H5) Hu Hne Hcreate.
  destruct (create_session_cases token utcnow (usr_id u) db)
    as [[_ Hc] | [Hfresh Hc]]; rewrite Hc in Hcreate; [discriminate|].
  inversion Hcreate; subst cookie db1. clear Hcreate Hc.
  assert (Hold : forall now x, In x (tbl_sessions db) ->
            (if String.eqb (ses_token x) token && (now <? ses_expires_at x)
             then map (fun v => (usr_id v, usr_email v))
                    (filter (fun v => usr_id v =? ses_user_id x) (tbl_users db))
             else []) = []).
  { intros now x Hx. destruct (String.eqb (ses_token x) token) eqn:He; [|reflexivity].
    exfalso. apply String.eqb_eq in He. apply Hfresh. rewrite <- He.
    apply in_map. exact Hx. }
  split; [reflexivity|]. split; [|split].
  - intros now. unfold get_current_user. rewrite Hne.
    unfold with_sessions. cbn [tbl_sessions tbl_users].
    rewrite flat_map_app, (flat_map_all_nil _ _ (Hold now)).
    cbn [flat_map app ses_token ses_expires_at ses_user_id].
    rewrite String.eqb_refl. cbn [andb].
    destruct (now <? utcnow + seven_days); [|reflexivity].
    rewrite (filter_unique_id _ _ H2 Hu). reflexivity.
  - intros now. unfold get_current_user, auth_logout. rewrite Hne.
    unfold with_sessions. cbn [tbl_sessions tbl_users].
    rewrite flat_map_all_nil; [reflexivity|].
    intros x Hx. apply filter_In in Hx. destruct Hx as [_ Hx].
    apply negb_true_iff in Hx. rewrite Hx. reflexivity.
  - intros other now Hother. unfold get_current_user, auth_logout. rewrite Hne.
    destruct (str_is_empty other); [reflexivity|].
    unfold with_sessions. cbn [tbl_sessions tbl_users].
    rewrite flat_map_filter_irrelevant.
    + rewrite flat_map_app. cbn [flat_map app ses_token].
      replace (String.eqb token other) with false
        by (symmetry; apply String.eqb_neq; congruence).
      cbn [andb]. rewrite app_nil_r. reflexivity.
    + intros x _ Hx. apply negb_false_iff in Hx. apply String.eqb_eq in Hx.
      rewrite Hx.
      replace (String.eqb token other) with false; [reflexivity|].
      symmetry. apply String.eqb_neq. congruence.
Qed.

(** ** Preferences *)

Lemma find_upsert_same (row : prefs_row) (l : list prefs_row) :
  find (fun p => prefs_user_id p =? prefs_user_id row)
    (upsert_prefs row (fun _ => row) l) = Some row.
Proof.
  induction l as [|p l IH]; simpl.
  - rewrite Z.eqb_refl. reflexivity.
  - destruct (prefs_user_id p =? prefs_user_id row) eqn:Hp; simpl.
    + rewrite Z.eqb_refl. reflexivity.
    + rewrite Hp. exact IH.
Qed.

Lemma find_upsert_other (row : prefs_row) (update : prefs_row -> prefs_row)
    (l : list prefs_row) (uid : Z) :
  uid <> prefs_user_id row ->
  (forall p, prefs_user_id p = prefs_user_id row ->
             prefs_user_id (update p) = prefs_user_id p) ->
  find (fun p => prefs_user_id p =? uid) (upsert_prefs row update l)
    = find (fun p => prefs_user_id p =? uid) l.
Proof.
  intros Hne Hupd. induction l as [|p l IH]; simpl.
  - replace (prefs_user_id row =? uid) with false; [reflexivity|].
    symmetry. apply Z.eqb_neq. congruence.
  - destruct (prefs_user_id p =? prefs_user_id row) eqn:Hp; simpl.
    + apply Z.eqb_eq in Hp. rewrite (Hupd p Hp).
      replace (prefs_user_id p =? uid) with false; [reflexivity|].
      symmetry. apply Z.eqb_neq. congruence.
    + rewrite IH. reflexivity.
Qed.

Lemma upsert_prefs_ids (row : prefs_row) (update : prefs_row -> prefs_row)
    (l : list prefs_row) :
  (forall p, prefs_user_id p = prefs_user_id row ->
             prefs_user_id (update p) = prefs_user_id p) ->
  map prefs_user_id (upsert_prefs row update l) =
    if existsb (fun p => prefs_user_id p =? prefs_user_id row) l
    then map prefs_user_id l
    else map prefs_user_id l ++ [prefs_user_id row].
Proof.
  intros Hupd. induction l as [|p l IH]; simpl; [reflexivity|].
  destruct (prefs_user_id p =? prefs_user_id row) eqn:Hp; simpl.
  - apply Z.eqb_eq in Hp. rewrite (Hupd p Hp). reflexivity.
  - rewrite IH. destruct (existsb _ l); reflexivity.
Qed.





(** X20. [save_preferences] refuses a timing preference other than
    ["earlier"] or ["later"] with 400 and stores nothing; when it
    stores, it replaces or adds the row of the caller only: the rows of
    other users, the users, sessions and classes are untouched, and
    there is still at most one row per user. *)
Theorem save_preferences_frame (cookie : option string) (now : datetime)
    (payload : preferences_in) (db : database) (user : Z * string) :
  require_user cookie now db = Ok user ->
  (valid_timing (str_or (pi_timing_pref payload) "earlier") = false ->
   save_preferences cookie now payload db =
     (Raise (HTTPException 400 "Invalid timing preference"), db))
  /\ (forall db1,
        save_preferences cookie now payload db = (Ok tt, db1) ->
        tbl_users db1 = tbl_users db
        /\ tbl_sessions db1 = tbl_sessions db
        /\ tbl_classes db1 = tbl_classes db
        /\ (forall uid, uid <> fst user ->
              find (fun p => prefs_user_id p =? uid) (tbl_preferences db1)
                = find (fun p => prefs_user_id p =? uid) (tbl_preferences db))
        /\ (NoDup (map prefs_user_id (tbl_preferences db)) ->
            NoDup (map prefs_user_id (tbl_preferences db1)))).
Proof.
  intros Huser. split.
  - intros Hbad. unfold save_preferences. rewrite Huser.
    unfold valid_timing in Hbad. rewrite Hbad. reflexivity.
  - intros db1. unfold save_preferences. rewrite Huser.
    destruct (negb _); [discriminate|].
    intros H; inversion H; subst db1; clear H.
    unfold with_preferences. cbn [tbl_users tbl_sessions tbl_classes tbl_preferences].
    repeat split.
    + intros uid Hne. apply find_upsert_other; [exact Hne|].
      intros p Hp. symmetry. exact Hp.
    + intros Hnd. rewrite upsert_prefs_ids by (intros p Hp; symmetry; exact Hp).
      cbn [prefs_user_id].
      destruct (existsb (fun p => prefs_user_id p =? fst user) (tbl_preferences db))
        eqn:Hex; [exact Hnd|].
      apply NoDup_app; [exact Hnd | repeat constructor; simpl; tauto |].
      intros b Hb [<- | []].
      revert Hb. apply (existsb_false_not_in prefs_user_id Z.eqb);
        [apply Z.eqb_eq | exact Hex].
Qed.

Section StoredArrivalTime.

Variable isoformat : datetime -> string.

Lemma build_journey_arrival_error (e : env) (origin destination : resolved)
    (prefs : option prefs_row) (w : world) (endpoints : list (string * pyval))
    (err : exn) :
  endpoints_of origin destination endpoints ->
  build_arrival_datetime (clock e (List.length (requests w)))
    (prefs_arrival_time prefs) (prefs_timing prefs) = Raise err ->
  build_journey isoformat e origin destination prefs w = (Raise err, w).
Proof.
  intros Hend Harr. unfold build_journey.
  fold (prefs_arrival_time prefs). fold (prefs_timing prefs).
  destruct Hend as [oid did Ho Hd Hb | oxy dxy Hb Ho Hd].
  - rewrite (endpoint_params_identifiers _ _ Ho Hd Hb).
    unfold bind at 1. unfold request_count at 1.
    unfold bind at 1. unfold lift at 1. rewrite Harr. reflexivity.
  - rewrite (endpoint_params_coordinates _ _ Hb Ho Hd).
    unfold bind at 1. unfold request_count at 1.
    unfold bind at 1. unfold lift at 1. rewrite Harr. reflexivity.
Qed.

(** X21. [save_preferences] stores a non-empty arrival time as given,
    without looking at it, and the jobs read it back as stored; when it
    is two integers that are not a clock time, planning a journey for
    that user between routable endpoints raises before any request is
    made: [ValueError], or [OverflowError] when one of the integers is
    no C [int]. *)
Theorem stored_arrival_time_reaches_planner (cookie : option string) (now : datetime)
    (payload : preferences_in) (db db1 : database) (user : Z * string) (s : string)
    (e : env) :
  require_user cookie now db = Ok user ->
  save_preferences cookie now payload db = (Ok tt, db1) ->
  pi_arrival_time payload = Some s ->
  str_is_empty s = false ->
  user_preferences e = tbl_preferences db1 ->
  (exists row, preferences_for_user e (fst user) = Some row /\ arrival_time row = Some s)
  /\ (forall hh mm origin destination endpoints w,
        map py_int (split_on colon s) = [Some hh; Some mm] ->
        ~ (0 <= hh <= 23 /\ 0 <= mm <= 59) ->
        endpoints_of origin destination endpoints ->
        build_journey isoformat e origin destination
          (preferences_for_user e (fst user)) w =
          (Raise (if fits_c_int hh && fits_c_int mm then ValueError else OverflowError),
           w)).
Proof.
  intros Huser Hsave Harr Hs Hprefs.
  unfold save_preferences in Hsave. rewrite Huser in Hsave.
  destruct (negb _) in Hsave; [discriminate|].
  inversion Hsave; subst db1; clear Hsave.
  assert (Hrow : exists row, preferences_for_user e (fst user) = Some row
                             /\ arrival_time row = Some s).
  { unfold preferences_for_user. rewrite Hprefs.
    unfold with_preferences. cbn [tbl_preferences].
    match goal with
    | |- context [upsert_prefs ?row _ _] =>
        exists row; change (fst user) with (prefs_user_id row);
        rewrite (find_upsert_same row)
    end.
    split; [reflexivity|]. cbn [arrival_time]. rewrite Harr. simpl. rewrite Hs.
    reflexivity. }
  split; [exact Hrow|].
  intros hh mm origin destination endpoints w Hparse Hrange Hend.
  destruct Hrow as (row & Hfind & Hat).
  apply (build_journey_arrival_error e (preferences_for_user e (fst user)) w Hend).
  rewrite Hfind. cbn [prefs_arrival_time prefs_timing]. rewrite Hat.
  exact (@build_arrival_datetime_raises _ s _ hh mm Hs Hparse Hrange).
Qed.

End StoredArrivalTime.

(** ** Classes *)


Lemma filter_none {A : Type} (p : A -> bool) (l : list A) :
  existsb p l = false -> filter (fun x => negb (p x)) l = l.
Proof.
  induction l as [|a l IH]; simpl; intros H; [reflexivity|].
  apply orb_false_iff in H. destruct H as [Ha Hl]. rewrite Ha. simpl.
  f_equal. exact (IH Hl).
Qed.

Lemma filter_remove_unique (l : list stored_class) (p : stored_class -> bool) :
  NoDup (map cls_id l) ->
  (forall a b, p a = true -> p b = true -> cls_id a = cls_id b) ->
  existsb p l = true ->
  S (List.length (filter (fun k => negb (p k)) l)) = List.length l.
Proof.
  intros Hnd Hp. induction l as [|a l IH]; simpl; intros Hex; [discriminate|].
  inversion Hnd as [|? ? Hnin Hnd']; subst.
  destruct (p a) eqn:Ha; simpl.
  - f_equal. rewrite filter_none; [reflexivity|].
    destruct (existsb p l) eqn:Hl; [|reflexivity].
    exfalso. apply existsb_exists in Hl. destruct Hl as (b & Hb & Hpb).
    apply Hnin. rewrite (Hp a b Ha Hpb). apply in_map. exact Hb.
  - f_equal. apply IH; assumption.
Qed.

(** X22. [delete_class] removes a class only for its owner: when no
    stored class has the given id and belongs to the caller, be it
    because the id is another user's, the answer is 404 and the
    database is as before; otherwise exactly the caller's class with
    that id goes, one row when ids are unique, and every other class
    and table stays. *)
Theorem delete_class_only_own (class_id : Z) (cookie : option string) (now : datetime)
    (db : database) (user : Z * string) :
  require_user cookie now db = Ok user ->
  ((forall k, In k (tbl_classes db) -> cls_id k = class_id ->
              class_user_id (cls_row k) <> fst user) ->
   delete_class class_id cookie now db =
     (Raise (HTTPException 404 "Class not found"), db))
  /\ (forall db1,
        delete_class class_id cookie now db = (Ok tt, db1) ->
        (forall k, In k (tbl_classes db1) <->
                   In k (tbl_classes db)
                   /\ ~ (cls_id k = class_id /\ class_user_id (cls_row k) = fst user))
        /\ tbl_users db1 = tbl_users db
        /\ tbl_sessions db1 = tbl_sessions db
        /\ tbl_preferences db1 = tbl_preferences db
        /\ (NoDup (map cls_id (tbl_classes db)) ->
            S (List.length (tbl_classes db1)) = List.length (tbl_classes db))).
Proof.
  intros Huser. split.
  - intros Hnone. unfold delete_class. rewrite Huser.
    destruct (existsb _ (tbl_classes db)) eqn:Hex; [|reflexivity].
    exfalso. apply existsb_exists in Hex. destruct Hex as (k & Hin & Hk).
    apply andb_prop in Hk. destruct Hk as [Hid Hown].
    apply Z.eqb_eq in Hid, Hown. exact (Hnone k Hin Hid Hown).
  - intros db1. unfold delete_class. rewrite Huser.
    destruct (existsb _ (tbl_classes db)) eqn:Hex; [|discriminate].
    intros H; inversion H; subst db1; clear H.
    unfold with_classes. cbn [tbl_users tbl_sessions tbl_classes tbl_preferences].
    cbv zeta.
    split; [|split; [reflexivity|split; [reflexivity|split; [reflexivity|]]]].
    + intros k. rewrite filter_In. split.
      * intros [Hin Hk]. split; [exact Hin|].
        apply negb_true_iff in Hk. intros [Hid Hown].
        rewrite <- Z.eqb_eq in Hid, Hown. rewrite Hid, Hown in Hk. discriminate.
      * intros [Hin Hnot]. split; [exact Hin|].
        apply negb_true_iff. apply not_true_is_false. intros Hk. apply Hnot.
        apply andb_prop in Hk. rewrite !Z.eqb_eq in Hk. exact Hk.
    + intros Hnd.
      apply (@filter_remove_unique (tbl_classes db)
               (fun k => (cls_id k =? class_id)
                         && (class_user_id (cls_row k) =? fst user)) Hnd);
        [|exact Hex].
      intros a b Ha Hb. apply andb_prop in Ha, Hb.
      destruct Ha as [Ha _]. destruct Hb as [Hb _].
      apply Z.eqb_eq in Ha, Hb. congruence.
Qed.

Lemma insert_by_start_desc_hd (k x : stored_class) (l : list stored_class) :
  start_time (cls_row k) <= start_time (cls_row x) ->
  HdRel (fun a b => start_time (cls_row b) <= start_time (cls_row a)) x l ->
  HdRel (fun a b => start_time (cls_row b) <= start_time (cls_row a)) x
    (insert_by_start_desc k l).
Proof.
  intros Hkx Hhd. destruct l as [|k' rest]; simpl.
  - constructor. exact Hkx.
  - destruct (start_time (cls_row k') <? start_time (cls_row k)); constructor;
      [exact Hkx | inversion Hhd; assumption].
Qed.

Lemma insert_by_start_desc_sorted (k : stored_class) (l : list stored_class) :
  sorted_by_start_desc l -> sorted_by_start_desc (insert_by_start_desc k l).
Proof.
  unfold sorted_by_start_desc. induction 1 as [|k' rest Hsorted IH Hhd]; simpl.
  - repeat constructor.
  - destruct (Z.ltb_spec (start_time (cls_row k')) (start_time (cls_row k)))
      as [Hlt | Hge].
    + constructor; [constructor; assumption|]. constructor. lia.
    + constructor; [exact IH|]. apply insert_by_start_desc_hd; [lia | exact Hhd].
Qed.

Lemma order_by_start_desc_sorted (l : list stored_class) :
  sorted_by_start_desc (order_by_start_desc l).
Proof.
  unfold order_by_start_desc. induction l as [|k l IH]; simpl.
  - constructor.
  - apply insert_by_start_desc_sorted, IH.
Qed.

Lemma insert_by_start_desc_perm (k : stored_class) (l : list stored_class) :
  Permutation (insert_by_start_desc k l) (k :: l).
Proof.
  induction l as [|k' rest IH]; simpl; [reflexivity|].
  destruct (start_time (cls_row k') <? start_time (cls_row k)); [reflexivity|].
  rewrite IH. apply perm_swap.
Qed.

Lemma order_by_start_desc_perm (l : list stored_class) :
  Permutation (order_by_start_desc l) l.
Proof.
  unfold order_by_start_desc. induction l as [|k l IH]; simpl; [reflexivity|].
  rewrite insert_by_start_desc_perm. constructor. exact IH.
Qed.

Lemma Sorted_firstn {A : Type} (R : A -> A -> Prop) (n : nat) (l : list A) :
  Sorted R l -> Sorted R (firstn n l).
Proof.
  revert l; induction n as [|n IH]; intros l Hs; [constructor|].
  destruct l as [|a l]; [constructor|]. simpl.
  inversion Hs as [|? ? Hs' Hhd]; subst.
  constructor; [apply IH; exact Hs'|].
  destruct n; [constructor|]. destruct l as [|b l]; [constructor|].
  simpl. constructor. inversion Hhd; assumption.
Qed.

Lemma In_firstn_In {A : Type} (n : nat) (l : list A) (x : A) :
  In x (firstn n l) -> In x l.
Proof.
  intros H. rewrite <- (firstn_skipn n l). apply in_or_app. left. exact H.
Qed.

(** X23. [list_classes] answers with at most 50 classes, all of them
    stored classes of the caller, latest start first; when the caller
    has at most 50 classes, these are all of them, each once per stored
    row. *)
Theorem list_classes_bounded (cookie : option string) (now : datetime)
    (db : database) (user : Z * string) :
  require_user cookie now db = Ok user ->
  exists l,
    list_classes cookie now db = Ok l
    /\ (List.length l <= 50)%nat
    /\ (forall k, In k l -> In k (tbl_classes db) /\ class_user_id (cls_row k) = fst user)
    /\ sorted_by_start_desc l
    /\ ((List.length (filter (owned_by (fst user)) (tbl_classes db)) <= 50)%nat ->
        Permutation l (filter (owned_by (fst user)) (tbl_classes db))).
Proof.
  intros Huser. unfold list_classes. rewrite Huser. cbn [rbind].
  eexists. split; [reflexivity|].
  fold (owned_by (fst user)).
  change (fun k => class_user_id (cls_row k) =? fst user) with (owned_by (fst user)).
  split; [apply firstn_le_length|].
  split; [|split].
  - intros k Hk. apply In_firstn_In in Hk.
    apply (Permutation_in _ (order_by_start_desc_perm _)) in Hk.
    apply filter_In in Hk. destruct Hk as [Hin Hown].
    split; [exact Hin | apply Z.eqb_eq; exact Hown].
  - apply Sorted_firstn, order_by_start_desc_sorted.
  - intros Hlen. rewrite firstn_all2; [apply order_by_start_desc_perm|].
    rewrite (Permutation_length (order_by_start_desc_perm _)). exact Hlen.
Qed.


(** X25. A class stored by [create_class] is read by the jobs under
    the times the [TIMESTAMP] columns hold: a time without offset as
    given, a time with an offset as the wall clock of its instant in
    the time zone of the database session.  In an environment whose
    classes are those of the database, the class is among the caller's
    classes of a day exactly when its stored start lies within that
    day, and when its stored end lies within the day the last class end
    of the caller is at least that end. *)
Theorem created_class_reaches_jobs (session_utcoffset : datetime -> Z)
    (cookie : option string) (now : datetime)
    (payload : class_in) (db db1 : database) (user : Z * string) (row : stored_class)
    (e : env) (day : date) :
  require_user cookie now db = Ok user ->
  create_class session_utcoffset cookie now payload db = (Ok row, db1) ->
  classes e = job_classes db1 ->
  let stored_start := start_time (cls_row row) in
  (match pd_utcoffset (ci_start_time payload) with
   | None => stored_start = pd_wall (ci_start_time payload)
   | Some offset =>
       stored_start = pd_wall (ci_start_time payload) - offset
                      + session_utcoffset (pd_wall (ci_start_time payload) - offset)
   end)
  /\ (In (cls_row row) (classes_for_day e (fst user) day) <->
        combine day time_min <= stored_start <= combine day time_max)
  /\ (forall stored_end,
        end_time (cls_row row) = Some stored_end ->
        stored_end = to_timestamp session_utcoffset (ci_end_time payload)
        /\ (combine day time_min <= stored_end <= combine day time_max ->
            exists m, last_class_end e (fst user) day = Some m /\ stored_end <= m)).
Proof.
  intros Huser Hcreate Hclasses.
  unfold create_class in Hcreate. rewrite Huser in Hcreate.
  destruct (existsb _ (tbl_classes db)) in Hcreate; [discriminate|].
  inversion Hcreate; subst row db1; clear Hcreate.
  assert (Hin : In {| class_user_id := fst user;
                      course_name := ci_course_name payload;
                      start_time := to_timestamp session_utcoffset (ci_start_time payload);
                      end_time := Some (to_timestamp session_utcoffset
                                          (ci_end_time payload));
                      location := ci_location payload |} (classes e)).
  { rewrite Hclasses. unfold job_classes, with_classes. cbn [tbl_classes].
    rewrite map_app. apply in_app_iff. right. left. reflexivity. }
  cbn [cls_row start_time end_time]. cbv zeta. split; [|split].
  - unfold to_timestamp. destruct (pd_utcoffset (ci_start_time payload)); reflexivity.
  - rewrite (classes_for_day_In no_float no_isoformat). cbn [class_user_id start_time].
    tauto.
  - intros stored_end Hend. inversion Hend; subst stored_end.
    split; [reflexivity|]. intros Hday.
    exact (@last_class_end_ge no_float no_isoformat e (fst user) day _ _ Hin
             eq_refl eq_refl Hday).
Qed.

(** ** Logging out *)

Lemma logout_forgets_cookie (cookie : option string) (now : datetime) (db : database) :
  get_current_user cookie now (auth_logout cookie db) = None.
Proof.
  destruct cookie as [token|]; [|reflexivity].
  unfold auth_logout, get_current_user.
  destruct (str_is_empty token) eqn:Hempty; [reflexivity|].
  cbn [with_sessions tbl_sessions tbl_users].
  rewrite flat_map_all_nil; [reflexivity|].
  intros s Hs. apply filter_In in Hs. destruct Hs as [_ Hs].
  apply negb_true_iff in Hs. rewrite Hs. reflexivity.
Qed.

(** X27. After [auth_logout] with a cookie, a request that still
    carries that cookie is refused by every endpoint that calls
    [require_user] or [get_current_user], whatever the time, with 401,
    and the endpoints that write leave the database as it is. *)
Theorem logged_out_cookie_is_refused (cookie : option string) (now : datetime)
    (db : database) :
  let db' := auth_logout cookie db in
  let refused := HTTPException 401 "Unauthorized" in
  auth_me cookie now db' = Raise refused
  /\ list_classes cookie now db' = Raise refused
  /\ get_preferences cookie now db' = Raise refused
  /\ (forall session_utcoffset payload,
        create_class session_utcoffset cookie now payload db' = (Raise refused, db'))
  /\ (forall class_id, delete_class class_id cookie now db' = (Raise refused, db'))
  /\ (forall payload, save_preferences cookie now payload db' = (Raise refused, db')).
Proof.
  intros db' refused.
  pose proof (logout_forgets_cookie cookie now db) as Hnone. fold db' in Hnone.
  assert (Hreq : require_user cookie now db' = Raise refused)
    by (unfold require_user; rewrite Hnone; reflexivity).
  split; [unfold auth_me; rewrite Hnone; reflexivity|].
  split; [unfold list_classes; rewrite Hreq; reflexivity|].
  split; [unfold get_preferences; rewrite Hreq; reflexivity|].
  split; [intros session_utcoffset payload; unfold create_class; rewrite Hreq;
          reflexivity|].
  split; [intros class_id; unfold delete_class; rewrite Hreq; reflexivity|].
  intros payload. unfold save_preferences. rewrite Hreq. reflexivity.
Qed.

(** * The further properties at concrete inputs *)

Lemma resolved_id_comes_from_search_witness :
  resolve_location no_float (search_env [street_place; stop_place]) "Potsdam Hbf"
    empty_world
    = (Ok home_stop,
       with_request empty_world (ReqBvg "/locations" (search_params "Potsdam Hbf")))
  /\ (exists items candidates item,
        bvg_api (search_env [street_place; stop_place]) 0 "/locations"
          (search_params "Potsdam Hbf") = HttpOk items
        /\ py_iter items = Ok candidates
        /\ In item candidates
        /\ normalize_stop_id item = Ok (Some "900000012345")).
Proof.
  split; [reflexivity|].
  exact (proj2 (proj1 (@resolved_id_comes_from_search no_float
                         (search_env [street_place; stop_place]) "Potsdam Hbf" empty_world
                         (with_request empty_world
                            (ReqBvg "/locations" (search_params "Potsdam Hbf")))
                         home_stop eq_refl)
                  "900000012345" eq_refl)).
Defined.

Lemma extract_coords_precedence_witness :
  extract_coords no_float
    (PDict [("latitude", PNum (5240 # 100)); ("longitude", PNum (1306 # 100));
            ("location", PDict [("latitude", PNum 0); ("longitude", PNum 0)])])
    = Ok (Some ((5240 # 100)%Q, (1306 # 100)%Q))
  /\ extract_coords no_float
       (PDict [("latitude", PNone); ("longitude", PNum (1306 # 100));
               ("location", PDict [("latitude", PNum 0); ("longitude", PNum 0)])])
     = Raise TypeError
  /\ extract_coords no_float
       (PDict [("latitude", PNum (inject_Z (2 ^ 1024))); ("longitude", PNum 0)])
     = Raise OverflowError.
Proof.
  split; [|split].
  - apply (proj1 (@extract_coords_precedence no_float
                    [("latitude", PNum (5240 # 100)); ("longitude", PNum (1306 # 100));
                     ("location", PDict [("latitude", PNum 0); ("longitude", PNum 0)])])
             (PNum (5240 # 100)) (PNum (1306 # 100)));
      reflexivity.
  - apply (proj1 (proj2 (proj2 (proj2 (@extract_coords_precedence no_float
                    [("latitude", PNone); ("longitude", PNum (1306 # 100));
                     ("location", PDict [("latitude", PNum 0); ("longitude", PNum 0)])]))))
             PNone (PNum (1306 # 100)));
      reflexivity.
  - pose proof (@extract_coords_precedence no_float
                  [("latitude", PNum (inject_Z (2 ^ 1024))); ("longitude", PNum 0)])
      as (_ & _ & _ & Herr & _ & Hover & _).
    apply (Herr (PNum (inject_Z (2 ^ 1024))) (PNum 0));
      [reflexivity | reflexivity | apply Hover; apply Z.le_refl].
Defined.

Lemma resolve_location_geocoder_fallback_witness :
  resolve_location no_float morning_env "Nowhere" empty_world =
    (Ok unknown_place,
     with_request (with_request empty_world (ReqBvg "/locations" (search_params "Nowhere")))
       (ReqNominatim "Nowhere")).
Proof.
  pose proof (@resolve_location_geocoder_fallback no_float morning_env "Nowhere"
                empty_world (PList []) [] (PList []) eq_refl eq_refl
                (Forall_nil _) (Forall_nil _) eq_refl) as H.
  cbv zeta in H. destruct H as (H & _). apply H. reflexivity.
Defined.

Lemma resolve_location_errors_witness :
  resolve_location no_float (outage_env [] []) "Nowhere" empty_world =
    (Raise (HTTPException 503 "Service Unavailable"),
     with_request empty_world (ReqBvg "/locations" (search_params "Nowhere"))).
Proof.
  pose proof (@resolve_location_errors no_float (outage_env [] []) "Nowhere" empty_world)
    as H.
  cbv zeta in H. destruct H as (H & _). apply H. reflexivity.
Defined.

Lemma last_class_end_is_latest_witness :
  (exists c, In c (classes morning_env) /\ ends_on 1 a_day c (at_time a_day 14 0))
  /\ (forall c t, In c (classes morning_env) -> ends_on 1 a_day c t ->
                  t <= at_time a_day 14 0).
Proof.
  apply (proj2 (last_class_end_is_latest morning_env 1 a_day) (at_time a_day 14 0)).
  reflexivity.
Defined.

Lemma build_arrival_datetime_fields_witness :
  exists r,
    build_arrival_datetime (at_time a_day 7 0) (Some "00:05") "earlier" = Ok (Some r)
    /\ date_of r = a_day - 1
    /\ hour_of r = 23
    /\ minute_of r = 55.
Proof.
  pose proof (@build_arrival_datetime_fields (at_time a_day 7 0) "00:05" "earlier" 0 5
                eq_refl eq_refl) as H.
  cbv zeta in H.
  destruct H as (r & Hr & Hd & Hh & Hm); [lia | lia |].
  exists r. split; [exact Hr|].
  split; [rewrite Hd; reflexivity|].
  split; [rewrite Hh; reflexivity | rewrite Hm; reflexivity].
Defined.

Lemma daily_digest_sent_once_witness :
  let w' :=
    with_daily_record
      (with_mail (with_request empty_world
                    (ReqBrevo "ada@ue-germany.de" daily_subject ada_digest))
         {| sent_tag := (1, a_day, KDaily);
            sent_to := "ada@ue-germany.de";
            sent_subject := daily_subject;
            sent_html := ada_digest |})
      1 a_day in
  daily_for_user no_float no_isoformat no_repr morning_env a_day ada empty_world
    = (Ok tt, w')
  /\ (forall e2, daily_for_user no_float no_isoformat no_repr e2 a_day ada w' = (Ok tt, w')).
Proof.
  assert (Hc : classes_for_day morning_env (user_id ada) a_day <> [])
    by (intros H; vm_compute in H; discriminate).
  exact (@daily_digest_sent_once no_float no_isoformat no_repr morning_env a_day ada
           empty_world empty_world PNone PNone ada_digest
           eq_refl Hc eq_refl eq_refl eq_refl eq_refl eq_refl).
Defined.

Lemma failed_daily_send_leaves_no_record_witness :
  let w' := with_request empty_world
              (ReqBrevo "ada@ue-germany.de" daily_subject ada_digest) in
  daily_for_user no_float no_isoformat no_repr refusing_env a_day ada empty_world
    = (Ok tt, w')
  /\ same_store empty_world w'
  /\ existsb (daily_row_matches 1 a_day) (email_notifications w') = false.
Proof.
  assert (Hc : classes_for_day refusing_env (user_id ada) a_day <> [])
    by (intros H; vm_compute in H; discriminate).
  apply (@failed_daily_send_leaves_no_record no_float no_isoformat no_repr refusing_env
           a_day ada empty_world empty_world PNone ada_digest
           eq_refl Hc eq_refl eq_refl eq_refl eq_refl).
  intros body H. discriminate H.
Defined.

Lemma unconfigured_mail_still_records_witness :
  let w' := with_daily_record empty_world 1 a_day in
  daily_for_user no_float no_isoformat no_repr unconfigured_env a_day ada empty_world
    = (Ok tt, w')
  /\ outbox w' = outbox empty_world
  /\ (forall e2, daily_for_user no_float no_isoformat no_repr e2 a_day ada w' = (Ok tt, w')).
Proof.
  assert (Hc : classes_for_day unconfigured_env (user_id ada) a_day <> [])
    by (intros H; vm_compute in H; discriminate).
  exact (@unconfigured_mail_still_records no_float no_isoformat no_repr unconfigured_env
           a_day ada empty_world empty_world PNone ada_digest
           eq_refl Hc eq_refl eq_refl (or_introl eq_refl)).
Defined.

Lemma verify_password_accepts_own_hash_witness :
  exists stored,
    hash_password plain_b64encode joined_pbkdf2 "NaCl" "correct horse" = Ok stored
    /\ verify_password plain_b64decode joined_pbkdf2 "correct horse" stored = Ok true
    /\ (forall other dk',
          joined_pbkdf2 other "NaCl" 120000 = Ok dk' ->
          verify_password plain_b64decode joined_pbkdf2 other stored
            = Ok (String.eqb dk' "correct horseNaCl")).
Proof.
  exact (@verify_password_accepts_own_hash plain_b64encode plain_b64decode joined_pbkdf2
           "NaCl" "correct horse" "correct horseNaCl"
           eq_refl eq_refl eq_refl eq_refl eq_refl eq_refl).
Defined.

Lemma verify_password_rejects_malformed_witness :
  verify_password plain_b64decode joined_pbkdf2 "correct horse" "md5$2$NaCl" = Ok false
  /\ verify_password plain_b64decode joined_pbkdf2 "correct horse"
       "bcrypt$120000$NaCl$correct horseNaCl" = Ok false.
Proof.
  split.
  - apply (proj1 (@verify_password_rejects_malformed plain_b64decode joined_pbkdf2
                    "correct horse" "md5$2$NaCl")).
    cbv. lia.
  - apply (proj2 (@verify_password_rejects_malformed plain_b64decode joined_pbkdf2
                    "correct horse" "bcrypt$120000$NaCl$correct horseNaCl")
             "bcrypt" "120000$NaCl$correct horseNaCl");
      [reflexivity | reflexivity | discriminate].
Defined.

Lemma campus_db_accounts_ok : accounts_ok campus_db.
Proof.
  unfold accounts_ok, campus_db. cbn [tbl_users tbl_sessions users_id_seq map].
  split; [|split; [|split; [|split]]].
  - repeat constructor; cbn; intuition discriminate.
  - repeat constructor; cbn; intuition discriminate.
  - intros u [<- | [<- | []]]; split; reflexivity.
  - repeat constructor; cbn; intuition discriminate.
  - intros s [<- | []]. exists ada_account. split; [left; reflexivity | reflexivity].
Qed.


Lemma accounts_stay_wellformed_witness :
  accounts_ok (snd (auth_signup plain_b64encode joined_pbkdf2 "NaCl" "carol-token"
                      (at_time a_day 7 0) carol_signup campus_db))
  /\ accounts_ok (auth_logout (Some "ada-token") campus_db).
Proof.
  pose proof (@accounts_stay_wellformed plain_b64encode plain_b64decode joined_pbkdf2
                campus_db campus_db_accounts_ok) as (Hsignup & _ & Hlogout).
  split; [apply Hsignup | apply Hlogout].
Defined.

Lemma signup_then_login_witness :
  let db1 := snd (auth_signup plain_b64encode joined_pbkdf2 "NaCl" "carol-token"
                    (at_time a_day 7 0) carol_signup campus_db) in
  auth_login plain_b64decode joined_pbkdf2 "carol-token-2" (at_time a_day 8 0)
    {| ai_email := "carol@ue-germany.de"; ai_password := "correct horse" |} db1 =
    (Ok "carol-token-2",
     with_sessions db1
       (tbl_sessions db1 ++ [{| ses_user_id := 3; ses_token := "carol-token-2";
                                ses_expires_at := at_time a_day 8 0 + seven_days |}]))
  /\ auth_login plain_b64decode joined_pbkdf2 "carol-token-2" (at_time a_day 8 0)
       {| ai_email := "carol@ue-germany.de"; ai_password := "battery staple" |} db1 =
       (Raise (HTTPException 401 "Invalid credentials"), db1).
Proof.
  intros db1.
  assert (Hfresh : ~ In "carol-token-2" (map ses_token (tbl_sessions db1))).
  { intros H. vm_compute in H. intuition discriminate. }
  pose proof (@signup_then_login plain_b64encode plain_b64decode joined_pbkdf2
                "NaCl" "carol-token" "carol-token-2" (at_time a_day 7 0) (at_time a_day 8 0)
                carol_signup campus_db db1 "carol-token" "correct horseNaCl"
                eq_refl eq_refl eq_refl eq_refl eq_refl eq_refl eq_refl Hfresh)
    as (Hsame & Hother).
  split.
  - apply (Hsame {| ai_email := "carol@ue-germany.de"; ai_password := "correct horse" |});
      reflexivity.
  - apply (Hother {| ai_email := "carol@ue-germany.de"; ai_password := "battery staple" |}
             "battery stapleNaCl"); [reflexivity | reflexivity | discriminate].
Defined.

Lemma session_round_trip_witness :
  let db1 := snd (create_session "bob-token" (at_time a_day 7 0) 2 campus_db) in
  get_current_user (Some "bob-token") (at_time (a_day + 6) 7 0) db1
    = Some (2, "bob@ue-germany.de")
  /\ get_current_user (Some "bob-token") (at_time (a_day + 7) 7 0) db1 = None
  /\ get_current_user (Some "bob-token") (at_time a_day 7 0)
       (auth_logout (Some "bob-token") db1) = None
  /\ get_current_user (Some "ada-token") (at_time a_day 7 0)
       (auth_logout (Some "bob-token") db1) = Some (1, "ada@ue-germany.de").
Proof.
  intros db1.
  pose proof (@session_round_trip campus_db db1 bob_account "bob-token" "bob-token"
                (at_time a_day 7 0) campus_db_accounts_ok
                (or_intror (or_introl eq_refl)) eq_refl eq_refl)
    as (_ & Hget & Hout & Hother).
  split; [exact (Hget (at_time (a_day + 6) 7 0))|].
  split; [exact (Hget (at_time (a_day + 7) 7 0))|].
  split; [exact (Hout (at_time a_day 7 0))|].
  rewrite (Hother "ada-token" (at_time a_day 7 0)); [reflexivity | discriminate].
Defined.


Lemma save_preferences_frame_witness :
  save_preferences (Some "ada-token") (at_time a_day 7 0) (timing_only "sooner") campus_db
    = (Raise (HTTPException 400 "Invalid timing preference"), campus_db).
Proof.
  apply (proj1 (@save_preferences_frame (Some "ada-token") (at_time a_day 7 0)
                  (timing_only "sooner") campus_db (1, "ada@ue-germany.de") eq_refl)).
  reflexivity.
Defined.

Lemma stored_arrival_time_reaches_planner_witness :
  let db1 := snd (save_preferences (Some "ada-token") (at_time a_day 7 0)
                    (arrival_only "25:00") campus_db) in
  build_journey no_isoformat (env_of_database db1) home_stop campus_stop
    (preferences_for_user (env_of_database db1) 1) empty_world
    = (Raise ValueError, empty_world)
  /\ py_int (String (ascii_of_nat 28) "25") = None.
Proof.
  intros db1. split; [|reflexivity].
  pose proof (@stored_arrival_time_reaches_planner no_isoformat (Some "ada-token")
                (at_time a_day 7 0) (arrival_only "25:00") campus_db db1
                (1, "ada@ue-germany.de") "25:00" (env_of_database db1)
                eq_refl eq_refl eq_refl eq_refl eq_refl) as (_ & Hplan).
  apply (Hplan 25 0 home_stop campus_stop (identifier_pair "900000012345" "900000230003"));
    [reflexivity | lia |].
  exact (@by_identifiers home_stop campus_stop _ _ eq_refl eq_refl eq_refl).
Defined.

Lemma delete_class_only_own_witness :
  delete_class 2 (Some "ada-token") (at_time a_day 7 0) campus_db
    = (Raise (HTTPException 404 "Class not found"), campus_db).
Proof.
  apply (proj1 (@delete_class_only_own 2 (Some "ada-token") (at_time a_day 7 0)
                  campus_db (1, "ada@ue-germany.de") eq_refl)).
  intros k [<- | [<- | []]] Hid; cbn in *; [discriminate Hid | discriminate].
Defined.

Lemma list_classes_bounded_witness :
  exists l,
    list_classes (Some "ada-token") (at_time a_day 7 0) campus_db = Ok l
    /\ (List.length l <= 50)%nat
    /\ (forall k, In k l -> In k (tbl_classes campus_db) /\ class_user_id (cls_row k) = 1)
    /\ sorted_by_start_desc l
    /\ ((List.length (filter (owned_by 1) (tbl_classes campus_db)) <= 50)%nat ->
        Permutation l (filter (owned_by 1) (tbl_classes campus_db))).
Proof.
  exact (@list_classes_bounded (Some "ada-token") (at_time a_day 7 0) campus_db
           (1, "ada@ue-germany.de") eq_refl).
Defined.


Lemma created_class_reaches_jobs_witness :
  let stored := {| class_user_id := 1; course_name := "Late Talk";
                   start_time := at_time a_day 0 30;
                   end_time := Some (at_time a_day 0 45);
                   location := "Room 5" |} in
  let created := create_class one_hour_east (Some "ada-token") (at_time a_day 7 0)
                   late_talk campus_db in
  let e := env_of_database (snd created) in
  fst created = Ok {| cls_id := 3; cls_row := stored |}
  /\ In stored (classes_for_day e 1 a_day)
  /\ ~ In stored (classes_for_day e 1 (a_day - 1)).
Proof.
  intros stored created e.
  assert (Hcreated : created = (Ok {| cls_id := 3; cls_row := stored |}, snd created))
    by reflexivity.
  pose proof (@created_class_reaches_jobs one_hour_east (Some "ada-token")
                (at_time a_day 7 0) late_talk campus_db (snd created)
                (1, "ada@ue-germany.de") _ e a_day eq_refl Hcreated eq_refl)
    as (_ & Hin & _).
  pose proof (@created_class_reaches_jobs one_hour_east (Some "ada-token")
                (at_time a_day 7 0) late_talk campus_db (snd created)
                (1, "ada@ue-germany.de") _ e (a_day - 1) eq_refl Hcreated eq_refl)
    as (_ & Hout & _).
  cbv zeta in Hin, Hout. cbn [fst cls_row start_time stored] in Hin, Hout.
  split; [reflexivity|]. split.
  - apply Hin. split; discriminate.
  - intros H. apply Hout in H. destruct H as [_ H]. apply H. reflexivity.
Defined.
